(** * build_linux_mac.py: the cross-toolchain build script

    A shallow embedding of [build_linux_mac.py] and the properties of its
    environment composer, stage runner, recipes, orchestrator and archiver.

    The script is effectful straight-line Python.  It is embedded as
    programs of a state-and-exception monad over a [World]: the dict
    objects of the interpreter ([os.environ] and the copies made of it),
    the current directory, the file system and the trace of observable
    actions.  What the script cannot decide by itself (what an external
    command does and how it exits, whether a download succeeds, what a
    tarball holds) is a parameter of the development, [Externals]. *)

From Stdlib Require Import ZArith Ascii String List Bool Lia.
From stdpp Require Import base option list gmap strings.

Local Open Scope string_scope.
Local Open Scope list_scope.

(** ** Python strings *)

Module Str.

(** [bool(s)] of a Python [str]: the empty string is false. *)
Definition truthy (s : string) : bool :=
  match s with
  | EmptyString => false
  | String _ _ => true
  end.

(** [s.startswith(p)] *)
Fixpoint startswith (p s : string) : bool :=
  match p, s with
  | EmptyString, _ => true
  | String _ _, EmptyString => false
  | String a p', String b s' => Ascii.eqb a b && startswith p' s'
  end.

(** [sub in s] *)
Fixpoint contains (sub s : string) : bool :=
  startswith sub s ||
  match s with
  | EmptyString => false
  | String _ s' => contains sub s'
  end.

(** [s.endswith(c)] for a one-character [c]. *)
Fixpoint endswith_char (c : ascii) (s : string) : bool :=
  match s with
  | EmptyString => false
  | String a EmptyString => Ascii.eqb a c
  | String _ s' => endswith_char c s'
  end.

(** [s.split(sep)] for a one-character separator: always at least one
    piece, empty pieces kept. *)
Fixpoint split (sep : ascii) (s : string) : list string :=
  match s with
  | EmptyString => [EmptyString]
  | String c s' =>
      if Ascii.eqb c sep then EmptyString :: split sep s'
      else match split sep s' with
           | [] => [String c EmptyString]
           | piece :: pieces => String c piece :: pieces
           end
  end.

(** [s.lower()] on ASCII letters. *)
Definition lower_char (c : ascii) : ascii :=
  let n := nat_of_ascii c in
  if Nat.leb 65 n && Nat.leb n 90 then ascii_of_nat (n + 32) else c.

Fixpoint lower (s : string) : string :=
  match s with
  | EmptyString => EmptyString
  | String c s' => String (lower_char c) (lower s')
  end.

(** [sep.join(pieces)] *)
Fixpoint join (sep : string) (pieces : list string) : string :=
  match pieces with
  | [] => EmptyString
  | [piece] => piece
  | piece :: rest => piece +:+ sep +:+ join sep rest
  end.

End Str.

(** ** [os.path] on POSIX

    The script runs on Linux and macOS, where [os.path] is [posixpath].
    The functions below follow [posixpath.py]; the current directory is an
    argument, in place of [os.getcwd()]. *)

Module posixpath.

Definition sep : ascii := "/"%char.

(** [os.path.isabs] *)
Definition isabs (p : string) : bool := Str.startswith "/" p.

(** [os.path.join(a, b)] with one tail argument. *)
Definition join (a b : string) : string :=
  if Str.startswith "/" b then b
  else if negb (Str.truthy a) || Str.endswith_char sep a then a +:+ b
  else a +:+ "/" +:+ b.

(** The loop of [normpath] over the components: [new_comps] is kept in
    reverse, its head is [new_comps[-1]]. *)
Fixpoint normpath_comps (initial_slashes : nat) (comps new_comps : list string)
  : list string :=
  match comps with
  | [] => rev new_comps
  | comp :: comps' =>
      if String.eqb comp "" || String.eqb comp "." then
        normpath_comps initial_slashes comps' new_comps
      else if negb (String.eqb comp "..")
              || (Nat.eqb initial_slashes 0 && match new_comps with [] => true | _ => false end)
              || match new_comps with last :: _ => String.eqb last ".." | [] => false end
      then normpath_comps initial_slashes comps' (comp :: new_comps)
      else normpath_comps initial_slashes comps' (tl new_comps)
  end.

(** [os.path.normpath] *)
Definition normpath (path : string) : string :=
  if String.eqb path "" then "."
  else
    let initial_slashes :=
      if Str.startswith "/" path then
        if Str.startswith "//" path && negb (Str.startswith "///" path) then 2 else 1
      else 0 in
    let comps := normpath_comps initial_slashes (Str.split sep path) [] in
    let path' := Str.join "/" comps in
    let path'' :=
      match initial_slashes with
      | 0 => path'
      | 1 => "/" +:+ path'
      | _ => "//" +:+ path'
      end in
    if String.eqb path'' "" then "." else path''.

(** [os.path.abspath], with [cwd] the result of [os.getcwd()]. *)
Definition abspath (cwd path : string) : string :=
  if isabs path then normpath path else normpath (join cwd path).

(** [os.path.basename]: what follows the last slash. *)
Definition basename (p : string) : string :=
  List.last (Str.split sep p) "".

End posixpath.

(** ** The interpreter state *)

(** The exceptions of the model. *)
Inductive Exn :=
| KeyError (key : string)
| IndexError
| FileNotFoundError
| FileExistsError
| NotADirectoryError
| IsADirectoryError
| URLError
| ReadError.

Inductive Res (A : Type) :=
| Ok (a : A)
| Raise (e : Exn).
Arguments Ok {A} a.
Arguments Raise {A} e.

(** A Python [dict] from [str] to [str] is a finite map; a dict object is
    reached through a reference, so that [env = os.environ] and
    [env = os.environ.copy()] are different programs. *)
Inductive DictRef :=
| OsEnviron
| Obj (n : nat).

(** The file system: every entry with its absolute path, as the list of
    its components, in the order in which a directory scan yields them. *)
Inductive Kind := RegularFile | Directory.

Abbreviation Path := (list string).
Abbreviation FS := (list (list string * Kind)).

(** One launch of an external command: what [subprocess.Popen] is given.
    [stage_env] is the environment the child sees. *)
Record Stage := mkStage {
  stage_args : string;
  stage_env : gmap string string;
  stage_cwd : option string;
  stage_pipe : bool;
}.

(** What a launched command does: the file system it leaves, its exit
    status and what it writes to its standard output. *)
Record Completed := mkCompleted {
  fs_after : FS;
  returncode : Z;
  stdout : string;
}.

Inductive Event :=
| EStdout (text : string)
| EPopen (st : Stage) (status : Z)
| EUrlRetrieve (url filename : string)
| ETarExtract (archive dest : string)
| EOpenWrite (filename : string)
| ETarAdd (name arcname : string).

Record World := mkWorld {
  os_environ : gmap string string;
  heap : list (gmap string string);
  getcwd : string;
  fs : FS;
  trace : list Event;
}.

(** What the script leaves to its collaborators. *)
Record Externals := mkExternals {
  (** the command run by a shell in the given stage, on the given file system *)
  run_command : Stage -> FS -> Completed;
  (** [urllib.request.urlretrieve]: does the transfer succeed? *)
  url_ok : string -> bool;
  (** [TarFile.open(name).extractall]: the members of the archive, as
      paths relative to the destination, or nothing for a broken archive *)
  tar_members : string -> option (list (Path * Kind));
  (** [json.load(open(name))] *)
  load_config : string -> Res (gmap string string);
  (** [platform.system()] and [platform.machine()] *)
  platform_system : string;
  platform_machine : string;
}.

(** ** The monad of the script: state and exceptions *)

Definition M (A : Type) : Type := World -> Res A * World.

Definition ret {A} (a : A) : M A := fun w => (Ok a, w).

Definition raise {A} (e : Exn) : M A := fun w => (Raise e, w).

Definition bind {A B} (c : M A) (k : A -> M B) : M B :=
  fun w =>
    match c w with
    | (Ok a, w') => k a w'
    | (Raise e, w') => (Raise e, w')
    end.

Declare Scope py_scope.
Delimit Scope py_scope with py.
Notation "x <- c ;; k" := (bind c (fun x => k))
  (at level 100, c at next level, right associativity) : py_scope.
Notation "c ;; k" := (bind c (fun _ => k))
  (at level 100, right associativity) : py_scope.
Local Open Scope py_scope.

(** [if b: body] *)
Definition when (b : bool) (body : M unit) : M unit :=
  if b then body else ret tt.

(** [for x in xs: body(x)] *)
Fixpoint for_each {A} (xs : list A) (body : A -> M unit) : M unit :=
  match xs with
  | [] => ret tt
  | x :: xs' => body x ;; for_each xs' body
  end.

Definition get_world : M World := fun w => (Ok w, w).

Definition emit (e : Event) : M unit :=
  fun w => (Ok tt, mkWorld (os_environ w) (heap w) (getcwd w) (fs w) (trace w ++ [e])).

Definition set_fs (f : FS) : M unit :=
  fun w => (Ok tt, mkWorld (os_environ w) (heap w) (getcwd w) f (trace w)).

Definition newline : string := String (ascii_of_nat 10) EmptyString.

(** [print(s)] and [print(s, end='')] *)
Definition print (s : string) : M unit := emit (EStdout (s +:+ newline)).
Definition print_no_end (s : string) : M unit := emit (EStdout s).

(** *** Dict objects *)

Definition deref (r : DictRef) (w : World) : gmap string string :=
  match r with
  | OsEnviron => os_environ w
  | Obj n => default ∅ (heap w !! n)
  end.

(** [d.copy()]: a new object with the same items. *)
Definition dict_copy (r : DictRef) : M DictRef :=
  fun w =>
    (Ok (Obj (length (heap w))),
     mkWorld (os_environ w) (heap w ++ [deref r w]) (getcwd w) (fs w) (trace w)).

(** [d[k]] *)
Definition getitem (r : DictRef) (k : string) : M string :=
  fun w =>
    match deref r w !! k with
    | Some v => (Ok v, w)
    | None => (Raise (KeyError k), w)
    end.

(** [d[k] = v] *)
Definition setitem (r : DictRef) (k v : string) : M unit :=
  fun w =>
    match r with
    | OsEnviron =>
        (Ok tt, mkWorld (<[k := v]> (os_environ w)) (heap w) (getcwd w) (fs w) (trace w))
    | Obj n =>
        (Ok tt, mkWorld (os_environ w) (alter (insert k v) n (heap w))
                        (getcwd w) (fs w) (trace w))
    end.

(** [os.path.abspath(p)] in the current directory of the process. *)
Definition abspath (p : string) : M string :=
  fun w => (Ok (posixpath.abspath (getcwd w) p), w).

(** ** The Environment Composer *)

Definition get_build_env (prefix mingw_gcc elf_gcc target : string) : M DictRef :=
  env <- dict_copy OsEnviron ;;
  setitem env "PREFIX" prefix ;;
  setitem env "TARGET" target ;;
  when (Str.truthy elf_gcc)
    (a <- abspath elf_gcc ;;
     path <- getitem env "PATH" ;;
     setitem env "PATH" (a +:+ "/bin:" +:+ path)) ;;
  when (Str.truthy mingw_gcc)
    (a <- abspath mingw_gcc ;;
     path <- getitem env "PATH" ;;
     setitem env "PATH" (a +:+ "/bin:" +:+ path)) ;;
  a <- abspath prefix ;;
  path <- getitem env "PATH" ;;
  setitem env "PATH" (a +:+ "/bin:" +:+ path) ;;
  ret env.

(** ** The file system

    No permissions and no symbolic links: an operation fails only because
    an entry is missing or of the wrong kind.  A new entry comes last in
    the scan order.  A name is any string without a slash, and names are
    compared as they are written: what a real file system asks of a name
    (its length, no NUL character, the case of its letters) is left out.

    A path stands for the place that [os.path.abspath] gives it, whereas
    the kernel walks a path one component at a time.  The two agree as
    long as the directories named on the way are there; they differ on the
    empty path, and on a path that leaves a missing component again
    through [..], where the kernel fails.  A statement that depends on the
    place of a path from outside the script is made for plain paths
    ([plain_path]). *)

Module Fs.

(** The place of a path: the components of its absolute, normalised
    form, from the root. *)
Definition resolve (cwd p : string) : Path :=
  List.filter Str.truthy (Str.split posixpath.sep (posixpath.abspath cwd p)).

Fixpoint kind_of (f : FS) (p : Path) : option Kind :=
  match f with
  | [] => None
  | (q, k) :: f' => if decide (q = p) then Some k else kind_of f' p
  end.

Definition isdir (f : FS) (p : Path) : bool :=
  match kind_of f p with
  | Some Directory => true
  | _ => false
  end.

(** [strip_prefix d q] is what follows [d] in [q], when [q] is [d] or
    lies under it. *)
Fixpoint strip_prefix (d q : Path) : option Path :=
  match d, q with
  | [], _ => Some q
  | _ :: _, [] => None
  | a :: d', b :: q' => if String.eqb a b then strip_prefix d' q' else None
  end.

Definition under (d : Path) (e : Path * Kind) : bool :=
  match strip_prefix d e.1 with
  | Some _ => true
  | None => false
  end.

Definition child_name (d : Path) (e : Path * Kind) : option string :=
  match strip_prefix d e.1 with
  | Some [name] => Some name
  | _ => None
  end.

(** The names a scan of directory [d] yields, in scan order. *)
Definition scan (f : FS) (d : Path) : list string :=
  omap (child_name d) f.

(** Removing [d] and everything under it. *)
Definition remove_tree (f : FS) (d : Path) : FS :=
  List.filter (fun e => negb (under d e)) f.

(** Adding an entry, unless the path is taken. *)
Definition add (f : FS) (p : Path) (k : Kind) : FS :=
  match kind_of f p with
  | Some _ => f
  | None => f ++ [(p, k)]
  end.

(** [os.makedirs(p, exist_ok=True)] on the components of [p]: every
    missing directory on the way is made; a regular file on the way, or
    at [p] itself, is an error.  [above] is the part already walked. *)
Fixpoint makedirs (above todo : Path) (f : FS) : Res FS :=
  match todo with
  | [] => Ok f
  | c :: todo' =>
      let p := above ++ [c] in
      match kind_of f p with
      | Some Directory => makedirs p todo' f
      | Some RegularFile =>
          match todo' with
          | [] => Raise FileExistsError
          | _ :: _ => Raise NotADirectoryError
          end
      | None => makedirs p todo' (f ++ [(p, Directory)])
      end
  end.

End Fs.

(** [os.path.isdir(p)] *)
Definition os_path_isdir (p : string) : M bool :=
  fun w => (Ok (Fs.isdir (fs w) (Fs.resolve (getcwd w) p)), w).

(** [os.makedirs(p, exist_ok=True)] *)
Definition os_makedirs (p : string) : M unit :=
  fun w =>
    match Fs.makedirs [] (Fs.resolve (getcwd w) p) (fs w) with
    | Ok f => set_fs f w
    | Raise e => (Raise e, w)
    end.

(** [os.listdir(p)] *)
Definition os_listdir (p : string) : M (list string) :=
  fun w =>
    let d := Fs.resolve (getcwd w) p in
    match Fs.kind_of (fs w) d with
    | Some Directory => (Ok (Fs.scan (fs w) d), w)
    | Some RegularFile => (Raise NotADirectoryError, w)
    | None => (Raise FileNotFoundError, w)
    end.

(** [shutil.rmtree(p, ignore_errors=True)]: a missing [p], or a [p] that
    is no directory, is an error, and the error is ignored. *)
Definition shutil_rmtree (p : string) : M unit :=
  fun w =>
    let d := Fs.resolve (getcwd w) p in
    if Fs.isdir (fs w) d then set_fs (Fs.remove_tree (fs w) d) w
    else (Ok tt, w).

(** The names the pattern [*sub*] matches: [fnmatch] wants the name to
    contain [sub], and [glob] passes over names that begin with a dot,
    since the pattern does not. *)
Definition glob_match (sub name : string) : bool :=
  negb (Str.startswith "." name) && Str.contains sub name.

(** [glob.glob(f'{dir}/*{sub}*')]: the matching entries of [dir] in scan
    order, each joined to [dir]; nothing when [dir] cannot be scanned. *)
Definition glob_glob (dir sub : string) : M (list string) :=
  fun w =>
    let d := Fs.resolve (getcwd w) dir in
    if Fs.isdir (fs w) d then
      (Ok (map (fun name => posixpath.join dir name)
               (List.filter (glob_match sub) (Fs.scan (fs w) d))), w)
    else (Ok [], w).

(** [l[0]] *)
Definition item0 {A} (l : list A) : M A :=
  match l with
  | [] => raise IndexError
  | x :: _ => ret x
  end.

(** [open(p, 'w')], also through [lzma.LZMAFile(p, 'w')]: the file is
    created, or truncated, in a directory that exists. *)
Definition open_write (p : string) : M unit :=
  fun w =>
    let q := Fs.resolve (getcwd w) p in
    match Fs.kind_of (fs w) q with
    | Some Directory => (Raise IsADirectoryError, w)
    | Some RegularFile => emit (EOpenWrite p) w
    | None =>
        match Fs.kind_of (fs w) (removelast q) with
        | Some Directory => (set_fs (Fs.add (fs w) q RegularFile) ;; emit (EOpenWrite p)) w
        | Some RegularFile => (Raise NotADirectoryError, w)
        | None => (Raise FileNotFoundError, w)
        end
    end.

(** ** The Stage Runner *)

(** What the script holds of a launched process. *)
Record Process := mkProcess {
  proc_returncode : Z;
  proc_stdout : string;
}.

(** How the script waits for a process it launched:
    [get_subprocess_output(p)], [p.wait()], or not at all. *)
Inductive Collect := StreamOutput | WaitExit | Detach.

(** One block of a recipe: the [print] that announces it, the [Popen] and
    the way its end is awaited.  [step_env] is the [env=] argument, absent
    when the child inherits [os.environ]; [step_cwd] is [cwd=]. *)
Record Step := mkStep {
  step_label : string;
  step_args : string;
  step_env : option DictRef;
  step_cwd : option string;
  step_collect : Collect;
}.

(** A block that pipes the output and streams it. *)
Definition piped (label args : string) (env : DictRef) (cwd : string) : Step :=
  mkStep label args (Some env) (Some cwd) StreamOutput.

(** A block given the command only. *)
Definition bare (label args : string) (c : Collect) : Step :=
  mkStep label args None None c.

Definition step_pipe (s : Step) : bool :=
  match step_collect s with
  | StreamOutput => true
  | _ => false
  end.

(** The stage a step launches in a given world. *)
Definition stage_of (w : World) (s : Step) : Stage :=
  mkStage (step_args s) (deref (default OsEnviron (step_env s)) w)
          (step_cwd s) (step_pipe s).

Section Script.

Context (ext : Externals).

(** [subprocess.Popen(args, stdout=..., env=..., cwd=..., shell=True)].
    The launch fails when [cwd] is no directory; a command the shell
    cannot run is an exit status, not an exception.  The command is
    taken to end, and its effect on the file system to be in place, by
    the time the script goes on. *)
Definition Popen (s : Step) : M Process :=
  fun w =>
    let st := stage_of w s in
    let launch :=
      let c := run_command ext st (fs w) in
      (Ok (mkProcess (returncode c) (if step_pipe s then stdout c else "")),
       mkWorld (os_environ w) (heap w) (getcwd w) (fs_after c)
               (trace w ++ [EPopen st (returncode c)])) in
    match step_cwd s with
    | None => launch
    | Some d =>
        match Fs.kind_of (fs w) (Fs.resolve (getcwd w) d) with
        | Some Directory => launch
        | Some RegularFile => (Raise NotADirectoryError, w)
        | None => (Raise FileNotFoundError, w)
        end
    end.

(** [get_subprocess_output(pipe)]: the lines of the child are printed as
    they come, then what is left; taken together, its whole output.
    [pipe.returncode], which [poll] sets, is not looked at.  The output
    is taken to be UTF-8 text, which [decode('utf-8')] gives back as it
    is: the [UnicodeDecodeError] that other bytes would raise is left out
    of the model. *)
Definition get_subprocess_output (pipe : Process) : M unit :=
  print_no_end (proc_stdout pipe).

(** [p.wait()] *)
Definition wait (p : Process) : M Z := ret (proc_returncode p).

Definition run_step (s : Step) : M unit :=
  print (step_label s) ;;
  p <- Popen s ;;
  match step_collect s with
  | StreamOutput => get_subprocess_output p
  | WaitExit => _ <- wait p ;; ret tt
  | Detach => ret tt
  end.

Definition run_steps (steps : list Step) : M unit :=
  for_each steps run_step.

(** ** The recipes *)

(** *** Native, target MinGW *)

Definition build_mingw_toolchain_stages_1
    (target prefix binutils gcc mingw : string) (env : DictRef) : list Step :=
  [ piped "   Configuring binutils..."
      ("../../" +:+ binutils +:+ "/configure --target=" +:+ target +:+ " --prefix=" +:+ prefix
       +:+ " --with-sysroot=" +:+ prefix +:+ " --disable-nls --disable-werror --without-zstd")
      env ("build/build-binutils-" +:+ target +:+ "/");
    piped "   Building binutils..." "gmake -j16"
      env ("build/build-binutils-" +:+ target +:+ "/");
    piped "   Installing binutils..." "gmake install-strip"
      env ("build/build-binutils-" +:+ target +:+ "/");
    piped "  Configuring mingw headers..."
      ("../../" +:+ mingw +:+ "/mingw-w64-headers/configure --host=" +:+ target
       +:+ " --prefix=" +:+ prefix +:+ "/" +:+ target)
      env ("build/build-mingw-headers-" +:+ target +:+ "/");
    piped "   Installing mingw headers..." "gmake install"
      env ("build/build-mingw-headers-" +:+ target +:+ "/");
    bare "   Creating symlink..."
      ("ln -s " +:+ prefix +:+ "/" +:+ target +:+ " " +:+ prefix +:+ "/mingw") Detach;
    piped "   Download prerequisites..." "contrib/download_prerequisites" env gcc;
    piped "   Configuring gcc..."
      ("../../" +:+ gcc +:+ "/configure --target=" +:+ target +:+ " --with-sysroot=" +:+ prefix
       +:+ " --with-ld=" +:+ prefix +:+ "/bin/" +:+ target +:+ "-ld --with-as=" +:+ prefix
       +:+ "/bin/" +:+ target +:+ "-as --prefix=" +:+ prefix
       +:+ " --without-zstd --disable-nls --disable-multilib --disable-werror --enable-languages=c,c++ --enable-threads=posix")
      env ("build/build-gcc-" +:+ target +:+ "/");
    piped "   Building gcc..." "gmake all-gcc -j16"
      env ("build/build-gcc-" +:+ target +:+ "/");
    piped "   Installing gcc..." "gmake install-strip-gcc"
      env ("build/build-gcc-" +:+ target +:+ "/") ].

Definition build_mingw_toolchain_stages_2
    (target prefix mingw : string) (env env_copy : DictRef) : list Step :=
  [ piped "  Configuring mingw..."
      ("../../" +:+ mingw +:+ "/mingw-w64-crt/configure --host=" +:+ target +:+ " --prefix="
       +:+ prefix +:+ "/" +:+ target +:+ " --with-sysroot=" +:+ prefix +:+ "/" +:+ target
       +:+ " --disable-multilib")
      env_copy ("build/build-mingw-libs-" +:+ target +:+ "/");
    piped "  Building mingw..." "gmake -j16"
      env_copy ("build/build-mingw-libs-" +:+ target +:+ "/");
    piped "  Installing mingw..." "gmake install-strip"
      env_copy ("build/build-mingw-libs-" +:+ target +:+ "/");
    piped "  Configuring mingw winpthreads..."
      ("../../" +:+ mingw +:+ "/mingw-w64-libraries/winpthreads/configure --host=" +:+ target
       +:+ " --with-sysroot=" +:+ prefix +:+ "/" +:+ target +:+ " --prefix=" +:+ prefix
       +:+ "/" +:+ target)
      env_copy ("build/build-mingw-winpthreads-" +:+ target +:+ "/");
    piped "  Building mingw winpthreads..." "gmake -j16"
      env_copy ("build/build-mingw-winpthreads-" +:+ target +:+ "/");
    piped "  Installing mingw winpthreads..." "gmake install-strip"
      env_copy ("build/build-mingw-winpthreads-" +:+ target +:+ "/");
    piped "  Building gcc libs..." "gmake -j16"
      env ("build/build-gcc-" +:+ target +:+ "/");
    piped "   Installing gcc libs..." "gmake install-strip"
      env ("build/build-gcc-" +:+ target +:+ "/") ].

Definition build_mingw_toolchain (prefix : string) : M unit :=
  let target := "x86_64-w64-mingw32" in
  env <- get_build_env prefix "" "" target ;;
  os_makedirs ("build/build-binutils-" +:+ target) ;;
  os_makedirs ("build/build-gcc-" +:+ target) ;;
  os_makedirs ("build/build-mingw-headers-" +:+ target) ;;
  os_makedirs ("build/build-mingw-libs-" +:+ target) ;;
  os_makedirs ("build/build-mingw-winpthreads-" +:+ target) ;;
  binutils <- (l <- glob_glob "sources" "binutils" ;; item0 l) ;;
  gcc <- (l <- glob_glob "sources" "gcc" ;; item0 l) ;;
  mingw <- (l <- glob_glob "sources" "mingw" ;; item0 l) ;;
  aprefix <- abspath prefix ;;
  run_steps (build_mingw_toolchain_stages_1 target aprefix binutils gcc mingw env) ;;
  env_copy <- dict_copy env ;;
  setitem env_copy "CC" (target +:+ "-gcc") ;;
  setitem env_copy "CXX" (target +:+ "-g++") ;;
  setitem env_copy "CPP" (target +:+ "-cpp") ;;
  run_steps (build_mingw_toolchain_stages_2 target aprefix mingw env env_copy).

(** [cleanup()] *)
Definition cleanup : M unit :=
  shutil_rmtree "build" ;;
  shutil_rmtree "sources" ;;
  shutil_rmtree "tarballs".

(** *** Native, target ELF *)

Definition build_elf_toolchain_stages
    (target prefix binutils gdb gcc : string) (env : DictRef) : list Step :=
  [ piped "   Configuring binutils..."
      ("../../" +:+ binutils +:+ "/configure --target=" +:+ target +:+ " --prefix=" +:+ prefix
       +:+ " --disable-nls --disable-werror --without-zstd")
      env ("build/build-binutils-" +:+ target +:+ "/");
    piped "   Building binutils..." "gmake -j16"
      env ("build/build-binutils-" +:+ target +:+ "/");
    piped "   Installing binutils..." "gmake install-strip"
      env ("build/build-binutils-" +:+ target +:+ "/");
    piped "   Download prerequisites..." "contrib/download_prerequisites" env gcc;
    piped "   Configuring gcc..."
      ("../../" +:+ gcc +:+ "/configure --target=" +:+ target +:+ " --prefix=" +:+ prefix
       +:+ " --disable-nls --disable-multilib --disable-werror --disable-libstdcxx --without-zstd --without-headers --without-newlib --enable-languages=c,c++")
      env ("build/build-gcc-" +:+ target +:+ "/");
    piped "   Building gcc..." "gmake all-gcc -j16"
      env ("build/build-gcc-" +:+ target +:+ "/");
    piped "   Installing gcc..." "gmake install-strip-gcc"
      env ("build/build-gcc-" +:+ target +:+ "/");
    piped "  Building gcc libs..."
      "gmake all-target-libgcc CFLAGS_FOR_TARGET='-g -O2 -mno-red-zone' -j16"
      env ("build/build-gcc-" +:+ target +:+ "/");
    piped "   Installing gcc libs..." "gmake install-target-libgcc"
      env ("build/build-gcc-" +:+ target +:+ "/");
    piped "   Installing gmp..." "gmake install-strip"
      env ("build/build-gcc-" +:+ target +:+ "/gmp");
    piped "   Installing mpfr..." "gmake install-strip"
      env ("build/build-gcc-" +:+ target +:+ "/mpfr");
    piped "   Installing mpc..." "gmake install-strip"
      env ("build/build-gcc-" +:+ target +:+ "/mpc");
    piped "   Configuring gdb..."
      ("../../" +:+ gdb +:+ "/configure --target=" +:+ target +:+ " --prefix=" +:+ prefix
       +:+ " --with-gmp=" +:+ prefix +:+ " --with-mpfr=" +:+ prefix
       +:+ " --without-zstd --disable-nls --disable-werror")
      env ("build/build-gdb-" +:+ target +:+ "/");
    piped "   Building gdb..." "gmake all-gdb -j16"
      env ("build/build-gdb-" +:+ target +:+ "/");
    piped "   Installing gdb..." "gmake install-gdb"
      env ("build/build-gdb-" +:+ target +:+ "/") ].

Definition build_elf_toolchain (prefix : string) : M unit :=
  let target := "x86_64-elf" in
  env <- get_build_env prefix "" "" target ;;
  os_makedirs ("build/build-binutils-" +:+ target) ;;
  os_makedirs ("build/build-gdb-" +:+ target) ;;
  os_makedirs ("build/build-gcc-" +:+ target) ;;
  binutils <- (l <- glob_glob "sources" "binutils" ;; item0 l) ;;
  gdb <- (l <- glob_glob "sources" "gdb" ;; item0 l) ;;
  gcc <- (l <- glob_glob "sources" "gcc" ;; item0 l) ;;
  aprefix <- abspath prefix ;;
  run_steps (build_elf_toolchain_stages target aprefix binutils gdb gcc env).

(** *** Windows-hosted, target MinGW *)

Definition build_win_mingw_stages
    (target prefix binutils gcc mingw : string) (env : DictRef) : list Step :=
  [ piped "   Configuring binutils..."
      ("../../" +:+ binutils +:+ "/configure --host=" +:+ target +:+ " --target=" +:+ target
       +:+ " --prefix=" +:+ prefix
       +:+ " --disable-multilib --disable-nls --disable-werror --without-zstd")
      env ("build/build-win-binutils-" +:+ target +:+ "/");
    piped "   Building binutils..." "gmake -j16"
      env ("build/build-win-binutils-" +:+ target +:+ "/");
    piped "   Installing binutils..." "gmake install-strip"
      env ("build/build-win-binutils-" +:+ target +:+ "/");
    piped "   Download prerequisites..." "contrib/download_prerequisites" env gcc;
    piped "   Configuring gcc..."
      ("../../" +:+ gcc +:+ "/configure --host=" +:+ target +:+ " --target=" +:+ target
       +:+ " --prefix=" +:+ prefix
       +:+ " --disable-nls --disable-multilib --disable-werror --without-headers --without-newlib --enable-languages=c")
      env ("build/build-win-gcc-" +:+ target +:+ "/");
    piped "   Building gcc..." "gmake -j16"
      env ("build/build-win-gcc-" +:+ target +:+ "/");
    piped "   Installing gcc..." "gmake install-strip"
      env ("build/build-win-gcc-" +:+ target +:+ "/");
    bare "  Copying libgcc to bin..."
      ("cp " +:+ prefix +:+ "/lib/libgcc_s_seh-1.dll " +:+ prefix +:+ "/bin/") WaitExit;
    piped "  Configuring mingw..."
      ("../../" +:+ mingw +:+ "/configure --host=" +:+ target +:+ " --prefix=" +:+ prefix
       +:+ "/" +:+ target +:+ " --with-libraries=winpthread --disable-multilib")
      env ("build/build-mingw-libs-" +:+ target +:+ "/");
    piped "  Building mingw..." "gmake -j16"
      env ("build/build-mingw-libs-" +:+ target +:+ "/");
    piped "  Installing mingw..." "gmake install-strip"
      env ("build/build-mingw-libs-" +:+ target +:+ "/");
    bare "  Copying libwinpthread to bin..."
      ("cp " +:+ prefix +:+ "/" +:+ target +:+ "/bin/libwinpthread-1.dll " +:+ prefix +:+ "/bin/")
      WaitExit;
    piped "   Installing gmp..." "gmake install-strip"
      env ("build/build-win-gcc-" +:+ target +:+ "/gmp");
    piped "   Installing mpfr..." "gmake install-strip"
      env ("build/build-win-gcc-" +:+ target +:+ "/mpfr");
    piped "   Installing mpc..." "gmake install-strip"
      env ("build/build-win-gcc-" +:+ target +:+ "/mpc") ].

Definition build_win_mingw (prefix mingw_prefix : string) : M unit :=
  let target := "x86_64-w64-mingw32" in
  env <- get_build_env prefix mingw_prefix "" target ;;
  os_makedirs ("build/build-win-binutils-" +:+ target) ;;
  os_makedirs ("build/build-win-gcc-" +:+ target) ;;
  os_makedirs ("build/build-win-mingw-headers-" +:+ target) ;;
  os_makedirs ("build/build-win-mingw-libs-" +:+ target) ;;
  os_makedirs ("build/build-win-mingw-winpthreads-" +:+ target) ;;
  binutils <- (l <- glob_glob "sources" "binutils" ;; item0 l) ;;
  gcc <- (l <- glob_glob "sources" "gcc" ;; item0 l) ;;
  mingw <- (l <- glob_glob "sources" "mingw" ;; item0 l) ;;
  aprefix <- abspath prefix ;;
  run_steps (build_win_mingw_stages target aprefix binutils gcc mingw env).

(** *** Windows-hosted, target ELF *)

Definition build_win_elf_stages
    (host target prefix win_mingw_prefix binutils gdb gcc : string) (env : DictRef)
  : list Step :=
  [ piped "   Configuring binutils..."
      ("../../" +:+ binutils +:+ "/configure --host=" +:+ host +:+ " --target=" +:+ target
       +:+ " --prefix=" +:+ prefix +:+ " --disable-nls --disable-werror --without-zstd")
      env ("build/build-win-elf-binutils-" +:+ target +:+ "/");
    piped "   Building binutils..." "gmake -j16"
      env ("build/build-win-elf-binutils-" +:+ target +:+ "/");
    piped "   Installing binutils..." "gmake install-strip"
      env ("build/build-win-elf-binutils-" +:+ target +:+ "/");
    piped "   Download prerequisites..." "contrib/download_prerequisites" env gcc;
    piped "   Configuring gcc..."
      ("../../" +:+ gcc +:+ "/configure --host=" +:+ host +:+ " --target=" +:+ target
       +:+ " --prefix=" +:+ prefix
       +:+ " --disable-nls --disable-multilib --disable-werror --disable-libstdcxx --without-zstd --without-headers --without-newlib --enable-languages=c,c++")
      env ("build/build-win-elf-gcc-" +:+ target +:+ "/");
    piped "   Building gcc..." "gmake all-gcc -j16"
      env ("build/build-win-elf-gcc-" +:+ target +:+ "/");
    piped "   Installing gcc..." "gmake install-strip-gcc"
      env ("build/build-win-elf-gcc-" +:+ target +:+ "/");
    piped "  Building gcc libs..."
      "gmake all-target-libgcc CFLAGS_FOR_TARGET='-g -O2 -mno-red-zone' -j16"
      env ("build/build-win-elf-gcc-" +:+ target +:+ "/");
    piped "   Installing gcc libs..." "gmake install-target-libgcc"
      env ("build/build-win-elf-gcc-" +:+ target +:+ "/");
    piped "   Configuring gdb..."
      ("../../" +:+ gdb +:+ "/configure --host=" +:+ host +:+ " --target=" +:+ target
       +:+ " --prefix=" +:+ prefix +:+ " --with-gmp=" +:+ win_mingw_prefix
       +:+ " --with-mpfr=" +:+ win_mingw_prefix
       +:+ " --without-zstd --disable-nls --disable-werror")
      env ("build/build-win-elf-gdb-" +:+ target +:+ "/");
    piped "   Building gdb..." "gmake all-gdb -j16"
      env ("build/build-win-elf-gdb-" +:+ target +:+ "/");
    piped "   Installing gdb..." "gmake install-gdb"
      env ("build/build-win-elf-gdb-" +:+ target +:+ "/") ].

Definition build_win_elf (prefix mingw_prefix elf_prefix win_mingw_prefix : string)
  : M unit :=
  let host := "x86_64-w64-mingw32" in
  let target := "x86_64-elf" in
  env <- get_build_env prefix mingw_prefix elf_prefix target ;;
  os_makedirs ("build/build-win-elf-binutils-" +:+ target) ;;
  os_makedirs ("build/build-win-elf-gdb-" +:+ target) ;;
  os_makedirs ("build/build-win-elf-gcc-" +:+ target) ;;
  binutils <- (l <- glob_glob "sources" "binutils" ;; item0 l) ;;
  gdb <- (l <- glob_glob "sources" "gdb" ;; item0 l) ;;
  gcc <- (l <- glob_glob "sources" "gcc" ;; item0 l) ;;
  aprefix <- abspath prefix ;;
  awin_mingw_prefix <- abspath win_mingw_prefix ;;
  run_steps (build_win_elf_stages host target aprefix awin_mingw_prefix binutils gdb gcc env).

(** ** Sources, archives and the orchestrator *)

(** [urllib.request.urlretrieve(url, filename, reporthook)]: the URL is
    opened, then the file is written.  The progress lines of
    [reporthook] depend on the clock and are left out. *)
Definition urlretrieve (url filename : string) : M unit :=
  if url_ok ext url then
    open_write filename ;;
    emit (EUrlRetrieve url filename)
  else raise URLError.

Definition download_sources
    (binutils_version gdb_version gcc_version mingw_version : string) : M unit :=
  let binutils_link := "https://ftp.gnu.org/gnu/binutils" in
  let binutils := "binutils-" +:+ binutils_version in
  let binutils_filename := binutils +:+ ".tar.gz" in
  let gdb_link := "https://ftp.gnu.org/gnu/gdb" in
  let gdb := "gdb-" +:+ gdb_version in
  let gdb_filename := gdb +:+ ".tar.gz" in
  let gcc_link := "https://ftp.gnu.org/gnu/gcc" in
  let gcc := "gcc-" +:+ gcc_version in
  let gcc_filename := gcc +:+ ".tar.gz" in
  let mingw_link :=
    "https://downloads.sourceforge.net/project/mingw-w64/mingw-w64/mingw-w64-release" in
  let mingw := "mingw-w64-v" +:+ mingw_version in
  let mingw_filename := mingw +:+ ".tar.bz2" in
  os_makedirs "tarballs" ;;
  print "   Downloading binutils..." ;;
  urlretrieve (binutils_link +:+ "/" +:+ binutils_filename) ("tarballs/" +:+ binutils_filename) ;;
  print "" ;;
  print "   Downloading gdb..." ;;
  urlretrieve (gdb_link +:+ "/" +:+ gdb_filename) ("tarballs/" +:+ gdb_filename) ;;
  print "" ;;
  print "   Downloading gcc..." ;;
  urlretrieve (gcc_link +:+ "/" +:+ gcc +:+ "/" +:+ gcc_filename) ("tarballs/" +:+ gcc_filename) ;;
  print "" ;;
  print "   Downloading mingw..." ;;
  urlretrieve (mingw_link +:+ "/" +:+ mingw_filename) ("tarballs/" +:+ mingw_filename) ;;
  print "".

(** One member of an archive put under [dest], with the directories
    above it. *)
Definition extract_member (dest : Path) (f : Res FS) (m : Path * Kind) : Res FS :=
  match f with
  | Raise e => Raise e
  | Ok f =>
      match Fs.makedirs [] (removelast (dest ++ m.1)) f with
      | Ok f' => Ok (Fs.add f' (dest ++ m.1) m.2)
      | Raise e => Raise e
      end
  end.

(** [TarFile.open(archive, 'r').extractall(dest)] *)
Definition tar_extractall (archive dest : string) : M unit :=
  fun w =>
    match Fs.kind_of (fs w) (Fs.resolve (getcwd w) archive) with
    | None => (Raise FileNotFoundError, w)
    | Some Directory => (Raise IsADirectoryError, w)
    | Some RegularFile =>
        match tar_members ext archive with
        | None => (Raise ReadError, w)
        | Some members =>
            match fold_left (extract_member (Fs.resolve (getcwd w) dest)) members (Ok (fs w)) with
            | Ok f => (set_fs f ;; emit (ETarExtract archive dest)) w
            | Raise e => (Raise e, w)
            end
        end
    end.

Definition extract_sources : M unit :=
  os_makedirs "sources" ;;
  filenames <- os_listdir "tarballs" ;;
  for_each filenames (fun filename =>
    if negb (Str.contains ".tar." filename) then ret tt
    else
      print ("   Extracting " +:+ filename +:+ "...") ;;
      tar_extractall ("tarballs/" +:+ filename) "sources").

(** [tar_file.add(name, arcname=arcname)] *)
Definition tar_add (name arcname : string) : M unit :=
  emit (ETarAdd name arcname).

Definition pack_compiler (archive_prefix prefix arch platform binfmt : string) : M unit :=
  open_write (posixpath.join archive_prefix
                (arch +:+ "-" +:+ platform +:+ "-" +:+ binfmt +:+ "-gcc.tar.xz")) ;;
  filenames <- os_listdir prefix ;;
  for_each filenames (fun filename =>
    let path := posixpath.join prefix filename in
    tar_add (posixpath.join prefix filename) (posixpath.basename path)).

(** The parsed command line: [vars(parser.parse_args())]. *)
Record Args := mkArgs {
  arg_build_mingw : bool;
  arg_build_elf : bool;
  arg_build_win_mingw : bool;
  arg_build_win_elf : bool;
  arg_pack_mingw : bool;
  arg_pack_elf : bool;
  arg_pack_win_mingw : bool;
  arg_pack_win_elf : bool;
  arg_cleanup : bool;
  arg_config : string;
}.

(** [f = open(name); config = json.load(f); f.close()] *)
Definition json_load (name : string) : M (gmap string string) :=
  fun w =>
    match load_config ext name with
    | Ok config => (Ok config, w)
    | Raise e => (Raise e, w)
    end.

(** [config[key]] *)
Definition config_get (config : gmap string string) (key : string) : M string :=
  match config !! key with
  | Some v => ret v
  | None => raise (KeyError key)
  end.

(** [main()], from the parsed command line on. *)
Definition main (args : Args) : M unit :=
  config <- json_load (arg_config args) ;;
  if arg_cleanup args then
    print "Cleanup..." ;;
    cleanup ;;
    print "Done."
  else
    have_tarballs <- os_path_isdir "tarballs" ;;
    when (negb have_tarballs)
      (print "Downloading sources:" ;;
       binutils <- config_get config "binutils" ;;
       gdb <- config_get config "gdb" ;;
       gcc <- config_get config "gcc" ;;
       mingw <- config_get config "mingw" ;;
       download_sources binutils gdb gcc mingw ;;
       print "Done.") ;;
    have_sources <- os_path_isdir "sources" ;;
    when (negb have_sources)
      (print "Extracting sources..." ;;
       extract_sources ;;
       print "Done.") ;;
    when (arg_build_mingw args)
      (print "Building MinGW toolchain..." ;;
       mingw_prefix <- config_get config "mingw_prefix" ;;
       build_mingw_toolchain mingw_prefix ;;
       print "Done.") ;;
    when (arg_build_elf args)
      (print "Building ELF toolchain..." ;;
       elf_prefix <- config_get config "elf_prefix" ;;
       build_elf_toolchain elf_prefix ;;
       print "Done.") ;;
    when (arg_build_win_mingw args)
      (print "Building Windows MinGW toolchain..." ;;
       mingw_win_prefix <- config_get config "mingw_win_prefix" ;;
       mingw_prefix <- config_get config "mingw_prefix" ;;
       build_win_mingw mingw_win_prefix mingw_prefix ;;
       print "Done.") ;;
    when (arg_build_win_elf args)
      (print "Building Windows ELF toolchain..." ;;
       elf_win_prefix <- config_get config "elf_win_prefix" ;;
       mingw_prefix <- config_get config "mingw_prefix" ;;
       elf_prefix <- config_get config "elf_prefix" ;;
       mingw_win_prefix <- config_get config "mingw_win_prefix" ;;
       build_win_elf elf_win_prefix mingw_prefix elf_prefix mingw_win_prefix ;;
       print "Done.") ;;
    let os_name := Str.lower (platform_system ext) in
    let arch := Str.lower (platform_machine ext) in
    when (arg_pack_mingw args)
      (archive_prefix <- config_get config "archive_prefix" ;;
       os_makedirs archive_prefix ;;
       print ("Packing MinGW for " +:+ arch +:+ "-" +:+ os_name) ;;
       archive_prefix <- config_get config "archive_prefix" ;;
       mingw_prefix <- config_get config "mingw_prefix" ;;
       pack_compiler archive_prefix mingw_prefix arch os_name "mingw" ;;
       print "Done.") ;;
    when (arg_pack_elf args)
      (archive_prefix <- config_get config "archive_prefix" ;;
       os_makedirs archive_prefix ;;
       print ("Packing ELF for " +:+ arch +:+ "-" +:+ os_name) ;;
       archive_prefix <- config_get config "archive_prefix" ;;
       elf_prefix <- config_get config "elf_prefix" ;;
       pack_compiler archive_prefix elf_prefix arch os_name "elf" ;;
       print "Done.") ;;
    when (arg_pack_win_mingw args)
      (archive_prefix <- config_get config "archive_prefix" ;;
       os_makedirs archive_prefix ;;
       print "Packing MinGW for amd64-windows" ;;
       archive_prefix <- config_get config "archive_prefix" ;;
       mingw_win_prefix <- config_get config "mingw_win_prefix" ;;
       pack_compiler archive_prefix mingw_win_prefix "amd64" "windows" "mingw" ;;
       print "Done.") ;;
    when (arg_pack_win_elf args)
      (archive_prefix <- config_get config "archive_prefix" ;;
       os_makedirs archive_prefix ;;
       print "Packing ELF for amd64-windows" ;;
       archive_prefix <- config_get config "archive_prefix" ;;
       elf_win_prefix <- config_get config "elf_win_prefix" ;;
       pack_compiler archive_prefix elf_win_prefix "amd64" "windows" "elf" ;;
       print "Done.").

End Script.

(** * Vocabulary of the statements *)

Definition prepend_bin (cwd dir path : string) : string :=
  posixpath.abspath cwd dir +:+ "/bin:" +:+ path.

Definition build_path (cwd prefix mingw_gcc elf_gcc path : string) : string :=
  let path1 := if Str.truthy elf_gcc then prepend_bin cwd elf_gcc path else path in
  let path2 := if Str.truthy mingw_gcc then prepend_bin cwd mingw_gcc path1 else path1 in
  prepend_bin cwd prefix path2.

Definition build_env (w : World) (prefix mingw_gcc elf_gcc target path : string)
  : gmap string string :=
  <["PATH" := build_path (getcwd w) prefix mingw_gcc elf_gcc path]>
    (<["TARGET" := target]> (<["PREFIX" := prefix]> (os_environ w))).

Definition alloc (w : World) (d : gmap string string) : World :=
  mkWorld (os_environ w) (heap w ++ [d]) (getcwd w) (fs w) (trace w).

(** observations *)
Fixpoint launches (t : list Event) : list (Stage * Z) :=
  match t with
  | [] => []
  | EPopen st status :: t' => (st, status) :: launches t'
  | _ :: t' => launches t'
  end.

Definition launched (t : list Event) : list Stage := map fst (launches t).

(** The part of the world a recipe leaves alone while it runs its stages. *)
Definition same_objects (w w' : World) : Prop :=
  os_environ w' = os_environ w /\ heap w' = heap w /\ getcwd w' = getcwd w.

Definition cwd_ok (w : World) (s : Step) : bool :=
  match step_cwd s with
  | None => true
  | Some d => Fs.isdir (fs w) (Fs.resolve (getcwd w) d)
  end.

(** ** Exit statuses *)

(** The same collaborators, with other exit statuses. *)
Definition with_status (g : Stage -> FS -> Z) (ext : Externals) : Externals :=
  mkExternals
    (fun st f =>
       let c := run_command ext st f in
       mkCompleted (fs_after c) (g st f) (stdout c))
    (url_ok ext) (tar_members ext) (load_config ext)
    (platform_system ext) (platform_machine ext).

Definition erase (e : Event) : Event :=
  match e with
  | EPopen st _ => EPopen st 0
  | _ => e
  end.

(** Two worlds that differ in the recorded exit statuses only. *)
Definition sim (w1 w2 : World) : Prop :=
  os_environ w1 = os_environ w2 /\ heap w1 = heap w2 /\ getcwd w1 = getcwd w2 /\
  fs w1 = fs w2 /\ map erase (trace w1) = map erase (trace w2).

(** Two programs that, from such worlds, end alike in such worlds. *)
Definition Rel {A} (c1 c2 : M A) : Prop :=
  forall w1 w2, sim w1 w2 ->
    (c1 w1).1 = (c2 w2).1 /\ sim (c1 w1).2 (c2 w2).2.

(** ** Source trees and the shape of a recipe *)

Definition sources_scan (w : World) : list string :=
  let d := Fs.resolve (getcwd w) "sources" in
  if Fs.isdir (fs w) d then Fs.scan (fs w) d else [].

(** The source tree of a component: the first entry of [sources/], in scan
    order, that [*sub*] matches. *)
Definition source_tree (w : World) (sub : string) : option string :=
  match List.filter (glob_match sub) (sources_scan w) with
  | [] => None
  | name :: _ => Some (posixpath.join "sources" name)
  end.

(** What a recipe does before it looks for its sources: it composes the
    environment and makes its build directories. *)
Definition prologue (prefix mingw_gcc elf_gcc target : string) (dirs : list string)
  : M DictRef :=
  env <- get_build_env prefix mingw_gcc elf_gcc target ;;
  for_each dirs os_makedirs ;;
  ret env.

(** A recipe with prologue [pro] that, once its sources are found, goes on
    as [plan] says, and raises [IndexError] when one is missing. *)
Definition recipe_shape (build : M unit) (pro : M DictRef)
    (plan : World -> DictRef -> option (M unit)) : Prop :=
  forall w,
    match pro w with
    | (Raise e, w1) => build w = (Raise e, w1) /\ trace w1 = trace w
    | (Ok env, w1) =>
        trace w1 = trace w /\
        build w = match plan w1 env with
                  | Some body => body w1
                  | None => (Raise IndexError, w1)
                  end
    end.

Definition with_fs (w : World) (f : FS) : World :=
  mkWorld (os_environ w) (heap w) (getcwd w) f (trace w).

(** The stage lists of the three recipes that run one list, with the
    sources found by [lookup]. *)
Definition steps_elf (lookup : World -> string -> option string) (prefix : string)
    (w : World) (env : DictRef) : option (list Step) :=
  binutils ← lookup w "binutils";
  gdb ← lookup w "gdb";
  gcc ← lookup w "gcc";
  Some (build_elf_toolchain_stages "x86_64-elf" (posixpath.abspath (getcwd w) prefix)
          binutils gdb gcc env).

Definition steps_win_elf (lookup : World -> string -> option string)
    (prefix win_mingw_prefix : string) (w : World) (env : DictRef) : option (list Step) :=
  binutils ← lookup w "binutils";
  gdb ← lookup w "gdb";
  gcc ← lookup w "gcc";
  Some (build_win_elf_stages "x86_64-w64-mingw32" "x86_64-elf"
          (posixpath.abspath (getcwd w) prefix)
          (posixpath.abspath (getcwd w) win_mingw_prefix)
          binutils gdb gcc env).

Definition steps_win_mingw (lookup : World -> string -> option string) (prefix : string)
    (w : World) (env : DictRef) : option (list Step) :=
  binutils ← lookup w "binutils";
  gcc ← lookup w "gcc";
  mingw ← lookup w "mingw";
  Some (build_win_mingw_stages "x86_64-w64-mingw32" (posixpath.abspath (getcwd w) prefix)
          binutils gcc mingw env).

Section Plans.
Context (ext : Externals).

Definition plan_steps (steps : World -> DictRef -> option (list Step))
    (w : World) (env : DictRef) : option (M unit) :=
  run_steps ext <$> steps w env.

(** The native MinGW recipe makes a copy of its environment half-way. *)
Definition plan_mingw (lookup : World -> string -> option string) (prefix : string)
    (w : World) (env : DictRef) : option (M unit) :=
  binutils ← lookup w "binutils";
  gcc ← lookup w "gcc";
  mingw ← lookup w "mingw";
  let target := "x86_64-w64-mingw32" in
  let aprefix := posixpath.abspath (getcwd w) prefix in
  Some (run_steps ext (build_mingw_toolchain_stages_1 target aprefix binutils gcc mingw env) ;;
        env_copy <- dict_copy env ;;
        setitem env_copy "CC" (target +:+ "-gcc") ;;
        setitem env_copy "CXX" (target +:+ "-g++") ;;
        setitem env_copy "CPP" (target +:+ "-cpp") ;;
        run_steps ext (build_mingw_toolchain_stages_2 target aprefix mingw env env_copy)).

End Plans.

(** The file system [shutil.rmtree(d, ignore_errors=True)] leaves. *)
Definition rmtree_fs (f : FS) (d : Path) : FS :=
  if Fs.isdir f d then Fs.remove_tree f d else f.

(** The file system [cleanup()] leaves. *)
Definition cleanup_fs (cwd : string) (f : FS) : FS :=
  rmtree_fs (rmtree_fs (rmtree_fs f (Fs.resolve cwd "build")) (Fs.resolve cwd "sources"))
            (Fs.resolve cwd "tarballs").

(** ** The archiver *)




(** ** The search path *)

(** The entries of a search path. *)
Definition search_path (path : string) : list string := Str.split ":" path.

(** The [PATH] of the environment [get_build_env] returns, when it returns. *)
Definition composed_PATH (w : World) (prefix mingw_gcc elf_gcc target : string)
  : option string :=
  match get_build_env prefix mingw_gcc elf_gcc target w with
  | (Ok env, w') => deref env w' !! "PATH"
  | (Raise _, _) => None
  end.

Definition bin (w : World) (dir : string) : string :=
  posixpath.abspath (getcwd w) dir +:+ "/bin".

Module Example.

Definition gcc_build_tree : list (list string) :=
  [ ["work"; "build"; "build-gcc-x86_64-elf"; "gmp"];
    ["work"; "build"; "build-gcc-x86_64-elf"; "mpfr"];
    ["work"; "build"; "build-gcc-x86_64-elf"; "mpc"];
    ["work"; "build"; "build-mingw-libs-x86_64-w64-mingw32"];
    ["work"; "build"; "build-win-gcc-x86_64-w64-mingw32"; "gmp"];
    ["work"; "build"; "build-win-gcc-x86_64-w64-mingw32"; "mpfr"];
    ["work"; "build"; "build-win-gcc-x86_64-w64-mingw32"; "mpc"] ].

(** The configuration file. *)
Definition config : gmap string string :=
  {[ "mingw_prefix" := "/opt/mingw"; "elf_prefix" := "/opt/elf";
     "mingw_win_prefix" := "/opt/win-mingw"; "elf_win_prefix" := "/opt/win-elf";
     "archive_prefix" := "/work/out" ]}.

(** Every command exits with status 1, after it has left the directories
    of a gcc build tree; downloads succeed, archives are empty. *)
Definition ext : Externals :=
  mkExternals
    (fun _ f => mkCompleted (fold_left (fun f d => Fs.add f d Directory) gcc_build_tree f) 1 "")
    (fun _ => true)
    (fun _ => Some [])
    (fun _ => Ok config)
    "Linux" "x86_64".

Definition sources (names : list string) : list (list string * Kind) :=
  ([ "work" ], Directory) :: (["work"; "tarballs"], Directory)
  :: (["work"; "sources"], Directory)
  :: map (fun n => (["work"; "sources"; n], Directory)) names.

(** Sources extracted, nothing built or installed yet. *)
Definition world : World :=
  mkWorld {[ "PATH" := "/usr/bin:/bin" ]} [] "/work"
    (sources ["binutils-2.42"; "gcc-14.1.0"; "gdb-14.2"; "mingw-w64-v11.0.1"]) [].

(** The same, with a hidden entry in [sources/]. *)
Definition world_hidden : World :=
  mkWorld {[ "PATH" := "/usr/bin:/bin" ]} [] "/work"
    (sources [".binutils-2.41"; "binutils-2.42"; "gcc-14.1.0"; "gdb-14.2"; "mingw-w64-v11.0.1"]) [].

Definition only_win_mingw : Args :=
  mkArgs false false true false false false false false false "config.json".

Definition only_win_elf : Args :=
  mkArgs false false false true false false false false false "config.json".

End Example.

(** ** Traces only grow *)

Definition Grows {A} (c : M A) : Prop :=
  forall w, exists t, trace (c w).2 = trace w ++ t.

(** Two runs that end alike and launched the same stages. *)
Definition same_stages (r1 r2 : Res unit * World) : Prop :=
  r1.1 = r2.1 /\ launched (trace r1.2) = launched (trace r2.2) /\ fs r1.2 = fs r2.2.

(** C1 as the specification states it, on a launch log: nothing is
    launched after a stage that exits non-zero. *)
Fixpoint stops_at_failure (l : list (Stage * Z)) : bool :=
  match l with
  | [] => true
  | (_, status) :: l' =>
      if Z.eqb status 0 then stops_at_failure l'
      else match l' with [] => true | _ :: _ => false end
  end.

(** C10 as the specification states it: the first entry whose name
    contains the substring. *)
Definition first_containing (w : World) (sub : string) : option string :=
  match List.filter (Str.contains sub) (sources_scan w) with
  | [] => None
  | name :: _ => Some (posixpath.join "sources" name)
  end.

(** The stage a recipe launches first from [w], when it gets that far:
    its prologue succeeds, its sources are found and the directory of its
    first step is there. *)
Definition first_stage (pro : M DictRef) (steps : World -> DictRef -> option (list Step))
    (w : World) : option Stage :=
  match pro w with
  | (Ok env, w1) =>
      match steps w1 env with
      | Some (s :: _) => if cwd_ok w1 s then Some (stage_of w1 s) else None
      | _ => None
      end
  | (Raise _, _) => None
  end.

(** The world after [print(s)]. *)
Definition announced (s : string) (w : World) : World := (print s w).2.

(** C2 as the specification states it: in a run that launches a stage,
    the prerequisite prefix is a directory from the start. *)
Definition gated_on_prefix (ext : Externals) (args : Args) (w : World) (prefix : string) : Prop :=
  launched (trace (main ext args w).2) <> launched (trace w) ->
  Fs.isdir (fs w) (Fs.resolve (getcwd w) prefix) = true.

(** C4 as the specification states it: the stages of the Windows-hosted
    ELF recipe run in the environment composed without the native ELF
    prefix. *)
Definition elf_prefix_left_out (ext : Externals) (w : World)
    (prefix mingw_prefix elf_prefix win_mingw_prefix : string) : bool :=
  forallb (fun st => bool_decide
             (stage_env st !! "PATH" = composed_PATH w prefix mingw_prefix "" "x86_64-elf"))
    (launched (trace (build_win_elf ext prefix mingw_prefix elf_prefix win_mingw_prefix w).2)).

Fixpoint lstrip (s : string) : string :=
  match s with
  | String " " s' => lstrip s'
  | _ => s
  end.

(** The logical stages of a recipe: what it announces, in order. *)
Definition logical_sequence (steps : list Step) : list string :=
  map (fun s => lstrip (step_label s)) steps.

(** The Windows-hosted MinGW recipe as the specification has it: the
    stages of the native MinGW recipe. *)
Definition build_win_mingw_stages_spec
    (target prefix binutils gcc mingw : string) (env env_copy : DictRef) : list Step :=
  build_mingw_toolchain_stages_1 target prefix binutils gcc mingw env
  ++ build_mingw_toolchain_stages_2 target prefix mingw env env_copy.

(** C5 as the specification states it. *)
Definition same_logical_sequence
    (target prefix binutils gcc mingw : string) (env env_copy : DictRef) : Prop :=
  logical_sequence (build_win_mingw_stages target prefix binutils gcc mingw env)
  = logical_sequence (build_win_mingw_stages_spec target prefix binutils gcc mingw env env_copy).

Definition among (l : list string) (x : string) : bool := existsb (String.eqb x) l.

Definition win_mingw_dirs : list string :=
  ["build/build-win-binutils-" +:+ "x86_64-w64-mingw32";
   "build/build-win-gcc-" +:+ "x86_64-w64-mingw32";
   "build/build-win-mingw-headers-" +:+ "x86_64-w64-mingw32";
   "build/build-win-mingw-libs-" +:+ "x86_64-w64-mingw32";
   "build/build-win-mingw-winpthreads-" +:+ "x86_64-w64-mingw32"].

Definition win_elf_dirs : list string :=
  ["build/build-win-elf-binutils-" +:+ "x86_64-elf";
   "build/build-win-elf-gdb-" +:+ "x86_64-elf";
   "build/build-win-elf-gcc-" +:+ "x86_64-elf"].

Definition common_stages : list string :=
  ["Configuring binutils..."; "Building binutils..."; "Installing binutils...";
   "Download prerequisites..."; "Configuring gcc..."; "Building gcc..."; "Installing gcc...";
   "Configuring mingw..."; "Building mingw..."; "Installing mingw..."].

Fixpoint index_of (x : string) (l : list string) : option nat :=
  match l with
  | [] => None
  | y :: l' => if String.eqb x y then Some 0 else S <$> index_of x l'
  end.

(** [x] comes before [y] in [l]. *)
Definition precedes (x y : string) (l : list string) : bool :=
  match index_of x l, index_of y l with
  | Some i, Some j => Nat.ltb i j
  | _, _ => false
  end.

(** C3 as the specification states it, in its last part: the entry of the
    ELF host compiler comes before the entry of the MinGW host compiler. *)
Definition elf_before_mingw (w : World) (prefix mingw_gcc elf_gcc target : string) : bool :=
  match composed_PATH w prefix mingw_gcc elf_gcc target with
  | Some path => precedes (bin w elf_gcc) (bin w mingw_gcc) (search_path path)
  | None => false
  end.

(** ** Vocabulary of the further properties *)

(** ** Paths under the current directory *)

(** [initial_slashes] of [normpath]. *)
Definition initial_slashes (path : string) : nat :=
  if Str.startswith "/" path then
    if Str.startswith "//" path && negb (Str.startswith "///" path) then 2 else 1
  else 0.

(** A name as a directory scan yields it: not empty, not [.] or [..],
    without a slash. *)
Definition component (c : string) : bool :=
  negb (String.eqb c "") && negb (String.eqb c ".") && negb (String.eqb c "..")
  && negb (Str.contains "/" c).

(** The components of the current directory. *)
Definition cwd_comps (cwd : string) : list string :=
  posixpath.normpath_comps (initial_slashes cwd) (Str.split "/" cwd) [].

(** What [normpath] keeps is not empty and has no slash. *)
Definition kept (c : string) : Prop := Str.truthy c = true /\ Str.contains "/" c = false.

(** ** What a program adds to the trace *)

(** [c] adds to the trace, and adds only events that [P] admits. *)
Definition Emits {A} (P : Event -> Prop) (c : M A) : Prop :=
  forall w, exists t, trace (c w).2 = trace w ++ t /\ Forall P t.

Definition is_popen (e : Event) : bool :=
  match e with EPopen _ _ => true | _ => false end.

Definition is_retrieve (e : Event) : bool :=
  match e with EUrlRetrieve _ _ => true | _ => false end.

Definition is_extract (e : Event) : bool :=
  match e with ETarExtract _ _ => true | _ => false end.

(** The downloads and the extractions of a trace. *)
Fixpoint retrieved (t : list Event) : list (string * string) :=
  match t with
  | [] => []
  | EUrlRetrieve url filename :: t' => (url, filename) :: retrieved t'
  | _ :: t' => retrieved t'
  end.

Fixpoint extracted (t : list Event) : list (string * string) :=
  match t with
  | [] => []
  | ETarExtract archive dest :: t' => (archive, dest) :: extracted t'
  | _ :: t' => extracted t'
  end.

(** ** The process itself *)

(** [c] leaves [os.environ] and the current directory as they are. *)
Definition Frame {A} (c : M A) : Prop :=
  forall w, os_environ (c w).2 = os_environ w /\ getcwd (c w).2 = getcwd w.

(** [c] raises only exceptions that [E] admits. *)
Definition Raises {A} (E : Exn -> Prop) (c : M A) : Prop :=
  forall w e, (c w).1 = Raise e -> E e.

(** Is entry [e] in one of the trees that [cleanup()] removes from [w]? *)
Definition swept (w : World) (e : Path * Kind) : bool :=
  existsb (fun name =>
             let d := Fs.resolve (getcwd w) name in
             Fs.isdir (fs w) d && Fs.under d e)
          ["build"; "sources"; "tarballs"].

(** [c] keeps [Q] true of the world. *)
Definition Keeps {A} (Q : World -> Prop) (c : M A) : Prop :=
  forall w, Q w -> Q (c w).2.

(** Directory [d] is there, seen from the current directory [cwd]. *)
Definition has_dir (cwd : string) (d : Path) (w : World) : Prop :=
  getcwd w = cwd /\ Fs.isdir (fs w) d = true.

(** ** Downloads and extractions *)

(** [c] goes through the list [l] of observations in order: it adds a
    prefix of [l] to what [obs] sees in the trace, and all of [l] when it
    returns. *)
Definition Logs {A X} (obs : list Event -> list X) (l : list X) (c : M A) : Prop :=
  forall w, exists n,
    n <= length l /\
    obs (trace (c w).2) = obs (trace w) ++ take n l /\
    (forall a, (c w).1 = Ok a -> n = length l).

(** The transfers [download_sources] asks for: URL and file. *)
Definition download_plan (binutils_version gdb_version gcc_version mingw_version : string)
  : list (string * string) :=
  [ ("https://ftp.gnu.org/gnu/binutils/binutils-" +:+ binutils_version +:+ ".tar.gz",
     "tarballs/binutils-" +:+ binutils_version +:+ ".tar.gz");
    ("https://ftp.gnu.org/gnu/gdb/gdb-" +:+ gdb_version +:+ ".tar.gz",
     "tarballs/gdb-" +:+ gdb_version +:+ ".tar.gz");
    ("https://ftp.gnu.org/gnu/gcc/gcc-" +:+ gcc_version +:+ "/gcc-" +:+ gcc_version +:+ ".tar.gz",
     "tarballs/gcc-" +:+ gcc_version +:+ ".tar.gz");
    ("https://downloads.sourceforge.net/project/mingw-w64/mingw-w64/mingw-w64-release/mingw-w64-v"
       +:+ mingw_version +:+ ".tar.bz2",
     "tarballs/mingw-w64-v" +:+ mingw_version +:+ ".tar.bz2") ].

(** The extractions [extract_sources] goes through, given the names in
    [tarballs]: archive and destination. *)
Definition extraction_plan (names : list string) : list (string * string) :=
  map (fun filename => ("tarballs/" +:+ filename, "sources"))
      (List.filter (Str.contains ".tar.") names).



(** The environment of the [i]-th stage of the native MinGW recipe: the
    symbolic link is made in the ambient environment, the mingw runtime
    and winpthreads stages get the compiler overrides, every other stage
    the composed environment. *)
Definition native_mingw_env (w : World) (prefix path : string) (i : nat)
  : gmap string string :=
  let target := "x86_64-w64-mingw32" in
  let composed := build_env w prefix "" "" target path in
  if Nat.eqb i 5 then os_environ w
  else if Nat.leb 10 i && Nat.ltb i 16
       then <["CPP" := target +:+ "-cpp"]>
              (<["CXX" := target +:+ "-g++"]> (<["CC" := target +:+ "-gcc"]> composed))
       else composed.

(** Nothing is at [d], seen from the current directory [cwd]. *)
Definition lacks (cwd : string) (d : Path) (w : World) : Prop :=
  getcwd w = cwd /\ Fs.kind_of (fs w) d = None.

(** Further worlds, command lines and externals to run the script on. *)
Module Cases.

(** A command line that asks for the native MinGW archive only. *)
Definition pack_only : Args :=
  mkArgs false false false false true false false false false "config.json".

(** Every recipe and every archive. *)
Definition everything : Args :=
  mkArgs true true true true true true true true false "config.json".

(** The example world before anything was downloaded. *)
Definition bare_world : World :=
  mkWorld {[ "PATH" := "/usr/bin:/bin" ]} [] "/work" [(["work"], Directory)] [].

(** Every flag at once, [--cleanup] among them. *)
Definition cleanup_and_all : Args :=
  mkArgs true true true true true true true true true "config.json".

(** No network: every transfer fails. *)
Definition offline : Externals :=
  mkExternals (run_command Example.ext) (fun _ => false) (tar_members Example.ext)
    (fun _ => Ok (<["binutils" := "2.42"]> (<["gdb" := "14.2"]> (<["gcc" := "14.1.0"]>
                   (<["mingw" := "11.0.1"]> Example.config)))))
    "Linux" "x86_64".

(** The network fails from the third transfer on. *)
Definition flaky : Externals :=
  mkExternals (run_command Example.ext)
    (fun url => negb (Str.contains "gcc" url || Str.contains "mingw" url))
    (tar_members Example.ext) (load_config offline) "Linux" "x86_64".

(** Two tarballs and a stray file, not yet extracted. *)
Definition downloaded : World :=
  mkWorld {[ "PATH" := "/usr/bin:/bin" ]} [] "/work"
    [ (["work"], Directory); (["work"; "tarballs"], Directory);
      (["work"; "tarballs"; "gcc-14.1.0.tar.gz"], RegularFile);
      (["work"; "tarballs"; "SHA256SUMS"], RegularFile);
      (["work"; "tarballs"; "gdb-14.2.tar.gz"], RegularFile) ] [].


(** Commands that exit with status 0 and leave the file system alone. *)
Definition inert : Externals :=
  mkExternals (fun _ f => mkCompleted f 0 "") (fun _ => true) (fun _ => Some [])
    (fun _ => Ok Example.config) "Linux" "x86_64".

End Cases.

(** ** Plain paths *)




(** C9 as the specification states it: the search path is [P/bin], then
    the entries of the ambient path, and none of its entries is empty. *)
Definition prefix_bin_then_ambient (w : World) (prefix target : string) : bool :=
  match composed_PATH w prefix "" "" target, os_environ w !! "PATH" with
  | Some composed, Some path =>
      bool_decide (search_path composed = (prefix +:+ "/bin") :: search_path path)
      && negb (among (search_path composed) "")
  | _, _ => false
  end.

(** A world with another ambient path. *)
Definition with_path (path : string) (w : World) : World :=
  mkWorld (<["PATH" := path]> (os_environ w)) (heap w) (getcwd w) (fs w) (trace w).

(** * Theorems *)

Lemma setitem_last e h d c f t k v :
  setitem (Obj (length h)) k v (mkWorld e (h ++ [d]) c f t)
  = (Ok tt, mkWorld e (h ++ [<[k := v]> d]) c f t).
Proof.
  unfold setitem. cbn [heap os_environ getcwd fs trace]. do 2 f_equal.
  rewrite alter_app_r_alt by lia. by rewrite Nat.sub_diag.
Qed.

Lemma getitem_last e h d c f t k :
  getitem (Obj (length h)) k (mkWorld e (h ++ [d]) c f t)
  = match d !! k with
    | Some v => (Ok v, mkWorld e (h ++ [d]) c f t)
    | None => (Raise (KeyError k), mkWorld e (h ++ [d]) c f t)
    end.
Proof.
  unfold getitem, deref. cbn [heap].
  by rewrite list_lookup_middle.
Qed.

Lemma get_build_env_ok w prefix mingw_gcc elf_gcc target path :
  os_environ w !! "PATH" = Some path ->
  get_build_env prefix mingw_gcc elf_gcc target w
  = (Ok (Obj (length (heap w))),
     alloc w (build_env w prefix mingw_gcc elf_gcc target path)).
Proof.
  intros Hpath. destruct w as [e h c f t]. cbn in Hpath.
  unfold get_build_env, alloc, build_env, build_path, prepend_bin, bind, when, abspath, ret, dict_copy.
  cbn [heap os_environ getcwd fs trace deref].
  rewrite !setitem_last.
  destruct (Str.truthy elf_gcc), (Str.truthy mingw_gcc);
    repeat first [ rewrite getitem_last | rewrite setitem_last
                 | rewrite lookup_insert_eq | rewrite lookup_insert_ne by done
                 | rewrite insert_insert_eq | rewrite Hpath ];
    reflexivity.
Qed.

Lemma get_build_env_no_path w prefix mingw_gcc elf_gcc target :
  os_environ w !! "PATH" = None ->
  get_build_env prefix mingw_gcc elf_gcc target w
  = (Raise (KeyError "PATH"),
     alloc w (<["TARGET" := target]> (<["PREFIX" := prefix]> (os_environ w)))).
Proof.
  intros Hpath. destruct w as [e h c f t]. cbn in Hpath.
  unfold get_build_env, alloc, bind, when, abspath, ret, dict_copy.
  cbn [heap os_environ getcwd fs trace deref].
  rewrite !setitem_last.
  destruct (Str.truthy elf_gcc), (Str.truthy mingw_gcc);
    repeat first [ rewrite getitem_last | rewrite setitem_last
                 | rewrite lookup_insert_eq | rewrite lookup_insert_ne by done
                 | rewrite insert_insert_eq | rewrite Hpath ];
    reflexivity.
Qed.

Lemma launches_app t1 t2 : launches (t1 ++ t2) = launches t1 ++ launches t2.
Proof. induction t1 as [|[] t1 IH]; cbn; by rewrite ?IH. Qed.

Lemma launched_app t1 t2 : launched (t1 ++ t2) = launched t1 ++ launched t2.
Proof. unfold launched. by rewrite launches_app, map_app. Qed.

Lemma same_objects_refl w : same_objects w w.
Proof. by repeat split. Qed.

Lemma same_objects_trans w1 w2 w3 :
  same_objects w1 w2 -> same_objects w2 w3 -> same_objects w1 w3.
Proof. intros (?&?&?) (?&?&?). repeat split; congruence. Qed.

Lemma stage_of_same_objects w w' s : same_objects w w' -> stage_of w' s = stage_of w s.
Proof.
  intros (He & Hh & _). unfold stage_of, deref.
  destruct (step_env s) as [[|n]|]; cbn; by rewrite ?He, ?Hh.
Qed.

Section Runner.

Context (ext : Externals).

Lemma run_step_launch s w :
  cwd_ok w s = true ->
  exists w',
    run_step ext s w = (Ok tt, w') /\ same_objects w w' /\
    launches (trace w') =
      launches (trace w) ++ [(stage_of w s, returncode (run_command ext (stage_of w s) (fs w)))].
Proof.
  intros Hcwd. unfold run_step, bind, print, emit, Popen, get_subprocess_output, print_no_end, wait, ret, emit.
  unfold cwd_ok, Fs.isdir in Hcwd. cbn [fs getcwd os_environ heap trace].
  assert (Hst : forall t, stage_of (mkWorld (os_environ w) (heap w) (getcwd w) (fs w) t) s = stage_of w s)
    by (intros; apply stage_of_same_objects; by repeat split).
  rewrite Hst.
  destruct (step_cwd s) as [d|].
  - destruct (Fs.kind_of (fs w) (Fs.resolve (getcwd w) d)) as [[]|]; try discriminate.
    destruct (step_collect s); cbn; eexists; (split; [reflexivity|]); cbn;
      (split; [by repeat split|]); rewrite ?launches_app; cbn; by rewrite ?app_nil_r.
  - destruct (step_collect s); cbn; eexists; (split; [reflexivity|]); cbn;
      (split; [by repeat split|]); rewrite ?launches_app; cbn; by rewrite ?app_nil_r.
Qed.

Lemma run_step_no_launch s w :
  cwd_ok w s = false ->
  exists e w',
    run_step ext s w = (Raise e, w') /\ same_objects w w' /\ fs w' = fs w /\
    launches (trace w') = launches (trace w).
Proof.
  intros Hcwd. unfold run_step, bind, print, emit, Popen.
  unfold cwd_ok, Fs.isdir in Hcwd. cbn [fs getcwd os_environ heap trace].
  destruct (step_cwd s) as [d|]; [|discriminate].
  destruct (Fs.kind_of (fs w) (Fs.resolve (getcwd w) d)) as [[]|]; try discriminate;
    do 2 eexists; (split; [reflexivity|]); cbn; rewrite launches_app; cbn;
    rewrite app_nil_r; by repeat split.
Qed.

(** The stages a recipe launches are a prefix of its steps, in order; all
    of them when it returns. *)
Lemma run_steps_launched steps : forall w,
  exists n,
    n <= length steps /\
    same_objects w (run_steps ext steps w).2 /\
    launched (trace (run_steps ext steps w).2)
      = launched (trace w) ++ map (stage_of w) (take n steps) /\
    ((run_steps ext steps w).1 = Ok tt -> n = length steps).
Proof.
  induction steps as [|s steps IH]; intros w.
  - exists 0. cbn. rewrite app_nil_r. repeat split; auto.
  - unfold run_steps. cbn [for_each]. unfold bind. fold (run_steps ext steps).
    destruct (cwd_ok w s) eqn:Hcwd.
    + destruct (run_step_launch s w Hcwd) as (w' & -> & Hsame & Hl).
      destruct (IH w') as (n & Hn & Hsame' & Hl' & Hok).
      exists (S n). cbn [length take map]. split; [lia|].
      split; [eapply same_objects_trans; eauto|].
      split.
      * rewrite Hl'. unfold launched at 1. rewrite Hl, map_app. cbn.
        rewrite <- app_assoc. cbn. f_equal. f_equal.
        apply map_ext. intros. by apply stage_of_same_objects.
      * intros H. f_equal. auto.
    + destruct (run_step_no_launch s w Hcwd) as (e & w' & -> & Hsame & _ & Hl).
      exists 0. cbn. split; [lia|]. split; [done|]. split.
      * unfold launched. rewrite Hl. by rewrite app_nil_r.
      * discriminate.
Qed.

End Runner.

Lemma sim_refl w : sim w w.
Proof. by repeat split. Qed.

Lemma launched_erase t : launched (map erase t) = launched t.
Proof. unfold launched. induction t as [|[] t IH]; cbn in *; by rewrite ?IH. Qed.

Lemma sim_launched w1 w2 : sim w1 w2 -> launched (trace w1) = launched (trace w2).
Proof. intros (_&_&_&_&H). by rewrite <- launched_erase, H, launched_erase. Qed.

Lemma Rel_ret {A} (a : A) : Rel (ret a) (ret a).
Proof. by intros w1 w2 H. Qed.

Lemma Rel_raise {A} e : Rel (@raise A e) (raise e).
Proof. by intros w1 w2 H. Qed.

Lemma Rel_bind {A B} (c1 c2 : M A) (k1 k2 : A -> M B) :
  Rel c1 c2 -> (forall a, Rel (k1 a) (k2 a)) -> Rel (bind c1 k1) (bind c2 k2).
Proof.
  intros Hc Hk w1 w2 Hw. unfold bind.
  destruct (Hc w1 w2 Hw) as [Hr Hs].
  destruct (c1 w1) as [[a1|e1] w1'], (c2 w2) as [[a2|e2] w2']; cbn in *; try discriminate.
  - injection Hr as ->. by apply Hk.
  - injection Hr as ->. done.
Qed.

Lemma Rel_when b (c1 c2 : M unit) : Rel c1 c2 -> Rel (when b c1) (when b c2).
Proof. destruct b; cbn; auto using Rel_ret. Qed.

Lemma Rel_for_each {A} (xs : list A) (f1 f2 : A -> M unit) :
  (forall x, Rel (f1 x) (f2 x)) -> Rel (for_each xs f1) (for_each xs f2).
Proof.
  intros Hf. induction xs as [|x xs IH]; cbn; [apply Rel_ret|].
  apply Rel_bind; auto.
Qed.

(** A program that reads no trace and only adds [EStdout] events relates to itself. *)
Ltac rel_prim :=
  intros [e1 h1 c1 f1 t1] [e2 h2 c2 f2 t2] (He & Hh & Hc & Hf & Ht);
  cbn in He, Hh, Hc, Hf, Ht; subst e2 h2 c2 f2;
  unfold sim; cbn;
  repeat (case_match; cbn); repeat split; rewrite ?map_app; cbn; try congruence.

Lemma Rel_emit e : Rel (emit e) (emit e).
Proof. unfold emit. rel_prim. Qed.

Lemma Rel_print s : Rel (print s) (print s).
Proof. apply Rel_emit. Qed.

Lemma Rel_dict_copy r : Rel (dict_copy r) (dict_copy r).
Proof. unfold dict_copy, deref. rel_prim. Qed.

Lemma Rel_getitem r k : Rel (getitem r k) (getitem r k).
Proof. unfold getitem, deref. rel_prim. Qed.

Lemma Rel_setitem r k v : Rel (setitem r k v) (setitem r k v).
Proof. unfold setitem. rel_prim. Qed.

Lemma Rel_abspath p : Rel (abspath p) (abspath p).
Proof. unfold abspath. rel_prim. Qed.

Lemma Rel_os_makedirs p : Rel (os_makedirs p) (os_makedirs p).
Proof. unfold os_makedirs, set_fs. rel_prim. Qed.

Lemma Rel_os_path_isdir p : Rel (os_path_isdir p) (os_path_isdir p).
Proof. unfold os_path_isdir. rel_prim. Qed.

Lemma Rel_os_listdir p : Rel (os_listdir p) (os_listdir p).
Proof. unfold os_listdir. rel_prim. Qed.

Lemma Rel_shutil_rmtree p : Rel (shutil_rmtree p) (shutil_rmtree p).
Proof. unfold shutil_rmtree, set_fs. rel_prim. Qed.

Lemma Rel_glob_glob d s : Rel (glob_glob d s) (glob_glob d s).
Proof. unfold glob_glob. rel_prim. Qed.

Lemma Rel_item0 {A} (l : list A) : Rel (item0 l) (item0 l).
Proof. destruct l; [apply Rel_raise | apply Rel_ret]. Qed.

Lemma Rel_open_write p : Rel (open_write p) (open_write p).
Proof. unfold open_write, bind, set_fs, emit. rel_prim. Qed.

Create HintDb rel.

#[export] Hint Resolve Rel_ret Rel_raise Rel_when Rel_for_each Rel_emit Rel_print
  Rel_dict_copy Rel_getitem Rel_setitem Rel_abspath Rel_os_makedirs Rel_os_path_isdir
  Rel_os_listdir Rel_shutil_rmtree Rel_glob_glob Rel_item0 Rel_open_write : rel.

Ltac rel :=
  repeat first
    [ solve [auto with rel]
    | apply Rel_bind | apply Rel_when | apply Rel_for_each
    | match goal with |- forall _, _ => intros ? end
    | match goal with |- Rel (if ?b then _ else _) _ => destruct b end
    | match goal with |- Rel (match ?b with _ => _ end) _ => destruct b end ].

Lemma Rel_get_build_env prefix mingw_gcc elf_gcc target :
  Rel (get_build_env prefix mingw_gcc elf_gcc target)
      (get_build_env prefix mingw_gcc elf_gcc target).
Proof. unfold get_build_env. rel. Qed.

#[export] Hint Resolve Rel_get_build_env : rel.

Section Status.

Context (ext : Externals) (g : Stage -> FS -> Z).

Lemma Rel_run_step s : Rel (run_step ext s) (run_step (with_status g ext) s).
Proof.
  unfold run_step, bind, print, emit, Popen, get_subprocess_output, print_no_end, wait, ret, emit, stage_of, deref.
  intros [e1 h1 c1 f1 t1] [e2 h2 c2 f2 t2] (He & Hh & Hc & Hf & Ht);
  cbn in He, Hh, Hc, Hf, Ht; subst e2 h2 c2 f2;
  unfold sim; cbn.
  destruct (step_cwd s) as [d|]; [destruct (Fs.kind_of f1 (Fs.resolve c1 d)) as [[]|]|];
    destruct (step_collect s); cbn; repeat split; rewrite ?map_app; cbn; congruence.
Qed.

Lemma Rel_run_steps steps : Rel (run_steps ext steps) (run_steps (with_status g ext) steps).
Proof. apply Rel_for_each, Rel_run_step. Qed.

Hint Resolve Rel_run_steps : rel.

Lemma Rel_build_mingw_toolchain prefix :
  Rel (build_mingw_toolchain ext prefix) (build_mingw_toolchain (with_status g ext) prefix).
Proof. unfold build_mingw_toolchain. rel. Qed.

Lemma Rel_build_elf_toolchain prefix :
  Rel (build_elf_toolchain ext prefix) (build_elf_toolchain (with_status g ext) prefix).
Proof. unfold build_elf_toolchain. rel. Qed.

Lemma Rel_build_win_mingw prefix mingw_prefix :
  Rel (build_win_mingw ext prefix mingw_prefix)
      (build_win_mingw (with_status g ext) prefix mingw_prefix).
Proof. unfold build_win_mingw. rel. Qed.

Lemma Rel_build_win_elf prefix mingw_prefix elf_prefix win_mingw_prefix :
  Rel (build_win_elf ext prefix mingw_prefix elf_prefix win_mingw_prefix)
      (build_win_elf (with_status g ext) prefix mingw_prefix elf_prefix win_mingw_prefix).
Proof. unfold build_win_elf. rel. Qed.

End Status.

Lemma resolve_source w sub :
  (l <- glob_glob "sources" sub ;; item0 l) w
  = match source_tree w sub with
    | Some tree => (Ok tree, w)
    | None => (Raise IndexError, w)
    end.
Proof.
  unfold bind, glob_glob, source_tree, sources_scan.
  destruct (Fs.isdir _ _); cbn; [|done].
  by destruct (List.filter _ _).
Qed.

Lemma makedirs_all_frame dirs : forall w,
  exists f, (for_each dirs os_makedirs w).2 = with_fs w f.
Proof.
  induction dirs as [|d dirs IH]; intros w; cbn.
  - exists (fs w). by destruct w.
  - unfold bind, os_makedirs at 1, set_fs.
    destruct (Fs.makedirs _ _ _) as [f|e]; cbn.
    + destruct (IH (with_fs w f)) as [f' Hf']. exists f'.
      unfold with_fs in *. by rewrite Hf'.
    + exists (fs w). by destruct w.
Qed.

(** The prologue touches no trace; with a [PATH] in the ambient
    environment it leaves the composed environment in a new object. *)
Lemma prologue_trace prefix mingw_gcc elf_gcc target dirs w :
  trace (prologue prefix mingw_gcc elf_gcc target dirs w).2 = trace w.
Proof.
  unfold prologue, bind.
  destruct (os_environ w !! "PATH") as [path|] eqn:Hpath.
  - rewrite (get_build_env_ok _ _ _ _ _ _ Hpath).
    destruct (makedirs_all_frame dirs (alloc w (build_env w prefix mingw_gcc elf_gcc target path))) as [f Hf].
    destruct (for_each dirs os_makedirs _) as [[[]|e] w1]; cbn in *; by subst.
  - by rewrite (get_build_env_no_path _ _ _ _ _ Hpath).
Qed.

Lemma prologue_ok prefix mingw_gcc elf_gcc target dirs w path env w1 :
  os_environ w !! "PATH" = Some path ->
  prologue prefix mingw_gcc elf_gcc target dirs w = (Ok env, w1) ->
  env = Obj (length (heap w)) /\
  os_environ w1 = os_environ w /\ getcwd w1 = getcwd w /\
  heap w1 = heap w ++ [build_env w prefix mingw_gcc elf_gcc target path].
Proof.
  intros Hpath. unfold prologue, bind.
  rewrite (get_build_env_ok _ _ _ _ _ _ Hpath).
  destruct (makedirs_all_frame dirs (alloc w (build_env w prefix mingw_gcc elf_gcc target path))) as [f Hf].
  destruct (for_each dirs os_makedirs _) as [[[]|e] w2]; cbn in *; [|discriminate].
  intros [= <- <-]. by subst.
Qed.

Lemma prologue_3 {B} p m e t d1 d2 d3 (k : DictRef -> M B) w :
  (env <- get_build_env p m e t ;;
   os_makedirs d1 ;; os_makedirs d2 ;; os_makedirs d3 ;; k env) w
  = (env <- prologue p m e t [d1; d2; d3] ;; k env) w.
Proof.
  unfold prologue. cbn [for_each]. unfold bind, ret.
  repeat (case_match; simplify_eq; try reflexivity).
Qed.

Lemma prologue_5 {B} p m e t d1 d2 d3 d4 d5 (k : DictRef -> M B) w :
  (env <- get_build_env p m e t ;;
   os_makedirs d1 ;; os_makedirs d2 ;; os_makedirs d3 ;; os_makedirs d4 ;;
   os_makedirs d5 ;; k env) w
  = (env <- prologue p m e t [d1; d2; d3; d4; d5] ;; k env) w.
Proof.
  unfold prologue. cbn [for_each]. unfold bind, ret.
  repeat (case_match; simplify_eq; try reflexivity).
Qed.

Lemma sources_3 {B} s1 s2 s3 (k : string -> string -> string -> M B) w :
  (a <- (l <- glob_glob "sources" s1 ;; item0 l) ;;
   b <- (l <- glob_glob "sources" s2 ;; item0 l) ;;
   c <- (l <- glob_glob "sources" s3 ;; item0 l) ;;
   k a b c) w
  = match (a ← source_tree w s1; b ← source_tree w s2; c ← source_tree w s3;
           Some (k a b c)) with
    | Some body => body w
    | None => (Raise IndexError, w)
    end.
Proof.
  unfold bind at 1. rewrite resolve_source.
  destruct (source_tree w s1); cbn; [|done].
  unfold bind at 1. rewrite resolve_source.
  destruct (source_tree w s2); cbn; [|done].
  unfold bind at 1. rewrite resolve_source.
  by destruct (source_tree w s3).
Qed.

Section Shapes.

Context (ext : Externals).

Ltac shape lem :=
  intros w; cbv zeta;
  match goal with
  | |- match ?pro w with _ => _ end =>
      let Ht := fresh "Ht" in
      let Hpro := fresh "Hpro" in
      assert (Ht : trace (pro w).2 = trace w) by apply prologue_trace;
      destruct (pro w) as [[env|e] w1] eqn:Hpro; cbn in Ht;
      [ split; [exact Ht|] | split; [|exact Ht] ];
      rewrite lem; unfold bind at 1; rewrite Hpro; [|reflexivity];
      rewrite sources_3
  end.

Lemma build_elf_toolchain_shape prefix :
  recipe_shape (build_elf_toolchain ext prefix)
    (prologue prefix "" "" "x86_64-elf"
       ["build/build-binutils-" +:+ "x86_64-elf"; "build/build-gdb-" +:+ "x86_64-elf";
        "build/build-gcc-" +:+ "x86_64-elf"])
    (plan_steps ext (steps_elf source_tree prefix)).
Proof.
  unfold recipe_shape, build_elf_toolchain, plan_steps, steps_elf. shape @prologue_3.
  destruct (source_tree w1 "binutils"), (source_tree w1 "gdb"), (source_tree w1 "gcc");
    cbn [mbind option_bind fmap option_fmap option_map]; reflexivity.
Qed.

Lemma build_win_elf_shape prefix mingw_prefix elf_prefix win_mingw_prefix :
  recipe_shape (build_win_elf ext prefix mingw_prefix elf_prefix win_mingw_prefix)
    (prologue prefix mingw_prefix elf_prefix "x86_64-elf"
       ["build/build-win-elf-binutils-" +:+ "x86_64-elf";
        "build/build-win-elf-gdb-" +:+ "x86_64-elf";
        "build/build-win-elf-gcc-" +:+ "x86_64-elf"])
    (plan_steps ext (steps_win_elf source_tree prefix win_mingw_prefix)).
Proof.
  unfold recipe_shape, build_win_elf, plan_steps, steps_win_elf. shape @prologue_3.
  destruct (source_tree w1 "binutils"), (source_tree w1 "gdb"), (source_tree w1 "gcc");
    cbn [mbind option_bind fmap option_fmap option_map]; reflexivity.
Qed.

Lemma build_win_mingw_shape prefix mingw_prefix :
  recipe_shape (build_win_mingw ext prefix mingw_prefix)
    (prologue prefix mingw_prefix "" "x86_64-w64-mingw32"
       ["build/build-win-binutils-" +:+ "x86_64-w64-mingw32";
        "build/build-win-gcc-" +:+ "x86_64-w64-mingw32";
        "build/build-win-mingw-headers-" +:+ "x86_64-w64-mingw32";
        "build/build-win-mingw-libs-" +:+ "x86_64-w64-mingw32";
        "build/build-win-mingw-winpthreads-" +:+ "x86_64-w64-mingw32"])
    (plan_steps ext (steps_win_mingw source_tree prefix)).
Proof.
  unfold recipe_shape, build_win_mingw, plan_steps, steps_win_mingw. shape @prologue_5.
  destruct (source_tree w1 "binutils"), (source_tree w1 "gcc"), (source_tree w1 "mingw");
    cbn [mbind option_bind fmap option_fmap option_map]; reflexivity.
Qed.

Lemma build_mingw_toolchain_shape prefix :
  recipe_shape (build_mingw_toolchain ext prefix)
    (prologue prefix "" "" "x86_64-w64-mingw32"
       ["build/build-binutils-" +:+ "x86_64-w64-mingw32";
        "build/build-gcc-" +:+ "x86_64-w64-mingw32";
        "build/build-mingw-headers-" +:+ "x86_64-w64-mingw32";
        "build/build-mingw-libs-" +:+ "x86_64-w64-mingw32";
        "build/build-mingw-winpthreads-" +:+ "x86_64-w64-mingw32"])
    (plan_mingw ext source_tree prefix).
Proof.
  unfold recipe_shape, build_mingw_toolchain, plan_mingw. shape @prologue_5.
  destruct (source_tree w1 "binutils"), (source_tree w1 "gcc"), (source_tree w1 "mingw");
    cbn [mbind option_bind]; reflexivity.
Qed.

End Shapes.

(** ** Removing trees *)

Lemma strip_prefix_refl d : Fs.strip_prefix d d = Some [].
Proof. induction d as [|a d IH]; cbn; [done|]. by rewrite String.eqb_refl. Qed.

Lemma kind_of_remove_tree f d q :
  Fs.kind_of (Fs.remove_tree f d) q
  = match Fs.strip_prefix d q with
    | Some _ => None
    | None => Fs.kind_of f q
    end.
Proof.
  unfold Fs.remove_tree.
  induction f as [|[p k] f IH]; cbn.
  - by destruct (Fs.strip_prefix d q).
  - unfold Fs.under at 1. cbn.
    destruct (Fs.strip_prefix d p) eqn:Hp; cbn.
    + rewrite IH. destruct (decide (p = q)) as [->|]; [by rewrite Hp|done].
    + rewrite IH. destruct (decide (p = q)) as [->|]; [by rewrite Hp|done].
Qed.

Lemma isdir_rmtree_fs_same f d : Fs.isdir (rmtree_fs f d) d = false.
Proof.
  unfold rmtree_fs. destruct (Fs.isdir f d) eqn:Hd; [|done].
  unfold Fs.isdir. by rewrite kind_of_remove_tree, strip_prefix_refl.
Qed.

Lemma isdir_rmtree_fs_mono f d q :
  Fs.isdir f q = false -> Fs.isdir (rmtree_fs f d) q = false.
Proof.
  unfold rmtree_fs. destruct (Fs.isdir f d); [|done].
  unfold Fs.isdir. rewrite kind_of_remove_tree.
  by destruct (Fs.strip_prefix d q).
Qed.

Lemma rmtree_fs_absent f d : Fs.isdir f d = false -> rmtree_fs f d = f.
Proof. unfold rmtree_fs. by intros ->. Qed.

Lemma shutil_rmtree_eq p w :
  shutil_rmtree p w = (Ok tt, with_fs w (rmtree_fs (fs w) (Fs.resolve (getcwd w) p))).
Proof.
  unfold shutil_rmtree, rmtree_fs, set_fs, with_fs.
  destruct (Fs.isdir _ _); [done|]. by destruct w.
Qed.

Lemma cleanup_eq w : cleanup w = (Ok tt, with_fs w (cleanup_fs (getcwd w) (fs w))).
Proof.
  unfold cleanup, bind. rewrite !shutil_rmtree_eq. reflexivity.
Qed.

Lemma cleanup_fs_absent cwd f :
  Fs.isdir (cleanup_fs cwd f) (Fs.resolve cwd "build") = false /\
  Fs.isdir (cleanup_fs cwd f) (Fs.resolve cwd "sources") = false /\
  Fs.isdir (cleanup_fs cwd f) (Fs.resolve cwd "tarballs") = false.
Proof.
  unfold cleanup_fs. repeat split.
  - do 2 apply isdir_rmtree_fs_mono. apply isdir_rmtree_fs_same.
  - apply isdir_rmtree_fs_mono. apply isdir_rmtree_fs_same.
  - apply isdir_rmtree_fs_same.
Qed.

Lemma cleanup_fs_idem cwd f : cleanup_fs cwd (cleanup_fs cwd f) = cleanup_fs cwd f.
Proof.
  destruct (cleanup_fs_absent cwd f) as (Hb & Hs & Ht).
  unfold cleanup_fs at 1.
  rewrite (rmtree_fs_absent _ _ Hb), (rmtree_fs_absent _ _ Hs), (rmtree_fs_absent _ _ Ht).
  reflexivity.
Qed.

(** C7.  [cleanup] never raises; run a second time, it returns normally and
    leaves the world as the first run left it; after it, none of [build],
    [sources] and [tarballs] is a directory. *)
Theorem cleanup_idempotent w :
  let once := (cleanup w).2 in
  (cleanup w).1 = Ok tt /\
  cleanup once = (Ok tt, once) /\
  (os_path_isdir "build" once).1 = Ok false /\
  (os_path_isdir "sources" once).1 = Ok false /\
  (os_path_isdir "tarballs" once).1 = Ok false.
Proof.
  cbv zeta. rewrite cleanup_eq. cbn [fst snd].
  split; [done|]. split.
  - rewrite cleanup_eq. unfold with_fs. cbn [fs getcwd os_environ heap trace].
    by rewrite cleanup_fs_idem.
  - unfold os_path_isdir, with_fs. cbn [fs getcwd fst].
    destruct (cleanup_fs_absent (getcwd w) (fs w)) as (-> & -> & ->). done.
Qed.








Lemma string_app_nil (b : string) : "" +:+ b = b.
Proof. reflexivity. Qed.

Lemma string_app_cons c (a b : string) : String c a +:+ b = String c (a +:+ b).
Proof. reflexivity. Qed.

Lemma string_app_assoc (a b c : string) : (a +:+ b) +:+ c = a +:+ b +:+ c.
Proof.
  induction a as [|x a IH]; [reflexivity|].
  by rewrite !string_app_cons, IH.
Qed.

Lemma split_nonempty sep s : Str.split sep s <> [].
Proof. destruct s as [|c s]; cbn; [done|]. destruct (Ascii.eqb c sep); [done|]. by destruct (Str.split sep s). Qed.

Lemma split_app sep a b :
  Str.split sep (a +:+ String sep b) = Str.split sep a ++ Str.split sep b.
Proof.
  induction a as [|c a IH].
  - rewrite string_app_nil. cbn. by rewrite Ascii.eqb_refl.
  - rewrite string_app_cons. cbn. rewrite IH. destruct (Ascii.eqb c sep); [done|].
    pose proof (split_nonempty sep a). by destruct (Str.split sep a).
Qed.

Lemma search_path_app a b :
  search_path (a +:+ ":" +:+ b) = search_path a ++ search_path b.
Proof. apply split_app. Qed.

Lemma prepend_bin_join cwd dir path :
  prepend_bin cwd dir path = Str.join ":" [posixpath.abspath cwd dir +:+ "/bin"; path].
Proof. unfold prepend_bin. cbn. by rewrite string_app_assoc. Qed.

Lemma composed_PATH_eq w prefix mingw_gcc elf_gcc target path :
  os_environ w !! "PATH" = Some path ->
  composed_PATH w prefix mingw_gcc elf_gcc target
  = Some (build_path (getcwd w) prefix mingw_gcc elf_gcc path).
Proof.
  intros Hpath. unfold composed_PATH. rewrite (get_build_env_ok _ _ _ _ _ _ Hpath).
  unfold alloc, deref. cbn [heap]. rewrite list_lookup_middle by done.
  cbn. unfold build_env. by rewrite lookup_insert_eq.
Qed.

(** C3, amended.  When the ambient environment defines [PATH] and both host
    compiler prefixes are non-empty, the environment that [get_build_env]
    returns has as [PATH] the [bin] directory of the base prefix, then that
    of the MinGW host compiler, then that of the ELF host compiler, then
    the ambient path, each prefix made absolute: the MinGW entry comes
    before the ELF entry.  Read as a search path, it is the concatenation
    of these four. *)
Theorem search_path_order w prefix mingw_gcc elf_gcc target path :
  os_environ w !! "PATH" = Some path ->
  Str.truthy mingw_gcc = true ->
  Str.truthy elf_gcc = true ->
  composed_PATH w prefix mingw_gcc elf_gcc target
  = Some (Str.join ":" [bin w prefix; bin w mingw_gcc; bin w elf_gcc; path]) /\
  search_path (Str.join ":" [bin w prefix; bin w mingw_gcc; bin w elf_gcc; path])
  = search_path (bin w prefix) ++ search_path (bin w mingw_gcc)
    ++ search_path (bin w elf_gcc) ++ search_path path.
Proof.
  intros Hpath Hm He. split.
  - rewrite (composed_PATH_eq _ _ _ _ _ _ Hpath). unfold build_path, prepend_bin, bin.
    rewrite Hm, He. cbn. by rewrite !string_app_assoc.
  - cbn [Str.join]. by rewrite !search_path_app.
Qed.

(** C8.  After any call of [get_build_env], [os.environ] and every dict
    object that existed before the call are unchanged.  When the call
    returns, the environment returned is a new object, one that did not
    exist before the call; the call returns exactly when [os.environ]
    defines [PATH], and raises [KeyError] otherwise. *)
Theorem get_build_env_leaves_os_environ w prefix mingw_gcc elf_gcc target :
  let r := get_build_env prefix mingw_gcc elf_gcc target w in
  os_environ r.2 = os_environ w /\
  take (length (heap w)) (heap r.2) = heap w /\
  match r.1 with
  | Ok env =>
      env = Obj (length (heap w)) /\ heap w !! length (heap w) = None /\
      is_Some (heap r.2 !! length (heap w)) /\ is_Some (os_environ w !! "PATH")
  | Raise e => e = KeyError "PATH" /\ os_environ w !! "PATH" = None
  end.
Proof.
  cbv zeta. destruct (os_environ w !! "PATH") as [path|] eqn:Hpath.
  - rewrite (get_build_env_ok _ _ _ _ _ _ Hpath). unfold alloc. cbn [fst snd os_environ heap].
    split; [done|]. split; [by rewrite take_app_length|].
    split; [done|]. split; [by apply lookup_ge_None_2|].
    split; [|by eexists]. rewrite list_lookup_middle by done. by eexists.
  - rewrite (get_build_env_no_path _ _ _ _ _ Hpath). unfold alloc. cbn [fst snd os_environ heap].
    split; [done|]. split; [by rewrite take_app_length|]. done.
Qed.

Lemma Grows_ret {A} (a : A) : Grows (ret a).
Proof. intros w. exists []. by rewrite app_nil_r. Qed.

Lemma Grows_raise {A} e : Grows (@raise A e).
Proof. intros w. exists []. by rewrite app_nil_r. Qed.

Lemma bind_grows {A B} (c : M A) (k : A -> M B) w :
  (forall a, Grows (k a)) ->
  exists t, trace (bind c k w).2 = trace (c w).2 ++ t.
Proof.
  intros Hk. unfold bind. destruct (c w) as [[a|e] w']; cbn.
  - apply Hk.
  - exists []. by rewrite app_nil_r.
Qed.

Lemma Grows_bind {A B} (c : M A) (k : A -> M B) :
  Grows c -> (forall a, Grows (k a)) -> Grows (bind c k).
Proof.
  intros Hc Hk w. destruct (Hc w) as [t1 H1].
  destruct (bind_grows c k w Hk) as [t2 H2].
  exists (t1 ++ t2). by rewrite H2, H1, app_assoc.
Qed.

Lemma Grows_when b (c : M unit) : Grows c -> Grows (when b c).
Proof. destruct b; cbn; auto using Grows_ret. Qed.

Lemma Grows_for_each {A} (xs : list A) (f : A -> M unit) :
  (forall x, Grows (f x)) -> Grows (for_each xs f).
Proof.
  intros Hf. induction xs as [|x xs IH]; cbn; [apply Grows_ret|].
  apply Grows_bind; auto.
Qed.

Ltac grows_prim :=
  intros [we wh wc wf wt]; cbn;
  repeat (case_match; cbn);
  first [ by (exists []; rewrite app_nil_r) | by eexists | by (rewrite <- app_assoc; eexists) ].

Lemma Grows_emit e : Grows (emit e).
Proof. unfold emit. grows_prim. Qed.

Lemma Grows_print s : Grows (print s).
Proof. apply Grows_emit. Qed.

Lemma Grows_print_no_end s : Grows (print_no_end s).
Proof. apply Grows_emit. Qed.

Lemma Grows_dict_copy r : Grows (dict_copy r).
Proof. unfold dict_copy. grows_prim. Qed.

Lemma Grows_getitem r k : Grows (getitem r k).
Proof. unfold getitem. grows_prim. Qed.

Lemma Grows_setitem r k v : Grows (setitem r k v).
Proof. unfold setitem. grows_prim. Qed.

Lemma Grows_abspath p : Grows (abspath p).
Proof. unfold abspath. grows_prim. Qed.

Lemma Grows_os_makedirs p : Grows (os_makedirs p).
Proof. unfold os_makedirs, set_fs. grows_prim. Qed.

Lemma Grows_os_path_isdir p : Grows (os_path_isdir p).
Proof. unfold os_path_isdir. grows_prim. Qed.

Lemma Grows_os_listdir p : Grows (os_listdir p).
Proof. unfold os_listdir. grows_prim. Qed.

Lemma Grows_shutil_rmtree p : Grows (shutil_rmtree p).
Proof. unfold shutil_rmtree, set_fs. grows_prim. Qed.

Lemma Grows_glob_glob d s : Grows (glob_glob d s).
Proof. unfold glob_glob. grows_prim. Qed.

Lemma Grows_item0 {A} (l : list A) : Grows (item0 l).
Proof. destruct l; [apply Grows_raise | apply Grows_ret]. Qed.

Lemma Grows_open_write p : Grows (open_write p).
Proof. unfold open_write, bind, set_fs, emit. grows_prim. Qed.

Lemma Grows_config_get cfg k : Grows (config_get cfg k).
Proof. unfold config_get. destruct (cfg !! k); [apply Grows_ret | apply Grows_raise]. Qed.

Lemma Grows_tar_add n a : Grows (tar_add n a).
Proof. apply Grows_emit. Qed.

Create HintDb grows.

#[export] Hint Resolve Grows_ret Grows_raise Grows_emit Grows_print Grows_print_no_end
  Grows_dict_copy Grows_getitem Grows_setitem Grows_abspath Grows_os_makedirs
  Grows_os_path_isdir Grows_os_listdir Grows_shutil_rmtree Grows_glob_glob Grows_item0
  Grows_open_write Grows_config_get Grows_tar_add : grows.

Ltac grows :=
  repeat first
    [ solve [auto with grows]
    | apply Grows_bind | apply Grows_when | apply Grows_for_each
    | match goal with |- forall _, _ => intros ? end
    | match goal with |- Grows (if ?b then _ else _) => destruct b end
    | match goal with |- Grows (match ?b with _ => _ end) => destruct b end ].

Lemma Grows_get_build_env p m e t : Grows (get_build_env p m e t).
Proof. unfold get_build_env. grows. Qed.

#[export] Hint Resolve Grows_get_build_env : grows.

Section GrowsScript.

Context (ext : Externals).

Lemma Grows_Popen s : Grows (Popen ext s).
Proof. unfold Popen. grows_prim. Qed.

Lemma Grows_run_step s : Grows (run_step ext s).
Proof.
  unfold run_step, get_subprocess_output, wait.
  pose proof (Grows_Popen s). grows.
Qed.

Lemma Grows_run_steps steps : Grows (run_steps ext steps).
Proof. apply Grows_for_each, Grows_run_step. Qed.

Hint Resolve Grows_run_steps : grows.

Lemma Grows_build_mingw_toolchain p : Grows (build_mingw_toolchain ext p).
Proof. unfold build_mingw_toolchain. grows. Qed.

Lemma Grows_build_elf_toolchain p : Grows (build_elf_toolchain ext p).
Proof. unfold build_elf_toolchain. grows. Qed.

Lemma Grows_build_win_mingw p m : Grows (build_win_mingw ext p m).
Proof. unfold build_win_mingw. grows. Qed.

Lemma Grows_build_win_elf p m e wm : Grows (build_win_elf ext p m e wm).
Proof. unfold build_win_elf. grows. Qed.

Lemma Grows_pack_compiler a p arch plat fmt : Grows (pack_compiler a p arch plat fmt).
Proof. unfold pack_compiler. grows. Qed.

End GrowsScript.

Lemma Rel_same_stages (c1 c2 : M unit) w : Rel c1 c2 -> same_stages (c1 w) (c2 w).
Proof.
  intros H. destruct (H w w (sim_refl w)) as [Hr Hs].
  split; [done|]. split; [by apply sim_launched|]. by destruct Hs as (_&_&_&?&_).
Qed.

(** C1, amended.  No recipe looks at the exit status of a stage.  Whatever
    the external commands do, and whatever statuses [g] they are made to
    exit with instead, each of the four recipes ends with the same result,
    has launched the same stages in the same order and leaves the same
    file system: a stage that exits non-zero never stops a recipe. *)
Theorem exit_status_is_not_fatal ext g w prefix mingw_prefix elf_prefix win_mingw_prefix :
  same_stages (build_mingw_toolchain ext prefix w)
              (build_mingw_toolchain (with_status g ext) prefix w) /\
  same_stages (build_elf_toolchain ext prefix w)
              (build_elf_toolchain (with_status g ext) prefix w) /\
  same_stages (build_win_mingw ext prefix mingw_prefix w)
              (build_win_mingw (with_status g ext) prefix mingw_prefix w) /\
  same_stages (build_win_elf ext prefix mingw_prefix elf_prefix win_mingw_prefix w)
              (build_win_elf (with_status g ext) prefix mingw_prefix elf_prefix
                 win_mingw_prefix w).
Proof.
  split; [|split; [|split]].
  - exact (Rel_same_stages _ _ w (Rel_build_mingw_toolchain ext g prefix)).
  - exact (Rel_same_stages _ _ w (Rel_build_elf_toolchain ext g prefix)).
  - exact (Rel_same_stages _ _ w (Rel_build_win_mingw ext g prefix mingw_prefix)).
  - exact (Rel_same_stages _ _ w
             (Rel_build_win_elf ext g prefix mingw_prefix elf_prefix win_mingw_prefix)).
Qed.

(** C1, counterexample.  In the example world every command exits with
    status 1.  The native ELF recipe returns normally all the same, after
    launching its fifteen stages: the binutils build ([gmake -j16], the
    second stage) fails and the gcc, libgcc, gmp, mpfr, mpc and gdb stages
    follow it. *)
Lemma failed_binutils_build_does_not_stop_the_elf_recipe :
  let run := build_elf_toolchain Example.ext "/opt/elf" Example.world in
  stops_at_failure (launches (trace run.2)) = false /\
  run.1 = Ok tt /\
  map (fun l => (stage_args l.1, stage_cwd l.1, l.2)) (launches (trace run.2))
  = [ ("../../sources/binutils-2.42/configure --target=x86_64-elf --prefix=/opt/elf --disable-nls --disable-werror --without-zstd",
       Some "build/build-binutils-x86_64-elf/", 1%Z);
      ("gmake -j16", Some "build/build-binutils-x86_64-elf/", 1%Z);
      ("gmake install-strip", Some "build/build-binutils-x86_64-elf/", 1%Z);
      ("contrib/download_prerequisites", Some "sources/gcc-14.1.0", 1%Z);
      ("../../sources/gcc-14.1.0/configure --target=x86_64-elf --prefix=/opt/elf --disable-nls --disable-multilib --disable-werror --disable-libstdcxx --without-zstd --without-headers --without-newlib --enable-languages=c,c++",
       Some "build/build-gcc-x86_64-elf/", 1%Z);
      ("gmake all-gcc -j16", Some "build/build-gcc-x86_64-elf/", 1%Z);
      ("gmake install-strip-gcc", Some "build/build-gcc-x86_64-elf/", 1%Z);
      ("gmake all-target-libgcc CFLAGS_FOR_TARGET='-g -O2 -mno-red-zone' -j16",
       Some "build/build-gcc-x86_64-elf/", 1%Z);
      ("gmake install-target-libgcc", Some "build/build-gcc-x86_64-elf/", 1%Z);
      ("gmake install-strip", Some "build/build-gcc-x86_64-elf/gmp", 1%Z);
      ("gmake install-strip", Some "build/build-gcc-x86_64-elf/mpfr", 1%Z);
      ("gmake install-strip", Some "build/build-gcc-x86_64-elf/mpc", 1%Z);
      ("../../sources/gdb-14.2/configure --target=x86_64-elf --prefix=/opt/elf --with-gmp=/opt/elf --with-mpfr=/opt/elf --without-zstd --disable-nls --disable-werror",
       Some "build/build-gdb-x86_64-elf/", 1%Z);
      ("gmake all-gdb -j16", Some "build/build-gdb-x86_64-elf/", 1%Z);
      ("gmake install-gdb", Some "build/build-gdb-x86_64-elf/", 1%Z) ].
Proof. vm_compute. repeat split. Qed.

(** C10, amended.  Each of the four recipes composes its environment and
    makes its build directories, then resolves every source tree it needs
    as the first entry of [sources] that the glob pattern [*component*]
    matches: the name contains the component and does not begin with a
    dot.  When that prologue succeeds and a component has no such entry,
    the recipe raises [IndexError] with no stage launched; when every
    component has one, the recipe is the run of its stages on the trees
    found. *)
Theorem sources_are_found_before_any_stage ext prefix mingw_prefix elf_prefix win_mingw_prefix :
  recipe_shape (build_mingw_toolchain ext prefix)
    (prologue prefix "" "" "x86_64-w64-mingw32"
       ["build/build-binutils-" +:+ "x86_64-w64-mingw32";
        "build/build-gcc-" +:+ "x86_64-w64-mingw32";
        "build/build-mingw-headers-" +:+ "x86_64-w64-mingw32";
        "build/build-mingw-libs-" +:+ "x86_64-w64-mingw32";
        "build/build-mingw-winpthreads-" +:+ "x86_64-w64-mingw32"])
    (plan_mingw ext source_tree prefix) /\
  recipe_shape (build_elf_toolchain ext prefix)
    (prologue prefix "" "" "x86_64-elf"
       ["build/build-binutils-" +:+ "x86_64-elf"; "build/build-gdb-" +:+ "x86_64-elf";
        "build/build-gcc-" +:+ "x86_64-elf"])
    (plan_steps ext (steps_elf source_tree prefix)) /\
  recipe_shape (build_win_mingw ext prefix mingw_prefix)
    (prologue prefix mingw_prefix "" "x86_64-w64-mingw32"
       ["build/build-win-binutils-" +:+ "x86_64-w64-mingw32";
        "build/build-win-gcc-" +:+ "x86_64-w64-mingw32";
        "build/build-win-mingw-headers-" +:+ "x86_64-w64-mingw32";
        "build/build-win-mingw-libs-" +:+ "x86_64-w64-mingw32";
        "build/build-win-mingw-winpthreads-" +:+ "x86_64-w64-mingw32"])
    (plan_steps ext (steps_win_mingw source_tree prefix)) /\
  recipe_shape (build_win_elf ext prefix mingw_prefix elf_prefix win_mingw_prefix)
    (prologue prefix mingw_prefix elf_prefix "x86_64-elf"
       ["build/build-win-elf-binutils-" +:+ "x86_64-elf";
        "build/build-win-elf-gdb-" +:+ "x86_64-elf";
        "build/build-win-elf-gcc-" +:+ "x86_64-elf"])
    (plan_steps ext (steps_win_elf source_tree prefix win_mingw_prefix)).
Proof.
  split; [apply build_mingw_toolchain_shape|].
  split; [apply build_elf_toolchain_shape|].
  split; [apply build_win_mingw_shape|apply build_win_elf_shape].
Qed.

(** C10, counterexample.  With [.binutils-2.41] listed before
    [binutils-2.42] in [sources], the native ELF recipe does not run on the
    first entry whose name contains [binutils]: its first stage is the
    configure script of [binutils-2.42]. *)
Lemma hidden_entry_is_passed_over :
  ~ recipe_shape (build_elf_toolchain Example.ext "/opt/elf")
      (prologue "/opt/elf" "" "" "x86_64-elf"
         ["build/build-binutils-" +:+ "x86_64-elf"; "build/build-gdb-" +:+ "x86_64-elf";
          "build/build-gcc-" +:+ "x86_64-elf"])
      (plan_steps Example.ext (steps_elf first_containing "/opt/elf")).
Proof.
  intros H. specialize (H Example.world_hidden).
  vm_compute in H. destruct H as [_ H].
  apply (f_equal (fun r => stage_args <$> head (launched (trace r.2)))) in H.
  vm_compute in H. discriminate H.
Qed.

Section Recipes.

Context (ext : Externals).

Lemma recipe_launched build pro steps :
  recipe_shape build pro (plan_steps ext steps) ->
  forall w, exists n l w1,
    launched (trace (build w).2) = launched (trace w) ++ map (stage_of w1) (take n l) /\
    (n = 0 \/ exists env, pro w = (Ok env, w1) /\ steps w1 env = Some l).
Proof.
  intros Hshape w. specialize (Hshape w).
  destruct (pro w) as [[env|e] w1].
  - destruct Hshape as [Ht Hb]. unfold plan_steps in Hb.
    destruct (steps w1 env) as [l|] eqn:Hsteps; cbn in Hb.
    + destruct (run_steps_launched ext l w1) as (n & _ & _ & Hl & _).
      exists n, l, w1. rewrite Hb, Hl, Ht. split; [done|]. right. by exists env.
    + exists 0, [], w1. rewrite Hb. cbn. rewrite Ht, app_nil_r. auto.
  - destruct Hshape as [Hb Ht]. exists 0, [], w1. rewrite Hb. cbn.
    rewrite Ht, app_nil_r. auto.
Qed.

Lemma recipe_first_stage build pro steps :
  recipe_shape build pro (plan_steps ext steps) ->
  (forall w env, steps w env <> Some []) ->
  forall w,
    match first_stage pro steps w with
    | Some st => exists rest, launched (trace (build w).2) = launched (trace w) ++ st :: rest
    | None => launched (trace (build w).2) = launched (trace w) /\
              exists e, (build w).1 = Raise e
    end.
Proof.
  intros Hshape Hne w. specialize (Hshape w). unfold first_stage.
  destruct (pro w) as [[env|e] w1].
  - destruct Hshape as [Ht Hb]. unfold plan_steps in Hb.
    specialize (Hne w1 env).
    destruct (steps w1 env) as [[|s l]|]; cbn in Hb; [done| |].
    + rewrite Hb. unfold run_steps. cbn [for_each].
      destruct (cwd_ok w1 s) eqn:Hcwd.
      * destruct (run_step_launch ext s w1 Hcwd) as (w' & Hrun & _ & Hl).
        destruct (bind_grows (run_step ext s) (fun _ => for_each l (run_step ext)) w1
                    (fun _ => Grows_run_steps ext l)) as [t Hg].
        rewrite Hrun in Hg. cbn in Hg.
        exists (launched t). rewrite Hg, launched_app. unfold launched at 1.
        rewrite Hl, map_app, Ht. cbn. by rewrite <- app_assoc.
      * destruct (run_step_no_launch ext s w1 Hcwd) as (e & w' & Hrun & _ & _ & Hl).
        unfold bind. rewrite Hrun. cbn. unfold launched. rewrite Hl, Ht. eauto.
    + rewrite Hb. cbn. rewrite Ht. eauto.
  - destruct Hshape as [Hb Ht]. rewrite Hb. cbn. rewrite Ht. eauto.
Qed.

End Recipes.

Lemma steps_win_mingw_nonempty lookup prefix w env : steps_win_mingw lookup prefix w env <> Some [].
Proof.
  unfold steps_win_mingw.
  destruct (lookup w "binutils"), (lookup w "gcc"), (lookup w "mingw"); cbn; discriminate.
Qed.

Lemma steps_win_elf_nonempty lookup prefix wmp w env :
  steps_win_elf lookup prefix wmp w env <> Some [].
Proof.
  unfold steps_win_elf.
  destruct (lookup w "binutils"), (lookup w "gdb"), (lookup w "gcc"); cbn; discriminate.
Qed.

#[export] Hint Resolve Grows_build_mingw_toolchain Grows_build_elf_toolchain
  Grows_build_win_mingw Grows_build_win_elf Grows_pack_compiler : grows.

Lemma bind_ok {A B} (c : M A) (k : A -> M B) w a w' :
  c w = (Ok a, w') -> bind c k w = k a w'.
Proof. unfold bind. by intros ->. Qed.

(** What follows a recipe in [main] only adds to its trace, and is not
    run when the recipe raises. *)
Lemma after_recipe {B} (c : M unit) (k1 : unit -> M unit) (k2 : unit -> M B) w :
  (forall a, Grows (k1 a)) -> (forall a, Grows (k2 a)) ->
  exists t,
    launched (trace (bind (bind c k1) k2 w).2) = launched (trace (c w).2) ++ t /\
    (forall e, (c w).1 = Raise e -> t = []).
Proof.
  intros H1 H2. unfold bind.
  destruct (c w) as [[[]|e] w1]; cbn.
  - destruct (H1 tt w1) as [t1 Ht1].
    destruct (k1 tt w1) as [[[]|e1] w2]; cbn in *.
    + destruct (H2 tt w2) as [t2 Ht2]. exists (launched (t1 ++ t2)).
      rewrite Ht2, Ht1, <- app_assoc, launched_app. split; [done|]. discriminate.
    + exists (launched t1). rewrite Ht1, launched_app. split; [done|]. discriminate.
  - exists []. by rewrite app_nil_r.
Qed.

Lemma bind_bind_print {A B} s (k1 : unit -> M A) (k2 : A -> M B) w :
  bind (bind (print s) k1) k2 w = bind (k1 tt) k2 (announced s w).
Proof. reflexivity. Qed.

Lemma bind_bind_config_get {A B} cfg key v (k1 : string -> M A) (k2 : A -> M B) w :
  cfg !! key = Some v ->
  bind (bind (config_get cfg key) k1) k2 w = bind (k1 v) k2 w.
Proof. intros H. unfold bind at 2, config_get. by rewrite H. Qed.

Lemma launched_announced s w : launched (trace (announced s w)) = launched (trace w).
Proof.
  unfold announced, print, emit. cbn [snd trace]. rewrite launched_app.
  unfold launched at 2. cbn. by rewrite app_nil_r.
Qed.

Section Main.

Context (ext : Externals).

Ltac enter_main Hcfg Hclean Htar Hsrc :=
  unfold main;
  unfold bind at 1; unfold json_load at 1; rewrite Hcfg, Hclean;
  unfold bind at 1; unfold os_path_isdir at 1; rewrite Htar;
  unfold bind at 1; unfold when at 1, negb at 1, ret at 1;
  unfold bind at 1; unfold os_path_isdir at 1; rewrite Hsrc;
  unfold bind at 1; unfold when at 1, negb at 1, ret at 1.

Lemma main_only_win_mingw args cfg w prefix mingw_prefix :
  load_config ext (arg_config args) = Ok cfg ->
  arg_cleanup args = false ->
  Fs.isdir (fs w) (Fs.resolve (getcwd w) "tarballs") = true ->
  Fs.isdir (fs w) (Fs.resolve (getcwd w) "sources") = true ->
  arg_build_mingw args = false ->
  arg_build_elf args = false ->
  arg_build_win_mingw args = true ->
  cfg !! "mingw_win_prefix" = Some prefix ->
  cfg !! "mingw_prefix" = Some mingw_prefix ->
  let w0 := announced "Building Windows MinGW toolchain..." w in
  exists t,
    launched (trace (main ext args w).2)
    = launched (trace (build_win_mingw ext prefix mingw_prefix w0).2) ++ t /\
    (forall e, (build_win_mingw ext prefix mingw_prefix w0).1 = Raise e -> t = []).
Proof.
  intros Hcfg Hclean Htar Hsrc Hm He Hwm Hp Hmp w0.
  enter_main Hcfg Hclean Htar Hsrc.
  rewrite Hm, He, Hwm.
  unfold bind at 1. unfold when at 1, ret at 1.
  unfold bind at 1. unfold when at 1, ret at 1.
  unfold when at 1.
  rewrite bind_bind_print.
  rewrite (bind_bind_config_get _ _ _ _ _ _ Hp).
  rewrite (bind_bind_config_get _ _ _ _ _ _ Hmp).
  apply after_recipe; intros; grows.
Qed.

Lemma main_only_win_elf args cfg w prefix mingw_prefix elf_prefix win_mingw_prefix :
  load_config ext (arg_config args) = Ok cfg ->
  arg_cleanup args = false ->
  Fs.isdir (fs w) (Fs.resolve (getcwd w) "tarballs") = true ->
  Fs.isdir (fs w) (Fs.resolve (getcwd w) "sources") = true ->
  arg_build_mingw args = false ->
  arg_build_elf args = false ->
  arg_build_win_mingw args = false ->
  arg_build_win_elf args = true ->
  cfg !! "elf_win_prefix" = Some prefix ->
  cfg !! "mingw_prefix" = Some mingw_prefix ->
  cfg !! "elf_prefix" = Some elf_prefix ->
  cfg !! "mingw_win_prefix" = Some win_mingw_prefix ->
  let w0 := announced "Building Windows ELF toolchain..." w in
  exists t,
    launched (trace (main ext args w).2)
    = launched (trace (build_win_elf ext prefix mingw_prefix elf_prefix win_mingw_prefix w0).2)
      ++ t /\
    (forall e, (build_win_elf ext prefix mingw_prefix elf_prefix win_mingw_prefix w0).1
               = Raise e -> t = []).
Proof.
  intros Hcfg Hclean Htar Hsrc Hm He Hwm Hwe Hp Hmp Hep Hwmp w0.
  enter_main Hcfg Hclean Htar Hsrc.
  rewrite Hm, He, Hwm, Hwe.
  unfold bind at 1. unfold when at 1, ret at 1.
  unfold bind at 1. unfold when at 1, ret at 1.
  unfold bind at 1. unfold when at 1, ret at 1.
  unfold when at 1.
  rewrite bind_bind_print.
  rewrite (bind_bind_config_get _ _ _ _ _ _ Hp).
  rewrite (bind_bind_config_get _ _ _ _ _ _ Hmp).
  rewrite (bind_bind_config_get _ _ _ _ _ _ Hep).
  rewrite (bind_bind_config_get _ _ _ _ _ _ Hwmp).
  apply after_recipe; intros; grows.
Qed.

End Main.

Lemma deref_prologue w w1 env prefix mingw_gcc elf_gcc target dirs path :
  os_environ w !! "PATH" = Some path ->
  prologue prefix mingw_gcc elf_gcc target dirs w = (Ok env, w1) ->
  deref env w1 = build_env w prefix mingw_gcc elf_gcc target path /\
  os_environ w1 = os_environ w /\ getcwd w1 = getcwd w.
Proof.
  intros Hpath Hpro.
  destruct (prologue_ok _ _ _ _ _ _ _ _ _ Hpath Hpro) as (-> & He & Hc & Hh).
  split; [|done]. unfold deref. rewrite Hh. by rewrite list_lookup_middle.
Qed.

Lemma build_path_both cwd prefix mingw_gcc elf_gcc path :
  Str.truthy mingw_gcc = true -> Str.truthy elf_gcc = true ->
  build_path cwd prefix mingw_gcc elf_gcc path
  = Str.join ":" [posixpath.abspath cwd prefix +:+ "/bin";
                  posixpath.abspath cwd mingw_gcc +:+ "/bin";
                  posixpath.abspath cwd elf_gcc +:+ "/bin"; path].
Proof.
  intros Hm He. unfold build_path, prepend_bin. rewrite Hm, He. cbn.
  by rewrite !string_app_assoc.
Qed.

Lemma build_path_mingw cwd prefix mingw_gcc path :
  Str.truthy mingw_gcc = true ->
  build_path cwd prefix mingw_gcc "" path
  = Str.join ":" [posixpath.abspath cwd prefix +:+ "/bin";
                  posixpath.abspath cwd mingw_gcc +:+ "/bin"; path].
Proof.
  intros Hm. unfold build_path, prepend_bin. rewrite Hm. cbn.
  by rewrite !string_app_assoc.
Qed.

Lemma build_path_none cwd prefix path :
  build_path cwd prefix "" "" path
  = Str.join ":" [posixpath.abspath cwd prefix +:+ "/bin"; path].
Proof. unfold build_path, prepend_bin. cbn. by rewrite !string_app_assoc. Qed.

(** C4, amended.  The Windows-hosted ELF recipe composes its environment
    from both the native MinGW prefix and the native ELF prefix: when the
    ambient environment defines [PATH] and both prefixes are non-empty,
    every stage the recipe launches runs with [PATH] made of the [bin]
    directories of the base prefix, of the native MinGW prefix and of the
    native ELF prefix, then the ambient path.  Its tenth stage, when
    reached, is the gdb configure stage; it passes the Windows-hosted MinGW
    prefix, made absolute, as both [--with-gmp] and [--with-mpfr]. *)
Theorem win_elf_environment_and_gdb_hints
    ext w prefix mingw_prefix elf_prefix win_mingw_prefix path :
  os_environ w !! "PATH" = Some path ->
  Str.truthy mingw_prefix = true ->
  Str.truthy elf_prefix = true ->
  exists stages,
    launched (trace (build_win_elf ext prefix mingw_prefix elf_prefix win_mingw_prefix w).2)
    = launched (trace w) ++ stages /\
    Forall (fun st =>
              stage_env st !! "PATH"
              = Some (Str.join ":" [bin w prefix; bin w mingw_prefix; bin w elf_prefix; path]))
           stages /\
    match stages !! 9 with
    | Some st =>
        exists gdb,
          stage_args st
          = "../../" +:+ gdb
            +:+ "/configure --host=x86_64-w64-mingw32 --target=x86_64-elf --prefix="
            +:+ posixpath.abspath (getcwd w) prefix
            +:+ " --with-gmp=" +:+ posixpath.abspath (getcwd w) win_mingw_prefix
            +:+ " --with-mpfr=" +:+ posixpath.abspath (getcwd w) win_mingw_prefix
            +:+ " --without-zstd --disable-nls --disable-werror"
    | None => True
    end.
Proof.
  intros Hpath Hm He.
  destruct (recipe_launched ext _ _ _
              (build_win_elf_shape ext prefix mingw_prefix elf_prefix win_mingw_prefix) w)
    as (n & l & w1 & Hl & Hn).
  exists (map (stage_of w1) (take n l)). split; [exact Hl|].
  destruct Hn as [->|(env & Hpro & Hsteps)]; [by split; [constructor|]|].
  destruct (deref_prologue _ _ _ _ _ _ _ _ _ Hpath Hpro) as (Henv & _ & Hcwd).
  unfold steps_win_elf in Hsteps.
  destruct (source_tree w1 "binutils") as [binutils|]; [|discriminate].
  destruct (source_tree w1 "gdb") as [gdb|]; [|discriminate].
  destruct (source_tree w1 "gcc") as [gcc|]; [|discriminate].
  cbn [mbind option_bind] in Hsteps. injection Hsteps as <-. rewrite Hcwd.
  split.
  - apply Forall_map, Forall_take.
    assert (Hall : Forall (fun s => step_env s = Some env)
              (build_win_elf_stages "x86_64-w64-mingw32" "x86_64-elf"
                 (posixpath.abspath (getcwd w) prefix)
                 (posixpath.abspath (getcwd w) win_mingw_prefix) binutils gdb gcc env))
      by (repeat constructor).
    eapply Forall_impl; [exact Hall|]. intros s Hs. unfold stage_of. cbn [stage_env].
    rewrite Hs. change (default OsEnviron (Some env)) with env. rewrite Henv.
    unfold build_env.
    rewrite lookup_insert_eq. unfold bin. by rewrite build_path_both.
  - destruct (map (stage_of w1) (take n _) !! 9) as [st|] eqn:Hst; [|done].
    exists gdb.
    change (map (stage_of w1) ?x) with (stage_of w1 <$> x) in Hst.
    rewrite list_lookup_fmap in Hst.
    destruct (take n _ !! 9) as [s|] eqn:Hs; [|discriminate].
    injection Hst as <-. apply lookup_take_Some in Hs as [Hs _].
    cbn in Hs. by injection Hs as <-.
Qed.

(** C4, counterexample.  The stages of the Windows-hosted ELF recipe do not
    run in the environment composed without the native ELF prefix: the
    search path of the first stage holds [/opt/elf/bin]. *)
Lemma win_elf_environment_has_the_elf_prefix :
  elf_prefix_left_out Example.ext Example.world
    "/opt/win-elf" "/opt/mingw" "/opt/elf" "/opt/win-mingw" = false /\
  (fun st => stage_env st !! "PATH")
    <$> head (launched (trace (build_win_elf Example.ext "/opt/win-elf" "/opt/mingw"
                                 "/opt/elf" "/opt/win-mingw" Example.world).2))
  = Some (Some "/opt/win-elf/bin:/opt/mingw/bin:/opt/elf/bin:/usr/bin:/bin").
Proof. split; vm_compute; reflexivity. Qed.

(** C5, amended.  The Windows-hosted MinGW recipe has a stage sequence of
    its own.  Of the logical stages of the native MinGW recipe it keeps ten,
    in the same order, drops eight (the separate mingw headers and
    winpthreads stages, the symlink, the gcc libs stages) and adds five
    (two copies, the installs of gmp, mpfr and mpc).  When the ambient
    environment defines [PATH] and the native MinGW prefix is non-empty,
    the stages it launches through a pipe run in the environment of the
    native recipe with the [bin] directory of the native MinGW prefix
    added to [PATH] right after that of the base prefix, and the two copy
    stages run in the ambient environment. *)
Theorem win_mingw_recipe_against_native ext w prefix mingw_prefix path :
  os_environ w !! "PATH" = Some path ->
  Str.truthy mingw_prefix = true ->
  (exists stages,
     launched (trace (build_win_mingw ext prefix mingw_prefix w).2)
     = launched (trace w) ++ stages /\
     Forall (fun st =>
               stage_env st
               = if stage_pipe st
                 then <["PATH" := Str.join ":" [bin w prefix; bin w mingw_prefix; path]]>
                        (build_env w prefix "" "" "x86_64-w64-mingw32" path)
                 else os_environ w)
            stages) /\
  build_env w prefix "" "" "x86_64-w64-mingw32" path !! "PATH"
  = Some (Str.join ":" [bin w prefix; path]) /\
  forall target p binutils gcc mingw env env_copy,
    let win := logical_sequence (build_win_mingw_stages target p binutils gcc mingw env) in
    let native :=
      logical_sequence (build_win_mingw_stages_spec target p binutils gcc mingw env env_copy) in
    List.filter (among native) win = common_stages /\
    List.filter (among win) native = common_stages /\
    List.filter (fun l => negb (among native l)) win
    = ["Copying libgcc to bin..."; "Copying libwinpthread to bin...";
       "Installing gmp..."; "Installing mpfr..."; "Installing mpc..."] /\
    List.filter (fun l => negb (among win l)) native
    = ["Configuring mingw headers..."; "Installing mingw headers..."; "Creating symlink...";
       "Configuring mingw winpthreads..."; "Building mingw winpthreads...";
       "Installing mingw winpthreads..."; "Building gcc libs..."; "Installing gcc libs..."].
Proof.
  intros Hpath Hm. split; [|split].
  - destruct (recipe_launched ext _ _ _ (build_win_mingw_shape ext prefix mingw_prefix) w)
      as (n & l & w1 & Hl & Hn).
    exists (map (stage_of w1) (take n l)). split; [exact Hl|].
    destruct Hn as [->|(env & Hpro & Hsteps)]; [constructor|].
    destruct (deref_prologue _ _ _ _ _ _ _ _ _ Hpath Hpro) as (Henv & Hos & Hcwd).
    unfold steps_win_mingw in Hsteps.
    destruct (source_tree w1 "binutils") as [binutils|]; [|discriminate].
    destruct (source_tree w1 "gcc") as [gcc|]; [|discriminate].
    destruct (source_tree w1 "mingw") as [mingw|]; [|discriminate].
    cbn [mbind option_bind] in Hsteps. injection Hsteps as <-.
    apply Forall_map, Forall_take.
    assert (Hall : Forall (fun s => (step_env s = Some env /\ step_pipe s = true)
                                   \/ (step_env s = None /\ step_pipe s = false))
              (build_win_mingw_stages "x86_64-w64-mingw32"
                 (posixpath.abspath (getcwd w1) prefix) binutils gcc mingw env))
      by (repeat constructor; (by left) || (by right)).
    eapply Forall_impl; [exact Hall|]. intros s Hs. unfold stage_of. cbn [stage_env stage_pipe].
    destruct Hs as [[-> ->]|[-> ->]].
    + change (default OsEnviron (Some env)) with env. rewrite Henv. unfold build_env.
      rewrite insert_insert_eq. f_equal. unfold bin. by apply build_path_mingw.
    + exact Hos.
  - unfold build_env. rewrite lookup_insert_eq. unfold bin. by rewrite build_path_none.
  - intros. repeat split; reflexivity.
Qed.

(** C5, counterexample.  The logical stage sequence of the Windows-hosted
    MinGW recipe is not that of the native MinGW recipe. *)
Lemma win_mingw_is_not_the_native_sequence :
  ~ same_logical_sequence "x86_64-w64-mingw32" "/opt/win-mingw" "sources/binutils-2.42"
      "sources/gcc-14.1.0" "sources/mingw-w64-v11.0.1" (Obj 0) (Obj 1).
Proof. unfold same_logical_sequence. vm_compute. discriminate. Qed.

(** C2, amended.  [main] enters a requested Windows-hosted recipe without
    looking at its prerequisite install prefixes.  With the configuration
    read, no cleanup requested, [tarballs] and [sources] in place and
    neither native recipe requested: when the Windows-hosted MinGW recipe
    is requested, the stages of the run begin with the first stage of that
    recipe as soon as the recipe's own prologue (environment, build
    directories), its source lookup and the working directory of its first
    step succeed, and the run launches nothing otherwise; likewise for the
    Windows-hosted ELF recipe when it is the only recipe requested.
    Whether a native prefix exists plays no part in either. *)
Theorem windows_recipe_begins_without_prefix_check ext args cfg w :
  load_config ext (arg_config args) = Ok cfg ->
  arg_cleanup args = false ->
  Fs.isdir (fs w) (Fs.resolve (getcwd w) "tarballs") = true ->
  Fs.isdir (fs w) (Fs.resolve (getcwd w) "sources") = true ->
  arg_build_mingw args = false ->
  arg_build_elf args = false ->
  (forall prefix mingw_prefix,
     arg_build_win_mingw args = true ->
     cfg !! "mingw_win_prefix" = Some prefix ->
     cfg !! "mingw_prefix" = Some mingw_prefix ->
     exists rest,
       launched (trace (main ext args w).2)
       = launched (trace w)
         ++ match first_stage
                    (prologue prefix mingw_prefix "" "x86_64-w64-mingw32" win_mingw_dirs)
                    (steps_win_mingw source_tree prefix)
                    (announced "Building Windows MinGW toolchain..." w) with
            | Some st => st :: rest
            | None => []
            end) /\
  (forall prefix mingw_prefix elf_prefix win_mingw_prefix,
     arg_build_win_mingw args = false ->
     arg_build_win_elf args = true ->
     cfg !! "elf_win_prefix" = Some prefix ->
     cfg !! "mingw_prefix" = Some mingw_prefix ->
     cfg !! "elf_prefix" = Some elf_prefix ->
     cfg !! "mingw_win_prefix" = Some win_mingw_prefix ->
     exists rest,
       launched (trace (main ext args w).2)
       = launched (trace w)
         ++ match first_stage
                    (prologue prefix mingw_prefix elf_prefix "x86_64-elf" win_elf_dirs)
                    (steps_win_elf source_tree prefix win_mingw_prefix)
                    (announced "Building Windows ELF toolchain..." w) with
            | Some st => st :: rest
            | None => []
            end).
Proof.
  intros Hcfg Hclean Htar Hsrc Hm He. split.
  - intros prefix mingw_prefix Hwm Hp Hmp.
    destruct (main_only_win_mingw ext args cfg w prefix mingw_prefix
                Hcfg Hclean Htar Hsrc Hm He Hwm Hp Hmp) as (t & Ht & Hraise).
    pose proof (recipe_first_stage ext _ _ _ (build_win_mingw_shape ext prefix mingw_prefix)
                  (steps_win_mingw_nonempty source_tree prefix)
                  (announced "Building Windows MinGW toolchain..." w)) as Hfirst.
    fold win_mingw_dirs in Hfirst.
    destruct (first_stage _ _ _) as [st|].
    + destruct Hfirst as [rest Hrest]. exists (rest ++ t).
      rewrite Ht, Hrest, launched_announced, <- app_assoc. reflexivity.
    + destruct Hfirst as [Hsame [e Hr]]. exists [].
      rewrite Ht, (Hraise e Hr), Hsame, launched_announced. reflexivity.
  - intros prefix mingw_prefix elf_prefix win_mingw_prefix Hwm Hwe Hp Hmp Hep Hwmp.
    destruct (main_only_win_elf ext args cfg w prefix mingw_prefix elf_prefix win_mingw_prefix
                Hcfg Hclean Htar Hsrc Hm He Hwm Hwe Hp Hmp Hep Hwmp) as (t & Ht & Hraise).
    pose proof (recipe_first_stage ext _ _ _
                  (build_win_elf_shape ext prefix mingw_prefix elf_prefix win_mingw_prefix)
                  (steps_win_elf_nonempty source_tree prefix win_mingw_prefix)
                  (announced "Building Windows ELF toolchain..." w)) as Hfirst.
    fold win_elf_dirs in Hfirst.
    destruct (first_stage _ _ _) as [st|].
    + destruct Hfirst as [rest Hrest]. exists (rest ++ t).
      rewrite Ht, Hrest, launched_announced, <- app_assoc. reflexivity.
    + destruct Hfirst as [Hsame [e Hr]]. exists [].
      rewrite Ht, (Hraise e Hr), Hsame, launched_announced. reflexivity.
Qed.

(** C2, counterexample.  In the example world the native MinGW prefix
    [/opt/mingw] does not exist and no native recipe is requested; the run
    that requests the Windows-hosted MinGW recipe launches stages all the
    same. *)
Lemma win_mingw_begins_without_the_native_prefix :
  ~ gated_on_prefix Example.ext Example.only_win_mingw Example.world "/opt/mingw".
Proof.
  intros H. assert (Fs.isdir (fs Example.world)
                      (Fs.resolve (getcwd Example.world) "/opt/mingw") = true) as Hdir.
  { apply H. vm_compute. discriminate. }
  vm_compute in Hdir. discriminate.
Qed.

(** C3, counterexample.  With [/opt/mingw] and [/opt/elf] as host compiler
    prefixes, the entry of the ELF host compiler does not come before the
    entry of the MinGW host compiler: the search path is [/opt/win-elf/bin],
    [/opt/mingw/bin], [/opt/elf/bin], then the ambient entries. *)
Lemma mingw_entry_comes_before_elf_entry :
  elf_before_mingw Example.world "/opt/win-elf" "/opt/mingw" "/opt/elf" "x86_64-elf" = false /\
  search_path <$> composed_PATH Example.world "/opt/win-elf" "/opt/mingw" "/opt/elf" "x86_64-elf"
  = Some ["/opt/win-elf/bin"; "/opt/mingw/bin"; "/opt/elf/bin"; "/usr/bin"; "/bin"].
Proof. split; vm_compute; reflexivity. Qed.

(** C3, at the example world. *)
Lemma search_path_order_witness :
  os_environ Example.world !! "PATH" = Some "/usr/bin:/bin" /\
  composed_PATH Example.world "/opt/win-elf" "/opt/mingw" "/opt/elf" "x86_64-elf"
  = Some "/opt/win-elf/bin:/opt/mingw/bin:/opt/elf/bin:/usr/bin:/bin".
Proof.
  split; [reflexivity|].
  exact (proj1 (search_path_order Example.world "/opt/win-elf" "/opt/mingw" "/opt/elf"
                  "x86_64-elf" "/usr/bin:/bin" eq_refl eq_refl eq_refl)).
Defined.

(** C4, at the example world: all twelve stages are launched, each with
    the four-part search path. *)
Lemma win_elf_environment_and_gdb_hints_witness :
  os_environ Example.world !! "PATH" = Some "/usr/bin:/bin" /\
  exists stages,
    launched (trace (build_win_elf Example.ext "/opt/win-elf" "/opt/mingw" "/opt/elf"
                       "/opt/win-mingw" Example.world).2) = stages /\
    length stages = 12 /\
    Forall (fun st => stage_env st !! "PATH"
                      = Some "/opt/win-elf/bin:/opt/mingw/bin:/opt/elf/bin:/usr/bin:/bin")
           stages.
Proof.
  split; [reflexivity|].
  destruct (win_elf_environment_and_gdb_hints Example.ext Example.world "/opt/win-elf"
              "/opt/mingw" "/opt/elf" "/opt/win-mingw" "/usr/bin:/bin" eq_refl eq_refl eq_refl)
    as (stages & Hl & Hall & _).
  change (launched (trace Example.world) ++ stages) with stages in Hl.
  exists stages. split; [exact Hl|]. split; [|exact Hall].
  rewrite <- Hl. vm_compute. reflexivity.
Defined.

(** C5, at the example world: the recipe launches its fifteen stages. *)
Lemma win_mingw_recipe_against_native_witness :
  os_environ Example.world !! "PATH" = Some "/usr/bin:/bin" /\
  exists stages,
    launched (trace (build_win_mingw Example.ext "/opt/win-mingw" "/opt/mingw"
                       Example.world).2) = stages /\
    length stages = 15.
Proof.
  split; [reflexivity|].
  destruct (win_mingw_recipe_against_native Example.ext Example.world "/opt/win-mingw"
              "/opt/mingw" "/usr/bin:/bin" eq_refl eq_refl) as ((stages & Hl & _) & _).
  change (launched (trace Example.world) ++ stages) with stages in Hl.
  exists stages. split; [exact Hl|].
  rewrite <- Hl. vm_compute. reflexivity.
Defined.

(** C2, at the example world: [/opt/mingw] is not there and the run begins
    with the binutils configure stage of the Windows-hosted MinGW
    recipe. *)
Lemma windows_recipe_begins_without_prefix_check_witness :
  Fs.isdir (fs Example.world) (Fs.resolve (getcwd Example.world) "/opt/mingw") = false /\
  exists st rest,
    launched (trace (main Example.ext Example.only_win_mingw Example.world).2) = st :: rest /\
    stage_args st
    = "../../sources/binutils-2.42/configure --host=x86_64-w64-mingw32 --target=x86_64-w64-mingw32 --prefix=/opt/win-mingw --disable-multilib --disable-nls --disable-werror --without-zstd".
Proof.
  split; [reflexivity|].
  assert (Hcfg : load_config Example.ext (arg_config Example.only_win_mingw)
                 = Ok Example.config) by reflexivity.
  assert (Htar : Fs.isdir (fs Example.world) (Fs.resolve (getcwd Example.world) "tarballs")
                 = true) by reflexivity.
  assert (Hsrc : Fs.isdir (fs Example.world) (Fs.resolve (getcwd Example.world) "sources")
                 = true) by reflexivity.
  destruct (windows_recipe_begins_without_prefix_check Example.ext Example.only_win_mingw
              Example.config Example.world Hcfg eq_refl Htar Hsrc eq_refl eq_refl) as [H _].
  assert (Hp : Example.config !! "mingw_win_prefix" = Some "/opt/win-mingw")
    by (vm_compute; reflexivity).
  assert (Hmp : Example.config !! "mingw_prefix" = Some "/opt/mingw")
    by (vm_compute; reflexivity).
  destruct (H "/opt/win-mingw" "/opt/mingw" eq_refl Hp Hmp) as [rest Hrest].
  match type of Hrest with
  | context [first_stage ?pro ?steps ?w] =>
      remember (first_stage pro steps w) as first eqn:Hfirst
  end.
  vm_compute in Hfirst. rewrite Hfirst in Hrest.
  eexists _, rest. split; [exact Hrest|reflexivity].
Defined.

(** * Further properties of the script *)

Lemma deref_alloc w d : deref (Obj (length (heap w))) (alloc w d) = d.
Proof. unfold deref, alloc. cbn [heap]. by rewrite list_lookup_middle. Qed.

(** X1.  When the ambient environment defines [PATH], [get_build_env]
    returns an environment in which [PREFIX] is the prefix and [TARGET] the
    target it was given, and in which every variable other than [PREFIX],
    [TARGET] and [PATH] is bound, or unbound, as in [os.environ]. *)
Theorem get_build_env_passes_the_rest_through w prefix mingw_gcc elf_gcc target path :
  os_environ w !! "PATH" = Some path ->
  exists env w',
    get_build_env prefix mingw_gcc elf_gcc target w = (Ok env, w') /\
    deref env w' !! "PREFIX" = Some prefix /\
    deref env w' !! "TARGET" = Some target /\
    forall k, k <> "PREFIX" -> k <> "TARGET" -> k <> "PATH" ->
              deref env w' !! k = os_environ w !! k.
Proof.
  intros Hpath. rewrite (get_build_env_ok _ _ _ _ _ _ Hpath).
  do 2 eexists. split; [reflexivity|]. rewrite deref_alloc. unfold build_env.
  split; [|split].
  - rewrite lookup_insert_ne by done. rewrite lookup_insert_ne by done.
    by rewrite lookup_insert_eq.
  - rewrite lookup_insert_ne by done. by rewrite lookup_insert_eq.
  - intros k H1 H2 H3. by rewrite !lookup_insert_ne.
Qed.

(** X1 in the example world, for the ELF target. *)
Lemma get_build_env_passes_the_rest_through_witness :
  exists env w',
    get_build_env "/opt/elf" "" "" "x86_64-elf" Example.world = (Ok env, w') /\
    deref env w' !! "PREFIX" = Some "/opt/elf" /\
    deref env w' !! "TARGET" = Some "x86_64-elf" /\
    forall k, k <> "PREFIX" -> k <> "TARGET" -> k <> "PATH" ->
              deref env w' !! k = os_environ Example.world !! k.
Proof.
  exact (get_build_env_passes_the_rest_through Example.world "/opt/elf" "" "" "x86_64-elf"
           "/usr/bin:/bin" eq_refl).
Defined.

Lemma normpath_comps_app i a b acc :
  posixpath.normpath_comps i (a ++ b) acc
  = posixpath.normpath_comps i b (rev (posixpath.normpath_comps i a acc)).
Proof.
  revert acc. induction a as [|c a IH]; intros acc; cbn [app posixpath.normpath_comps].
  - by rewrite rev_involutive.
  - repeat case_match; apply IH.
Qed.

Lemma component_spec c :
  component c = true ->
  String.eqb c "" = false /\ String.eqb c "." = false /\ String.eqb c ".." = false /\
  Str.contains "/" c = false.
Proof.
  unfold component. rewrite !andb_true_iff, !negb_true_iff. tauto.
Qed.

Lemma normpath_comps_components i cs : forall acc,
  Forall (fun c => component c = true) cs ->
  posixpath.normpath_comps i cs acc = rev acc ++ cs.
Proof.
  induction cs as [|c cs IH]; intros acc Hcs; cbn [posixpath.normpath_comps].
  - by rewrite app_nil_r.
  - inversion Hcs as [|? ? Hc Hcs']; subst.
    destruct (component_spec c Hc) as (-> & -> & -> & _). cbn.
    rewrite IH by done. cbn. by rewrite <- app_assoc.
Qed.

Lemma normpath_comps_skip i a acc :
  posixpath.normpath_comps i (a ++ [""]) acc = posixpath.normpath_comps i a acc.
Proof. rewrite normpath_comps_app. cbn. by rewrite rev_involutive. Qed.

Lemma normpath_comps_kept i comps : forall acc,
  Forall (fun c => Str.contains "/" c = false) comps -> Forall kept acc ->
  Forall kept (posixpath.normpath_comps i comps acc).
Proof.
  induction comps as [|c comps IH]; intros acc Hc Hacc; cbn [posixpath.normpath_comps].
  - by apply Forall_rev.
  - inversion Hc as [|? ? Hc1 Hc2]; subst.
    destruct (String.eqb_spec c "") as [->|Hne]; cbn [orb]; [by apply IH|].
    destruct (String.eqb c "."); cbn [orb]; [by apply IH|].
    case_match.
    + apply IH; [done|]. constructor; [|done]. split; [|done]. by destruct c.
    + apply IH; [done|]. destruct acc; [done|]. by inversion Hacc.
Qed.

Lemma contains_slash_cons c s :
  Str.contains "/" (String c s) = Ascii.eqb "/" c || Str.contains "/" s.
Proof. cbn. by rewrite andb_true_r. Qed.

Lemma split_pieces s : Forall (fun c => Str.contains "/" c = false) (Str.split "/" s).
Proof.
  induction s as [|c s IH]; cbn [Str.split].
  - by constructor.
  - destruct (Ascii.eqb_spec c "/") as [->|Hc].
    + by constructor.
    + pose proof (split_nonempty "/" s) as Hne.
      destruct (Str.split "/" s) as [|p ps]; [done|].
      inversion IH; subst. constructor; [|done].
      rewrite contains_slash_cons.
      destruct (Ascii.eqb_spec "/" c); [congruence|done].
Qed.

Lemma split_one s : Str.contains "/" s = false -> Str.split "/" s = [s].
Proof.
  induction s as [|c s IH]; [done|].
  rewrite contains_slash_cons. intros [Hc Hs]%orb_false_elim.
  cbn [Str.split]. rewrite Ascii.eqb_sym, Hc. by rewrite IH.
Qed.

Lemma split_join cs :
  Forall (fun c => Str.contains "/" c = false) cs -> cs <> [] ->
  Str.split "/" (Str.join "/" cs) = cs.
Proof.
  induction cs as [|c cs IH]; [done|]. intros Hcs _.
  inversion Hcs as [|? ? Hc Hcs']; subst.
  destruct cs as [|c' cs]; [by apply split_one|].
  change (Str.join "/" (c :: c' :: cs)) with (c +:+ String "/" (Str.join "/" (c' :: cs))).
  rewrite split_app, split_one, IH by done. done.
Qed.

Lemma filter_kept cs : Forall kept cs -> List.filter Str.truthy cs = cs.
Proof.
  induction 1 as [|c cs [Hc _] _ IH]; [done|]. cbn. by rewrite Hc, IH.
Qed.

Lemma normpath_eq path :
  posixpath.normpath path
  = if String.eqb path "" then "."
    else
      let comps := posixpath.normpath_comps (initial_slashes path) (Str.split "/" path) [] in
      let path' :=
        match initial_slashes path with
        | 0 => Str.join "/" comps
        | 1 => "/" +:+ Str.join "/" comps
        | _ => "//" +:+ Str.join "/" comps
        end in
      if String.eqb path' "" then "." else path'.
Proof. reflexivity. Qed.

(** The components [normpath] is left with are those of its result. *)
Lemma normpath_split path :
  let comps := posixpath.normpath_comps (initial_slashes path) (Str.split "/" path) [] in
  initial_slashes path <> 0 \/ comps <> [] ->
  List.filter Str.truthy (Str.split "/" (posixpath.normpath path)) = comps.
Proof.
  intros comps Hok.
  assert (Hkept : Forall kept comps)
    by (apply normpath_comps_kept; [apply split_pieces|constructor]).
  assert (Hsplit : comps <> [] -> Str.split "/" (Str.join "/" comps) = comps).
  { intros Hne. apply split_join; [|done].
    eapply Forall_impl; [exact Hkept|]. by intros c [_ ?]. }
  assert (Hpath : String.eqb path "" = false).
  { destruct path; [|done]. destruct Hok as [H|H]; by destruct H. }
  rewrite normpath_eq, Hpath. cbv zeta. fold comps.
  destruct (initial_slashes path) as [|[|n]] eqn:Hi.
  - destruct Hok as [Hok|Hok]; [done|].
    assert (Hj : String.eqb (Str.join "/" comps) "" = false).
    { destruct comps as [|c cs]; [done|]. inversion Hkept as [|? ? [Hc _] _]; subst.
      destruct c; [done|]. by destruct cs. }
    rewrite Hj, Hsplit by done. by apply filter_kept.
  - rewrite string_app_cons, string_app_nil. cbn [String.eqb Str.split].
    rewrite Ascii.eqb_refl. cbn [List.filter Str.truthy].
    destruct comps as [|c cs]; [done|]. rewrite Hsplit by done. by apply filter_kept.
  - rewrite !string_app_cons, string_app_nil. cbn [String.eqb Str.split].
    rewrite Ascii.eqb_refl. cbn [List.filter Str.truthy].
    destruct comps as [|c cs]; [done|]. rewrite Hsplit by done. by apply filter_kept.
Qed.

Lemma initial_slashes_app a x :
  a <> "" ->
  (Str.endswith_char "/" a = true -> Str.startswith "/" x = false) ->
  initial_slashes (a +:+ x) = initial_slashes a.
Proof.
  intros Ha Hx. unfold initial_slashes.
  destruct a as [|c1 [|c2 [|c3 a]]]; [done| | |].
  - rewrite string_app_cons, string_app_nil.
    cbn [Str.startswith Str.endswith_char] in Hx |- *.
    destruct (Ascii.eqb_spec "/" c1) as [<-|]; [|reflexivity].
    rewrite Hx by reflexivity. reflexivity.
  - rewrite !string_app_cons, string_app_nil.
    cbn [Str.startswith Str.endswith_char] in Hx |- *.
    destruct (Ascii.eqb_spec "/" c1) as [<-|]; [|reflexivity].
    destruct (Ascii.eqb_spec "/" c2) as [<-|]; [|reflexivity].
    destruct x as [|c x]; [reflexivity|].
    cbn [Str.startswith] in Hx |- *.
    rewrite andb_true_r in Hx. rewrite Hx by reflexivity. reflexivity.
  - rewrite !string_app_cons. reflexivity.
Qed.

Lemma endswith_slash a : Str.endswith_char "/" a = true -> exists a', a = a' +:+ "/".
Proof.
  induction a as [|c a IH]; [done|]. cbn [Str.endswith_char].
  destruct a as [|c' a].
  - intros ->%Ascii.eqb_eq. by exists "".
  - intros [a' ->]%IH. exists (String c a'). by rewrite string_app_cons.
Qed.

Lemma component_first c x : component c = true -> Str.startswith "/" (c +:+ x) = false.
Proof.
  intros (Hne & _ & _ & Hs)%component_spec.
  destruct c as [|ch c]; [done|]. rewrite string_app_cons.
  rewrite contains_slash_cons in Hs. apply orb_false_elim in Hs as [Hch _].
  cbn [Str.startswith]. by rewrite Hch.
Qed.

Lemma components_noslash cs :
  Forall (fun c => component c = true) cs -> Forall (fun c => Str.contains "/" c = false) cs.
Proof. intros H. eapply Forall_impl; [exact H|]. by intros c (_&_&_&?)%component_spec. Qed.

Lemma join_first c cs x :
  component c = true -> Str.startswith "/" (Str.join "/" (c :: cs) +:+ x) = false.
Proof.
  intros Hc. destruct cs as [|c' cs]; [by apply component_first|].
  change (Str.join "/" (c :: c' :: cs)) with (c +:+ "/" +:+ Str.join "/" (c' :: cs)).
  rewrite string_app_assoc. by apply component_first.
Qed.

(** A relative path made of proper components, with or without a slash
    at its end, resolves to these components under the current
    directory. *)
Lemma resolve_rel cwd cs (slash : bool) :
  Forall (fun c => component c = true) cs -> cs <> [] ->
  Fs.resolve cwd (Str.join "/" cs +:+ (if slash then "/" else "")) = cwd_comps cwd ++ cs.
Proof.
  intros Hcs Hne. destruct cs as [|c cs]; [done|].
  inversion Hcs as [|? ? Hc Hcs']; subst.
  set (rel := Str.join "/" (c :: cs) +:+ (if slash then "/" else "")).
  assert (Hrel : Str.startswith "/" rel = false) by by apply join_first.
  assert (Hsplit : exists tail, Str.split "/" rel = (c :: cs) ++ tail /\
                     forall i a acc, posixpath.normpath_comps i (a ++ (c :: cs) ++ tail) acc
                                     = posixpath.normpath_comps i a acc ++ c :: cs).
  { unfold rel. destruct slash.
    - exists [""]. split.
      + change "/" with (String "/" "") at 2. rewrite split_app.
        rewrite split_join; [done|by apply components_noslash|done].
      + intros i a acc. rewrite app_assoc, normpath_comps_skip, normpath_comps_app.
        rewrite normpath_comps_components by done. by rewrite rev_involutive.
    - exists []. split.
      + replace (Str.join "/" (c :: cs) +:+ "") with (Str.join "/" (c :: cs)).
        * rewrite app_nil_r. apply split_join; [by apply components_noslash|done].
        * generalize (Str.join "/" (c :: cs)). intros s. induction s as [|x s IH]; [done|].
          by rewrite string_app_cons, <- IH.
      + intros i a acc. rewrite app_nil_r, normpath_comps_app.
        rewrite normpath_comps_components by done. by rewrite rev_involutive. }
  destruct Hsplit as (tail & Hsplit & Hcomps).
  unfold Fs.resolve, posixpath.abspath, posixpath.isabs. rewrite Hrel.
  unfold cwd_comps, posixpath.join. rewrite Hrel.
  destruct cwd as [|ch cwd].
  - cbn [Str.truthy negb orb]. rewrite string_app_nil.
    rewrite normpath_split.
    + rewrite Hsplit. rewrite (Hcomps _ [] []). cbn. reflexivity.
    + right. rewrite Hsplit, (Hcomps _ [] []). cbn. done.
  - cbn [Str.truthy negb orb].
    destruct (Str.endswith_char posixpath.sep (String ch cwd)) eqn:Hend.
    + destruct (endswith_slash _ Hend) as [a' Ha'].
      assert (Hi : initial_slashes (String ch cwd +:+ rel) = initial_slashes (String ch cwd))
        by (apply initial_slashes_app; [done|by intros _]).
      rewrite normpath_split.
      * rewrite Hi, Ha'. rewrite string_app_assoc.
        change ("/" +:+ rel) with (String "/" rel). rewrite split_app, Hsplit, Hcomps.
        change "/" with (String "/" "") at 2. rewrite split_app. cbn [Str.split].
        by rewrite normpath_comps_skip.
      * right. rewrite Ha', string_app_assoc.
        change ("/" +:+ rel) with (String "/" rel). rewrite split_app, Hsplit, Hcomps.
        by destruct (posixpath.normpath_comps _ _ _).
    + assert (Hi : initial_slashes (String ch cwd +:+ "/" +:+ rel)
                   = initial_slashes (String ch cwd)).
      { apply initial_slashes_app; [done|]. unfold posixpath.sep in Hend. by rewrite Hend. }
      rewrite normpath_split.
      * rewrite Hi. change ("/" +:+ rel) with (String "/" rel).
        by rewrite split_app, Hsplit, Hcomps.
      * right. change ("/" +:+ rel) with (String "/" rel).
        rewrite split_app, Hsplit, Hcomps.
        by destruct (posixpath.normpath_comps _ _ _).
Qed.

Section EmitsMonad.

Context (P : Event -> Prop).

Lemma Emits_ret {A} (a : A) : Emits P (ret a).
Proof. intros w. exists []. by rewrite app_nil_r. Qed.

Lemma Emits_raise {A} e : Emits P (@raise A e).
Proof. intros w. exists []. by rewrite app_nil_r. Qed.

Lemma Emits_bind {A B} (c : M A) (k : A -> M B) :
  Emits P c -> (forall a, Emits P (k a)) -> Emits P (bind c k).
Proof.
  intros Hc Hk w. destruct (Hc w) as (t1 & H1 & HP1). unfold bind.
  destruct (c w) as [[a|e] w']; cbn in *.
  - destruct (Hk a w') as (t2 & H2 & HP2). exists (t1 ++ t2).
    rewrite H2, H1, app_assoc. split; [done|]. by apply Forall_app.
  - by exists t1.
Qed.

Lemma Emits_when b (c : M unit) : Emits P c -> Emits P (when b c).
Proof. destruct b; cbn; auto using Emits_ret. Qed.

Lemma Emits_for_each {A} (xs : list A) (f : A -> M unit) :
  (forall x, Emits P (f x)) -> Emits P (for_each xs f).
Proof.
  intros Hf. induction xs as [|x xs IH]; cbn; [apply Emits_ret|].
  apply Emits_bind; auto.
Qed.

Lemma Emits_emit e : P e -> Emits P (emit e).
Proof. intros He w. exists [e]. split; [done|]. by constructor. Qed.

(** A program that leaves the trace alone. *)
Lemma Emits_silent {A} (c : M A) : (forall w, trace (c w).2 = trace w) -> Emits P c.
Proof. intros H w. exists []. by rewrite H, app_nil_r. Qed.

End EmitsMonad.

Ltac silent :=
  apply Emits_silent; intros [we wh wc wf wt]; cbn; repeat (case_match; cbn); reflexivity.

Section EmitsPrimitives.

Context (P : Event -> Prop).

Lemma Emits_dict_copy r : Emits P (dict_copy r).
Proof. unfold dict_copy. silent. Qed.

Lemma Emits_getitem r k : Emits P (getitem r k).
Proof. unfold getitem. silent. Qed.

Lemma Emits_setitem r k v : Emits P (setitem r k v).
Proof. unfold setitem. silent. Qed.

Lemma Emits_abspath p : Emits P (abspath p).
Proof. unfold abspath. silent. Qed.

Lemma Emits_os_makedirs p : Emits P (os_makedirs p).
Proof. unfold os_makedirs, set_fs. silent. Qed.

Lemma Emits_os_path_isdir p : Emits P (os_path_isdir p).
Proof. unfold os_path_isdir. silent. Qed.

Lemma Emits_os_listdir p : Emits P (os_listdir p).
Proof. unfold os_listdir. silent. Qed.

Lemma Emits_shutil_rmtree p : Emits P (shutil_rmtree p).
Proof. unfold shutil_rmtree, set_fs. silent. Qed.

Lemma Emits_glob_glob d s : Emits P (glob_glob d s).
Proof. unfold glob_glob. silent. Qed.

Lemma Emits_item0 {A} (l : list A) : Emits P (item0 l).
Proof. destruct l; [apply Emits_raise | apply Emits_ret]. Qed.

Lemma Emits_config_get cfg k : Emits P (config_get cfg k).
Proof. unfold config_get. destruct (cfg !! k); [apply Emits_ret | apply Emits_raise]. Qed.

Lemma Emits_print s : P (EStdout (s +:+ newline)) -> Emits P (print s).
Proof. apply Emits_emit. Qed.

Lemma Emits_open_write p : P (EOpenWrite p) -> Emits P (open_write p).
Proof.
  intros Hp [we wh wc wf wt]. unfold open_write, bind, set_fs, emit. cbn.
  repeat (case_match; cbn);
    first [ by (exists []; rewrite app_nil_r) | by (eexists [_]; split; [done|by constructor]) ].
Qed.

End EmitsPrimitives.

Ltac emits_step :=
  first
    [ solve [auto with nocore]
    | apply Emits_ret | apply Emits_raise
    | match goal with |- Emits _ (when false _) => apply Emits_ret end
    | apply Emits_for_each
    | apply Emits_when
    | apply Emits_dict_copy | apply Emits_getitem | apply Emits_setitem | apply Emits_abspath
    | apply Emits_os_makedirs | apply Emits_os_path_isdir | apply Emits_os_listdir
    | apply Emits_shutil_rmtree | apply Emits_glob_glob | apply Emits_item0
    | apply Emits_config_get
    | apply Emits_print; solve [auto]
    | apply Emits_open_write; solve [auto]
    | apply Emits_emit; solve [auto]
    | apply Emits_bind
    | match goal with |- forall _, _ => intros ? end
    | match goal with |- Emits _ (if ?b then _ else _) => destruct b end
    | match goal with |- Emits _ (match ?b with _ => _ end) => destruct b end ].

Ltac emits := repeat emits_step.

Section EmitsScript.

Context (ext : Externals) (P : Event -> Prop).

Hypothesis Pstdout : forall s, P (EStdout s).
Hypothesis Ppopen : forall st z, P (EPopen st z).
Hypothesis Popenw : forall p, P (EOpenWrite p).
Hypothesis Padd : forall n a, P (ETarAdd n a).
Hypothesis Pextract : forall a d, P (ETarExtract a d).
Hypothesis Pretrieve : forall u f, P (EUrlRetrieve u f).

Lemma Emits_get_build_env p m e t : Emits P (get_build_env p m e t).
Proof. unfold get_build_env. emits. Qed.

Lemma Emits_Popen s : Emits P (Popen ext s).
Proof.
  intros [we wh wc wf wt]. unfold Popen. cbn.
  repeat (case_match; cbn);
    first [ by (exists []; rewrite app_nil_r) | by (eexists [_]; split; [done|by constructor]) ].
Qed.

Lemma Emits_run_step s : Emits P (run_step ext s).
Proof.
  unfold run_step, get_subprocess_output, wait, print_no_end.
  pose proof (Emits_Popen s). emits.
Qed.

Lemma Emits_run_steps steps : Emits P (run_steps ext steps).
Proof. apply Emits_for_each, Emits_run_step. Qed.

Lemma Emits_build_mingw_toolchain p : Emits P (build_mingw_toolchain ext p).
Proof.
  unfold build_mingw_toolchain.
  pose proof Emits_run_steps. pose proof Emits_get_build_env. emits.
Qed.

Lemma Emits_build_elf_toolchain p : Emits P (build_elf_toolchain ext p).
Proof.
  unfold build_elf_toolchain.
  pose proof Emits_run_steps. pose proof Emits_get_build_env. emits.
Qed.

Lemma Emits_build_win_mingw p m : Emits P (build_win_mingw ext p m).
Proof.
  unfold build_win_mingw.
  pose proof Emits_run_steps. pose proof Emits_get_build_env. emits.
Qed.

Lemma Emits_build_win_elf p m e wm : Emits P (build_win_elf ext p m e wm).
Proof.
  unfold build_win_elf.
  pose proof Emits_run_steps. pose proof Emits_get_build_env. emits.
Qed.

Lemma Emits_cleanup : Emits P cleanup.
Proof. unfold cleanup. emits. Qed.

Lemma Emits_pack_compiler a p arch plat fmt : Emits P (pack_compiler a p arch plat fmt).
Proof. unfold pack_compiler, tar_add. emits. Qed.

Lemma Emits_urlretrieve url filename : Emits P (urlretrieve ext url filename).
Proof. unfold urlretrieve. emits. Qed.

Lemma Emits_download_sources b g c m : Emits P (download_sources ext b g c m).
Proof. unfold download_sources. pose proof Emits_urlretrieve. emits. Qed.

Lemma Emits_tar_extractall archive dest : Emits P (tar_extractall ext archive dest).
Proof.
  intros [we wh wc wf wt]. unfold tar_extractall, bind, set_fs, emit. cbn.
  repeat (case_match; cbn);
    first [ by (exists []; rewrite app_nil_r) | by (eexists [_]; split; [done|by constructor]) ].
Qed.

Lemma Emits_extract_sources : Emits P (extract_sources ext).
Proof. unfold extract_sources. pose proof Emits_tar_extractall. emits. Qed.

(** [main] from the packing on. *)
Lemma Emits_main_no_build args :
  arg_build_mingw args = false -> arg_build_elf args = false ->
  arg_build_win_mingw args = false -> arg_build_win_elf args = false ->
  Emits P (main ext args).
Proof.
  intros H1 H2 H3 H4. unfold main, json_load. rewrite H1, H2, H3, H4.
  pose proof Emits_cleanup. pose proof Emits_download_sources.
  pose proof Emits_extract_sources. pose proof Emits_pack_compiler.
  apply Emits_bind; [silent|]. intros config.
  emits.
Qed.

End EmitsScript.

Lemma emits_at {A} P (c : M A) w :
  Emits P c -> exists t, trace (c w).2 = trace w ++ t /\ Forall P t.
Proof. intros H. apply H. Qed.

Lemma launched_quiet t t' :
  Forall (fun e => is_popen e = false) t' -> launched (t ++ t') = launched t.
Proof.
  intros H. rewrite launched_app. 
  assert (launched t' = []) as ->; [|by rewrite app_nil_r].
  unfold launched. induction H as [|e t' He _ IH]; [done|]. by destruct e.
Qed.

Lemma retrieved_quiet t t' :
  Forall (fun e => is_retrieve e = false) t' -> retrieved (t ++ t') = retrieved t.
Proof.
  intros H. induction t as [|e t IH]; cbn.
  - induction H as [|e t' He _ IH]; [done|]. by destruct e.
  - destruct e; by rewrite ?IH.
Qed.

Lemma extracted_quiet t t' :
  Forall (fun e => is_extract e = false) t' -> extracted (t ++ t') = extracted t.
Proof.
  intros H. induction t as [|e t IH]; cbn.
  - induction H as [|e t' He _ IH]; [done|]. by destruct e.
  - destruct e; by rewrite ?IH.
Qed.

(** X2.  Without any of the four build flags, [main] launches no
    command: downloading, extracting, cleaning up and packing are done in
    the script itself. *)
Theorem main_without_build_flags_launches_nothing ext args w :
  arg_build_mingw args = false -> arg_build_elf args = false ->
  arg_build_win_mingw args = false -> arg_build_win_elf args = false ->
  launched (trace (main ext args w).2) = launched (trace w).
Proof.
  intros H1 H2 H3 H4.
  destruct (Emits_main_no_build ext (fun e => is_popen e = false)
              ltac:(done) ltac:(done) ltac:(done) ltac:(done) ltac:(done)
              args H1 H2 H3 H4 w) as (t & -> & Ht).
  by apply launched_quiet.
Qed.

(** X2 for a run that only packs. *)
Lemma main_without_build_flags_launches_nothing_witness :
  launched (trace (main Example.ext Cases.pack_only Example.world).2) = [].
Proof.
  exact (main_without_build_flags_launches_nothing Example.ext Cases.pack_only Example.world
           eq_refl eq_refl eq_refl eq_refl).
Defined.

Section Reuse.

Context (ext : Externals).

Lemma main_with_tarballs_and_sources (P : Event -> Prop) args w :
  (forall s, P (EStdout s)) -> (forall st z, P (EPopen st z)) ->
  (forall p, P (EOpenWrite p)) -> (forall n a, P (ETarAdd n a)) ->
  Fs.isdir (fs w) (Fs.resolve (getcwd w) "tarballs") = true ->
  Fs.isdir (fs w) (Fs.resolve (getcwd w) "sources") = true ->
  exists t, trace (main ext args w).2 = trace w ++ t /\ Forall P t.
Proof.
  intros P1 P2 P3 P4 Htar Hsrc.
  pose proof (Emits_cleanup P). 
  pose proof (Emits_build_mingw_toolchain ext P P1 P2).
  pose proof (Emits_build_elf_toolchain ext P P1 P2).
  pose proof (Emits_build_win_mingw ext P P1 P2).
  pose proof (Emits_build_win_elf ext P P1 P2).
  pose proof (Emits_pack_compiler P P3 P4).
  unfold main. unfold bind at 1. unfold json_load at 1.
  destruct (load_config ext (arg_config args)) as [cfg|e];
    [|exists []; by rewrite app_nil_r].
  destruct (arg_cleanup args).
  { apply emits_at. emits. }
  unfold bind at 1; unfold os_path_isdir at 1; rewrite Htar;
  unfold bind at 1; unfold when at 1, negb at 1, ret at 1;
  unfold bind at 1; unfold os_path_isdir at 1; rewrite Hsrc;
  unfold bind at 1; unfold when at 1, negb at 1, ret at 1.
  lazymatch goal with
  | |- exists t, trace (snd (?c w)) = _ /\ _ => apply (emits_at P c)
  end.
  emits.
Qed.

Lemma main_with_tarballs (P : Event -> Prop) args w :
  (forall s, P (EStdout s)) -> (forall st z, P (EPopen st z)) ->
  (forall p, P (EOpenWrite p)) -> (forall n a, P (ETarAdd n a)) ->
  (forall a d, P (ETarExtract a d)) ->
  Fs.isdir (fs w) (Fs.resolve (getcwd w) "tarballs") = true ->
  exists t, trace (main ext args w).2 = trace w ++ t /\ Forall P t.
Proof.
  intros P1 P2 P3 P4 P5 Htar.
  pose proof (Emits_cleanup P).
  pose proof (Emits_build_mingw_toolchain ext P P1 P2).
  pose proof (Emits_build_elf_toolchain ext P P1 P2).
  pose proof (Emits_build_win_mingw ext P P1 P2).
  pose proof (Emits_build_win_elf ext P P1 P2).
  pose proof (Emits_pack_compiler P P3 P4).
  pose proof (Emits_extract_sources ext P P1 P5).
  unfold main. unfold bind at 1. unfold json_load at 1.
  destruct (load_config ext (arg_config args)) as [cfg|e];
    [|exists []; by rewrite app_nil_r].
  destruct (arg_cleanup args).
  { apply emits_at. emits. }
  unfold bind at 1; unfold os_path_isdir at 1; rewrite Htar;
  unfold bind at 1; unfold when at 1, negb at 1, ret at 1.
  lazymatch goal with
  | |- exists t, trace (snd (?c w)) = _ /\ _ => apply (emits_at P c)
  end.
  emits.
Qed.

End Reuse.

(** X3.  When [tarballs] and [sources] are directories at the start,
    [main] downloads nothing and extracts nothing, whatever the
    configuration asks for. *)
Theorem existing_tarballs_and_sources_are_reused ext args w :
  Fs.isdir (fs w) (Fs.resolve (getcwd w) "tarballs") = true ->
  Fs.isdir (fs w) (Fs.resolve (getcwd w) "sources") = true ->
  retrieved (trace (main ext args w).2) = retrieved (trace w) /\
  extracted (trace (main ext args w).2) = extracted (trace w).
Proof.
  intros Htar Hsrc.
  destruct (main_with_tarballs_and_sources ext
              (fun e => is_retrieve e = false /\ is_extract e = false) args w
              ltac:(done) ltac:(done) ltac:(done) ltac:(done) Htar Hsrc) as (t & -> & Ht).
  split.
  - apply retrieved_quiet. eapply Forall_impl; [exact Ht|]. by intros e [? ?].
  - apply extracted_quiet. eapply Forall_impl; [exact Ht|]. by intros e [? ?].
Qed.

(** X3 for a run with every build and pack flag. *)
Lemma existing_tarballs_and_sources_are_reused_witness :
  retrieved (trace (main Example.ext Cases.everything Example.world).2) = [] /\
  extracted (trace (main Example.ext Cases.everything Example.world).2) = [].
Proof.
  exact (existing_tarballs_and_sources_are_reused Example.ext Cases.everything Example.world
           eq_refl eq_refl).
Defined.

Lemma Frame_ret {A} (a : A) : Frame (ret a).
Proof. by intros w. Qed.

Lemma Frame_raise {A} e : Frame (@raise A e).
Proof. by intros w. Qed.

Lemma Frame_bind {A B} (c : M A) (k : A -> M B) :
  Frame c -> (forall a, Frame (k a)) -> Frame (bind c k).
Proof.
  intros Hc Hk w. destruct (Hc w) as [H1 H2]. unfold bind.
  destruct (c w) as [[a|e] w']; cbn in *; [|done].
  destruct (Hk a w') as [H3 H4]. split; congruence.
Qed.

(** A dict is written to only after it has been copied. *)
Lemma Frame_bind_copy {B} r (k : DictRef -> M B) :
  (forall n, Frame (k (Obj n))) -> Frame (bind (dict_copy r) k).
Proof.
  intros Hk w. unfold bind, dict_copy. destruct (Hk (length (heap w)) 
    (mkWorld (os_environ w) (heap w ++ [deref r w]) (getcwd w) (fs w) (trace w))) as [H1 H2].
  done.
Qed.

Lemma Frame_when b (c : M unit) : Frame c -> Frame (when b c).
Proof. destruct b; cbn; auto using Frame_ret. Qed.

Lemma Frame_for_each {A} (xs : list A) (f : A -> M unit) :
  (forall x, Frame (f x)) -> Frame (for_each xs f).
Proof.
  intros Hf. induction xs as [|x xs IH]; cbn; [apply Frame_ret|].
  apply Frame_bind; auto.
Qed.

Ltac frame_prim :=
  intros [we wh wc wf wt]; cbn; repeat (case_match; cbn); done.

Lemma Frame_emit e : Frame (emit e).
Proof. unfold emit. frame_prim. Qed.

Lemma Frame_print s : Frame (print s).
Proof. apply Frame_emit. Qed.

Lemma Frame_getitem r k : Frame (getitem r k).
Proof. unfold getitem. frame_prim. Qed.

Lemma Frame_setitem n k v : Frame (setitem (Obj n) k v).
Proof. unfold setitem. frame_prim. Qed.

Lemma Frame_abspath p : Frame (abspath p).
Proof. unfold abspath. frame_prim. Qed.

Lemma Frame_os_makedirs p : Frame (os_makedirs p).
Proof. unfold os_makedirs, set_fs. frame_prim. Qed.

Lemma Frame_os_path_isdir p : Frame (os_path_isdir p).
Proof. unfold os_path_isdir. frame_prim. Qed.

Lemma Frame_os_listdir p : Frame (os_listdir p).
Proof. unfold os_listdir. frame_prim. Qed.

Lemma Frame_shutil_rmtree p : Frame (shutil_rmtree p).
Proof. unfold shutil_rmtree, set_fs. frame_prim. Qed.

Lemma Frame_glob_glob d s : Frame (glob_glob d s).
Proof. unfold glob_glob. frame_prim. Qed.

Lemma Frame_item0 {A} (l : list A) : Frame (item0 l).
Proof. destruct l; [apply Frame_raise | apply Frame_ret]. Qed.

Lemma Frame_config_get cfg k : Frame (config_get cfg k).
Proof. unfold config_get. destruct (cfg !! k); [apply Frame_ret | apply Frame_raise]. Qed.

Lemma Frame_open_write p : Frame (open_write p).
Proof. unfold open_write, bind, set_fs, emit. frame_prim. Qed.

Ltac frame_step :=
  first
    [ solve [auto with nocore]
    | apply Frame_ret | apply Frame_raise
    | apply Frame_for_each
    | apply Frame_when
    | apply Frame_print | apply Frame_emit
    | apply Frame_getitem | apply Frame_setitem | apply Frame_abspath
    | apply Frame_os_makedirs | apply Frame_os_path_isdir | apply Frame_os_listdir
    | apply Frame_shutil_rmtree | apply Frame_glob_glob | apply Frame_item0
    | apply Frame_config_get | apply Frame_open_write
    | apply Frame_bind_copy
    | apply Frame_bind
    | match goal with |- forall _, _ => intros ? end
    | match goal with |- Frame (if ?b then _ else _) => destruct b end
    | match goal with |- Frame (match ?b with _ => _ end) => destruct b end ].

Ltac frame := repeat frame_step.

Lemma Frame_get_build_env p m e t : Frame (get_build_env p m e t).
Proof. unfold get_build_env. frame. Qed.

Section FrameScript.

Context (ext : Externals).

Lemma Frame_Popen s : Frame (Popen ext s).
Proof. unfold Popen. frame_prim. Qed.

Lemma Frame_run_step s : Frame (run_step ext s).
Proof.
  unfold run_step, get_subprocess_output, wait, print_no_end.
  pose proof (Frame_Popen s). frame.
Qed.

Lemma Frame_run_steps steps : Frame (run_steps ext steps).
Proof. apply Frame_for_each, Frame_run_step. Qed.

Lemma Frame_build_mingw_toolchain p : Frame (build_mingw_toolchain ext p).
Proof.
  unfold build_mingw_toolchain.
  pose proof Frame_run_steps. pose proof Frame_get_build_env. frame.
Qed.

Lemma Frame_build_elf_toolchain p : Frame (build_elf_toolchain ext p).
Proof.
  unfold build_elf_toolchain.
  pose proof Frame_run_steps. pose proof Frame_get_build_env. frame.
Qed.

Lemma Frame_build_win_mingw p m : Frame (build_win_mingw ext p m).
Proof.
  unfold build_win_mingw.
  pose proof Frame_run_steps. pose proof Frame_get_build_env. frame.
Qed.

Lemma Frame_build_win_elf p m e wm : Frame (build_win_elf ext p m e wm).
Proof.
  unfold build_win_elf.
  pose proof Frame_run_steps. pose proof Frame_get_build_env. frame.
Qed.

Lemma Frame_cleanup : Frame cleanup.
Proof. unfold cleanup. frame. Qed.

Lemma Frame_pack_compiler a p arch plat fmt : Frame (pack_compiler a p arch plat fmt).
Proof. unfold pack_compiler, tar_add. frame. Qed.

Lemma Frame_download_sources b g c m : Frame (download_sources ext b g c m).
Proof. unfold download_sources, urlretrieve. frame. Qed.

Lemma Frame_tar_extractall archive dest : Frame (tar_extractall ext archive dest).
Proof. unfold tar_extractall, bind, set_fs, emit. frame_prim. Qed.

Lemma Frame_extract_sources : Frame (extract_sources ext).
Proof. unfold extract_sources. pose proof Frame_tar_extractall. frame. Qed.

Lemma Frame_json_load name : Frame (json_load ext name).
Proof. unfold json_load. frame_prim. Qed.

End FrameScript.

(** X4.  A run of [main] writes nothing to [os.environ] and never changes
    the current directory, whatever its flags, its configuration and the
    commands it launches do. *)
Theorem main_leaves_the_process_environment ext args w :
  os_environ (main ext args w).2 = os_environ w /\
  getcwd (main ext args w).2 = getcwd w.
Proof.
  revert w. change (Frame (main ext args)). unfold main.
  pose proof (Frame_json_load ext). pose proof Frame_cleanup.
  pose proof (Frame_download_sources ext). pose proof (Frame_extract_sources ext).
  pose proof (Frame_build_mingw_toolchain ext). pose proof (Frame_build_elf_toolchain ext).
  pose proof (Frame_build_win_mingw ext). pose proof (Frame_build_win_elf ext).
  pose proof Frame_pack_compiler.
  frame.
Qed.

Section RaisesMonad.

Context (E : Exn -> Prop).

Lemma Raises_ret {A} (a : A) : Raises E (ret a).
Proof. intros w e. discriminate. Qed.

Lemma Raises_raise {A} e : E e -> Raises E (@raise A e).
Proof. intros He w e' [= <-]. done. Qed.

Lemma Raises_bind {A B} (c : M A) (k : A -> M B) :
  Raises E c -> (forall a, Raises E (k a)) -> Raises E (bind c k).
Proof.
  intros Hc Hk w e. unfold bind. specialize (Hc w).
  destruct (c w) as [[a|e'] w']; cbn in *.
  - apply Hk.
  - intros [= <-]. by apply Hc.
Qed.

Lemma Raises_when b (c : M unit) : Raises E c -> Raises E (when b c).
Proof. destruct b; cbn; auto using Raises_ret. Qed.

Lemma Raises_for_each {A} (xs : list A) (f : A -> M unit) :
  (forall x, Raises E (f x)) -> Raises E (for_each xs f).
Proof.
  intros Hf. induction xs as [|x xs IH]; cbn; [apply Raises_ret|].
  apply Raises_bind; auto.
Qed.

(** A program that always returns. *)
Lemma Raises_total {A} (c : M A) : (forall w, exists a, (c w).1 = Ok a) -> Raises E c.
Proof. intros H w e He. destruct (H w) as [a Ha]. congruence. Qed.

End RaisesMonad.

Ltac total :=
  apply Raises_total; intros [we wh wc wf wt]; cbn; repeat (case_match; cbn); by eexists.

Ltac raises_prim :=
  intros [we wh wc wf wt] e0; cbn; repeat (case_match; cbn); intros [= <-]; auto.

Section RaisesPrimitives.

Context (E : Exn -> Prop).

Lemma Raises_emit e : Raises E (emit e).
Proof. unfold emit. total. Qed.

Lemma Raises_print s : Raises E (print s).
Proof. apply Raises_emit. Qed.

Lemma Raises_dict_copy r : Raises E (dict_copy r).
Proof. unfold dict_copy. total. Qed.

Lemma Raises_setitem r k v : Raises E (setitem r k v).
Proof. unfold setitem. total. Qed.

Lemma Raises_abspath p : Raises E (abspath p).
Proof. unfold abspath. total. Qed.

Lemma Raises_glob_glob d s : Raises E (glob_glob d s).
Proof. unfold glob_glob. total. Qed.

Lemma Raises_getitem r k : E (KeyError k) -> Raises E (getitem r k).
Proof. intros H. unfold getitem. raises_prim. Qed.

Lemma Raises_item0 {A} (l : list A) : E IndexError -> Raises E (item0 l).
Proof. intros H. destruct l; [by apply Raises_raise | apply Raises_ret]. Qed.

Lemma makedirs_raises above todo f e :
  Fs.makedirs above todo f = Raise e -> e = FileExistsError \/ e = NotADirectoryError.
Proof.
  revert above f. induction todo as [|c todo IH]; intros above f; cbn; [done|].
  destruct (Fs.kind_of f (above ++ [c])) as [[]|]; [|apply IH|apply IH].
  destruct todo; intros [= <-]; auto.
Qed.

Lemma Raises_os_makedirs p :
  E FileExistsError -> E NotADirectoryError -> Raises E (os_makedirs p).
Proof.
  intros H1 H2 w e. unfold os_makedirs.
  destruct (Fs.makedirs _ _ _) as [f|e'] eqn:Hm; cbn; [done|].
  intros [= <-]. by destruct (makedirs_raises _ _ _ _ Hm) as [->| ->].
Qed.

End RaisesPrimitives.

Ltac raises_step :=
  first
    [ solve [auto with nocore]
    | apply Raises_ret
    | apply Raises_for_each
    | apply Raises_when
    | apply Raises_print | apply Raises_emit
    | apply Raises_dict_copy | apply Raises_setitem | apply Raises_abspath
    | apply Raises_glob_glob
    | apply Raises_raise; solve [auto]
    | apply Raises_getitem; solve [auto]
    | apply Raises_item0; solve [auto]
    | apply Raises_os_makedirs; solve [auto]
    | apply Raises_bind
    | match goal with |- forall _, _ => intros ? end
    | match goal with |- Raises _ (if ?b then _ else _) => destruct b end
    | match goal with |- Raises _ (match ?b with _ => _ end) => destruct b end ].

Ltac raises := repeat raises_step.

Section RaisesScript.

Context (ext : Externals) (E : Exn -> Prop).

Hypothesis Epath : E (KeyError "PATH").
Hypothesis Eexists : E FileExistsError.
Hypothesis Enotdir : E NotADirectoryError.
Hypothesis Eindex : E IndexError.
Hypothesis Enotfound : E FileNotFoundError.

Lemma Raises_get_build_env p m e t : Raises E (get_build_env p m e t).
Proof. unfold get_build_env. raises. Qed.

Lemma Raises_Popen s : Raises E (Popen ext s).
Proof. unfold Popen. raises_prim. Qed.

Lemma Raises_run_step s : Raises E (run_step ext s).
Proof.
  unfold run_step, get_subprocess_output, wait, print_no_end.
  pose proof (Raises_Popen s). raises.
Qed.

Lemma Raises_run_steps steps : Raises E (run_steps ext steps).
Proof. apply Raises_for_each, Raises_run_step. Qed.

Lemma Raises_build_mingw_toolchain p : Raises E (build_mingw_toolchain ext p).
Proof.
  unfold build_mingw_toolchain.
  pose proof Raises_run_steps. pose proof Raises_get_build_env. raises.
Qed.

Lemma Raises_build_elf_toolchain p : Raises E (build_elf_toolchain ext p).
Proof.
  unfold build_elf_toolchain.
  pose proof Raises_run_steps. pose proof Raises_get_build_env. raises.
Qed.

Lemma Raises_build_win_mingw p m : Raises E (build_win_mingw ext p m).
Proof.
  unfold build_win_mingw.
  pose proof Raises_run_steps. pose proof Raises_get_build_env. raises.
Qed.

Lemma Raises_build_win_elf p m e wm : Raises E (build_win_elf ext p m e wm).
Proof.
  unfold build_win_elf.
  pose proof Raises_run_steps. pose proof Raises_get_build_env. raises.
Qed.

End RaisesScript.

(** X6.  With [--cleanup], [main] does the cleanup and nothing else: once
    the configuration is loaded it prints [Cleanup...], removes the three
    trees, prints [Done.] and returns, whatever the other flags are; when
    the configuration cannot be loaded it raises and changes nothing. *)
Theorem cleanup_flag_overrides_the_others ext args w :
  arg_cleanup args = true ->
  main ext args w
  = match load_config ext (arg_config args) with
    | Ok _ =>
        (Ok tt,
         mkWorld (os_environ w) (heap w) (getcwd w) (cleanup_fs (getcwd w) (fs w))
                 (trace w ++ [EStdout ("Cleanup..." +:+ newline); EStdout ("Done." +:+ newline)]))
    | Raise e => (Raise e, w)
    end.
Proof.
  intros Hc. unfold main. unfold bind at 1. unfold json_load.
  destruct (load_config ext (arg_config args)) as [cfg|e]; [|done].
  rewrite Hc. unfold bind at 1. unfold print at 1, emit at 1.
  unfold bind at 1. rewrite cleanup_eq. unfold print, emit, with_fs. cbn.
  by rewrite <- app_assoc.
Qed.

(** X6 for a run with [--cleanup] and every other flag. *)
Lemma cleanup_flag_overrides_the_others_witness :
  launched (trace (main Example.ext Cases.cleanup_and_all Example.world).2) = [] /\
  fs (main Example.ext Cases.cleanup_and_all Example.world).2 = [(["work"], Directory)].
Proof.
  rewrite (cleanup_flag_overrides_the_others Example.ext Cases.cleanup_and_all Example.world
             eq_refl).
  split; vm_compute; reflexivity.
Defined.

Lemma strip_prefix_siblings c a b q :
  a <> b -> Fs.strip_prefix (c ++ [a]) (c ++ b :: q) = None.
Proof.
  intros Hab. induction c as [|x c IH]; cbn.
  - by apply String.eqb_neq in Hab as ->.
  - by rewrite String.eqb_refl.
Qed.

Lemma isdir_remove_sibling f c a b :
  a <> b -> Fs.isdir (rmtree_fs f (c ++ [a])) (c ++ [b]) = Fs.isdir f (c ++ [b]).
Proof.
  intros Hab. unfold rmtree_fs. destruct (Fs.isdir f (c ++ [a])); [|done].
  unfold Fs.isdir. by rewrite kind_of_remove_tree, strip_prefix_siblings.
Qed.

Lemma string_app_nil_r (s : string) : s +:+ "" = s.
Proof. induction s as [|x s IH]; [done|]. by rewrite string_app_cons, IH. Qed.

Lemma resolve_name cwd name :
  component name = true -> Fs.resolve cwd name = cwd_comps cwd ++ [name].
Proof.
  intros H. rewrite <- (resolve_rel cwd [name] false); [|by repeat constructor|done].
  cbn [Str.join]. by rewrite string_app_nil_r.
Qed.

Lemma filter_twice {A} (p q : A -> bool) l :
  List.filter p (List.filter q l) = List.filter (fun x => q x && p x) l.
Proof.
  induction l as [|x l IH]; [done|]. cbn. destruct (q x); cbn; [|done].
  destruct (p x); by rewrite IH.
Qed.

Lemma rmtree_fs_filter f d :
  rmtree_fs f d = List.filter (fun e => negb (Fs.isdir f d && Fs.under d e)) f.
Proof.
  unfold rmtree_fs, Fs.remove_tree. destruct (Fs.isdir f d); [done|].
  cbn [andb negb]. induction f as [|x f IH]; [done|]. cbn. by rewrite <- IH.
Qed.

(** X7.  [cleanup()] removes the entries at or under those of [build],
    [sources] and [tarballs] that are directories, keeps every other entry
    of the file system, in order, and prints nothing. *)
Theorem cleanup_removes_three_trees_only w :
  fs (cleanup w).2 = List.filter (fun e => negb (swept w e)) (fs w) /\
  trace (cleanup w).2 = trace w.
Proof.
  rewrite cleanup_eq. cbn [snd with_fs fs trace]. split; [|done].
  unfold cleanup_fs, swept. cbn [existsb].
  rewrite !resolve_name by done.
  set (c := cwd_comps (getcwd w)). set (f := fs w).
  rewrite (rmtree_fs_filter _ (c ++ ["tarballs"])).
  rewrite !isdir_remove_sibling by done.
  rewrite (rmtree_fs_filter _ (c ++ ["sources"])).
  rewrite !isdir_remove_sibling by done.
  rewrite (rmtree_fs_filter _ (c ++ ["build"])).
  rewrite !filter_twice. apply filter_ext. intros e.
  rewrite orb_false_r, !negb_orb. by rewrite andb_assoc.
Qed.

Lemma startswith_app_cons c a b : Str.startswith "/" (String c a +:+ b) = Str.startswith "/" (String c a).
Proof. by rewrite string_app_cons. Qed.

Lemma normpath_isabs p : posixpath.isabs p = true -> posixpath.isabs (posixpath.normpath p) = true.
Proof.
  unfold posixpath.isabs. intros Hp. rewrite normpath_eq.
  destruct p as [|c p]; [done|]. cbn [String.eqb]. cbv zeta.
  unfold initial_slashes. rewrite Hp.
  destruct (_ && _); rewrite !string_app_cons; reflexivity.
Qed.

Lemma abspath_isabs cwd p :
  posixpath.isabs cwd = true -> posixpath.isabs (posixpath.abspath cwd p) = true.
Proof.
  intros Hcwd. unfold posixpath.abspath.
  destruct (posixpath.isabs p) eqn:Hp; [by apply normpath_isabs|].
  apply normpath_isabs. unfold posixpath.join. unfold posixpath.isabs in Hp. rewrite Hp.
  unfold posixpath.isabs in *. destruct cwd as [|c cwd]; [done|].
  destruct (_ || _); by rewrite startswith_app_cons.
Qed.

(** X8.  When the current directory is absolute and [PATH] is defined,
    the [PATH] that [get_build_env] composes is the [bin] directory of the
    prefix, then those of the MinGW and of the ELF host compiler when they
    are not empty, then the ambient path, joined with colons; and each of
    these [bin] entries is an absolute path, also when the prefix given is
    relative. *)
Theorem composed_entries_are_absolute w prefix mingw_gcc elf_gcc target path :
  posixpath.isabs (getcwd w) = true ->
  os_environ w !! "PATH" = Some path ->
  let dirs := prefix :: List.filter Str.truthy [mingw_gcc; elf_gcc] in
  composed_PATH w prefix mingw_gcc elf_gcc target
  = Some (Str.join ":" (map (bin w) dirs ++ [path])) /\
  Forall (fun d => posixpath.isabs (bin w d) = true) dirs.
Proof.
  intros Hcwd Hpath dirs. split.
  - rewrite (composed_PATH_eq _ _ _ _ _ _ Hpath). unfold dirs, build_path, prepend_bin, bin.
    f_equal. cbn [List.filter].
    destruct (Str.truthy mingw_gcc), (Str.truthy elf_gcc); cbn [map app Str.join];
      by rewrite ?string_app_assoc.
  - apply Forall_forall. intros d _. unfold bin.
    pose proof (abspath_isabs (getcwd w) d Hcwd) as H. unfold posixpath.isabs in *.
    destruct (posixpath.abspath (getcwd w) d); [done|]. by rewrite startswith_app_cons.
Qed.

(** X8 for a relative prefix and a host compiler given with [..]. *)
Lemma composed_entries_are_absolute_witness :
  composed_PATH Example.world "out" "" "../elf" "x86_64-elf"
  = Some "/work/out/bin:/elf/bin:/usr/bin:/bin".
Proof.
  exact (proj1 (composed_entries_are_absolute Example.world "out" "" "../elf" "x86_64-elf"
                  "/usr/bin:/bin" eq_refl eq_refl)).
Defined.

Lemma kind_of_app f g p :
  Fs.kind_of (f ++ g) p
  = match Fs.kind_of f p with Some k => Some k | None => Fs.kind_of g p end.
Proof.
  induction f as [|[q k] f IH]; [done|]. cbn. by destruct (decide (q = p)).
Qed.

Lemma kind_of_add f q k p :
  Fs.kind_of (Fs.add f q k) p
  = match Fs.kind_of f p with
    | Some k' => Some k'
    | None => if decide (q = p) then Some k else None
    end.
Proof.
  unfold Fs.add. destruct (Fs.kind_of f q) eqn:Hq.
  - destruct (Fs.kind_of f p) eqn:Hp; [done|].
    destruct (decide (q = p)) as [->|]; [congruence|done].
  - rewrite kind_of_app. cbn. by destruct (Fs.kind_of f p).
Qed.

Lemma isdir_add f q k p : Fs.isdir f p = true -> Fs.isdir (Fs.add f q k) p = true.
Proof.
  unfold Fs.isdir. rewrite kind_of_add. by destruct (Fs.kind_of f p) as [[]|].
Qed.

(** Entries are kept by [makedirs], and the directory asked for is there
    when it returns. *)
Lemma makedirs_mono todo : forall above f f' p k,
  Fs.makedirs above todo f = Ok f' -> Fs.kind_of f p = Some k -> Fs.kind_of f' p = Some k.
Proof.
  induction todo as [|c todo IH]; intros above f f' p k; cbn.
  - by intros [= ->].
  - destruct (Fs.kind_of f (above ++ [c])) as [[]|] eqn:Hk.
    + by destruct todo.
    + apply IH.
    + intros Hm Hp. eapply IH; [exact Hm|]. rewrite kind_of_app. by rewrite Hp.
Qed.

Lemma makedirs_isdir todo : forall above f f',
  todo <> [] -> Fs.makedirs above todo f = Ok f' -> Fs.isdir f' (above ++ todo) = true.
Proof.
  induction todo as [|c todo IH]; intros above f f' Hne; [done|]. cbn.
  destruct (Fs.kind_of f (above ++ [c])) as [[]|] eqn:Hk.
  - by destruct todo.
  - destruct todo as [|c' todo].
    + cbn. intros [= <-]. unfold Fs.isdir. by rewrite Hk.
    + intros Hm. rewrite (cons_middle c), app_assoc. by eapply IH.
  - destruct todo as [|c' todo].
    + cbn. intros [= <-]. unfold Fs.isdir. rewrite kind_of_app, Hk. cbn.
      by rewrite decide_True.
    + intros Hm. rewrite (cons_middle c), app_assoc. by eapply IH.
Qed.

Lemma os_makedirs_isdir name w w' :
  component name = true ->
  os_makedirs name w = (Ok tt, w') ->
  has_dir (getcwd w) (Fs.resolve (getcwd w) name) w'.
Proof.
  intros Hname. unfold os_makedirs, set_fs.
  destruct (Fs.makedirs _ _ _) as [f|e] eqn:Hm; [|done]. intros [= <-].
  split; [done|]. cbn [fs].
  apply (makedirs_isdir _ [] _ _) in Hm; [done|].
  rewrite resolve_name by done. by destruct (cwd_comps _).
Qed.

Section KeepsMonad.

Context (Q : World -> Prop).

Lemma Keeps_ret {A} (a : A) : Keeps Q (ret a).
Proof. by intros w. Qed.

Lemma Keeps_raise {A} e : Keeps Q (@raise A e).
Proof. by intros w. Qed.

Lemma Keeps_bind {A B} (c : M A) (k : A -> M B) :
  Keeps Q c -> (forall a, Keeps Q (k a)) -> Keeps Q (bind c k).
Proof.
  intros Hc Hk w Hw. specialize (Hc w Hw). unfold bind.
  destruct (c w) as [[a|e] w']; cbn in *; [by apply Hk|done].
Qed.

End KeepsMonad.

Lemma Keeps_print cwd d s : Keeps (has_dir cwd d) (print s).
Proof. by intros w [? ?]. Qed.

Lemma Keeps_open_write cwd d p : Keeps (has_dir cwd d) (open_write p).
Proof.
  intros w [Hc Hd]. unfold open_write, bind, set_fs, emit.
  repeat (case_match; cbn); split; try done; by apply isdir_add.
Qed.

Lemma Keeps_urlretrieve ext cwd d url filename :
  Keeps (has_dir cwd d) (urlretrieve ext url filename).
Proof.
  unfold urlretrieve. destruct (url_ok ext url); [|apply Keeps_raise].
  apply Keeps_bind; [apply Keeps_open_write|]. intros _. by intros w [? ?].
Qed.

(** When [download_sources] gives up on a transfer, [tarballs] is there. *)
Lemma download_sources_URLError ext b g c m w :
  (download_sources ext b g c m w).1 = Raise URLError ->
  has_dir (getcwd w) (Fs.resolve (getcwd w) "tarballs") (download_sources ext b g c m w).2.
Proof.
  intros H. unfold download_sources in *. cbv zeta in *.
  unfold bind at 1 in H. unfold bind at 1.
  destruct (os_makedirs "tarballs" w) as [[[]|e] w1] eqn:Hm.
  - clear H. apply (os_makedirs_isdir "tarballs" w w1 eq_refl) in Hm.
    revert Hm.
    match goal with |- _ -> has_dir _ _ (snd (?c w1)) =>
      assert (Hk : Keeps (has_dir (getcwd w) (Fs.resolve (getcwd w) "tarballs")) c)
    end; [|by apply Hk].
    repeat first [ apply Keeps_print | apply Keeps_urlretrieve | apply Keeps_bind | intros ? ].
  - cbn in H. injection H as ->. unfold os_makedirs in Hm.
    destruct (Fs.makedirs _ _ _) eqn:Hm'; [done|]. injection Hm as -> _.
    by destruct (makedirs_raises _ _ _ _ Hm').
Qed.

Section RaisesMain.

Context (ext : Externals) (E : Exn -> Prop).

Hypothesis Ekey : forall k, E (KeyError k).
Hypothesis Eexists : E FileExistsError.
Hypothesis Enotdir : E NotADirectoryError.
Hypothesis Eindex : E IndexError.
Hypothesis Enotfound : E FileNotFoundError.
Hypothesis Eisdir : E IsADirectoryError.
Hypothesis Eread : E ReadError.

Lemma Raises_os_path_isdir p : Raises E (os_path_isdir p).
Proof. unfold os_path_isdir. total. Qed.

Lemma Raises_shutil_rmtree p : Raises E (shutil_rmtree p).
Proof. unfold shutil_rmtree, set_fs. total. Qed.

Lemma Raises_config_get cfg k : Raises E (config_get cfg k).
Proof. unfold config_get. destruct (cfg !! k); [apply Raises_ret|by apply Raises_raise]. Qed.

Lemma Raises_os_listdir p : Raises E (os_listdir p).
Proof. unfold os_listdir. raises_prim. Qed.

Lemma Raises_open_write p : Raises E (open_write p).
Proof.
  intros w e. unfold open_write, bind, set_fs, emit.
  repeat (case_match; simplify_eq/=); intros; simplify_eq; auto.
Qed.

Lemma extract_members_raises dest members : forall f e,
  fold_left (extract_member dest) members f = Raise e ->
  f = Raise e \/ e = FileExistsError \/ e = NotADirectoryError.
Proof.
  induction members as [|m members IH]; intros f e; cbn; [auto|].
  intros H. apply IH in H as [H|H]; [|auto].
  unfold extract_member in H. destruct f as [f|e']; [|auto].
  destruct (Fs.makedirs _ _ _) eqn:Hm; [done|]. injection H as ->.
  right. by eapply makedirs_raises.
Qed.

Lemma Raises_tar_extractall archive dest : Raises E (tar_extractall ext archive dest).
Proof.
  intros w e. unfold tar_extractall, bind, set_fs, emit.
  repeat (case_match; simplify_eq/=); intros; simplify_eq; auto.
  match goal with H : fold_left _ _ _ = Raise _ |- _ =>
    apply extract_members_raises in H as [?|[->| ->]]; [done|auto..] end.
Qed.

Lemma Raises_extract_sources : Raises E (extract_sources ext).
Proof.
  unfold extract_sources.
  pose proof Raises_tar_extractall. pose proof Raises_os_listdir. raises.
Qed.

Lemma Raises_pack_compiler a p arch plat fmt : Raises E (pack_compiler a p arch plat fmt).
Proof.
  unfold pack_compiler, tar_add.
  pose proof Raises_open_write. pose proof Raises_os_listdir. raises.
Qed.

End RaisesMain.

(** X9.  When the configuration loads and the run of [main] ends in
    [URLError], [tarballs] was not a directory at the start and is one at
    the end: the run made the directory before the transfer failed.  A
    later run from the state it left, with any flags and any network,
    therefore downloads nothing. *)
Theorem failed_download_is_not_retried ext args cfg w :
  load_config ext (arg_config args) = Ok cfg ->
  (main ext args w).1 = Raise URLError ->
  let w1 := (main ext args w).2 in
  Fs.isdir (fs w) (Fs.resolve (getcwd w) "tarballs") = false /\
  Fs.isdir (fs w1) (Fs.resolve (getcwd w1) "tarballs") = true /\
  forall ext2 args2, retrieved (trace (main ext2 args2 w1).2) = retrieved (trace w1).
Proof.
  intros Hcfg Hraise w1.
  set (E := fun e : Exn => e <> URLError).
  assert (E1 : forall k, E (KeyError k)) by done.
  assert (E2 : E FileExistsError) by done.
  assert (E3 : E NotADirectoryError) by done.
  assert (E4 : E IndexError) by done.
  assert (E5 : E FileNotFoundError) by done.
  assert (E6 : E IsADirectoryError) by done.
  assert (E7 : E ReadError) by done.
  pose proof (Raises_config_get E E1) as R1.
  pose proof (Raises_os_path_isdir E) as R2.
  pose proof (Raises_extract_sources ext E E2 E3 E5 E6 E7) as R3.
  pose proof (Raises_build_mingw_toolchain ext E (E1 _) E2 E3 E4 E5) as R4.
  pose proof (Raises_build_elf_toolchain ext E (E1 _) E2 E3 E4 E5) as R5.
  pose proof (Raises_build_win_mingw ext E (E1 _) E2 E3 E4 E5) as R6.
  pose proof (Raises_build_win_elf ext E (E1 _) E2 E3 E4 E5) as R7.
  pose proof (Raises_pack_compiler E E3 E5 E6) as R8.
  pose proof (Raises_shutil_rmtree E) as R9.
  assert (Hgoal : Fs.isdir (fs w) (Fs.resolve (getcwd w) "tarballs") = false /\
                  has_dir (getcwd w) (Fs.resolve (getcwd w) "tarballs") w1).
  { subst w1. remember (main ext args w) as r eqn:Hr.
    unfold main in Hr. unfold bind at 1 in Hr. unfold json_load at 1 in Hr.
    rewrite Hcfg in Hr. destruct (arg_cleanup args).
    { exfalso. rewrite Hr in Hraise. revert Hraise.
      match goal with |- fst (?c w) = _ -> _ => assert (Hc : Raises E c) end.
      { unfold cleanup. raises. }
      intros H. by apply Hc in H. }
    unfold bind at 1 in Hr. unfold os_path_isdir at 1 in Hr.
    destruct (Fs.isdir (fs w) (Fs.resolve (getcwd w) "tarballs")) eqn:Htar.
    { exfalso. rewrite Hr in Hraise. revert Hraise.
      match goal with |- fst (?c w) = _ -> _ => assert (Hc : Raises E c) end.
      { raises. }
      intros H. by apply Hc in H. }
    split; [done|].
    cbn [negb] in Hr. unfold when at 1 in Hr. unfold bind at 1 in Hr.
    match type of Hr with _ = match ?d w with _ => _ end =>
      destruct (d w) as [[[]|e] w2] eqn:Hd end.
    { exfalso. rewrite Hr in Hraise. revert Hraise.
      match goal with |- fst (?c w2) = _ -> _ => assert (Hc : Raises E c) end.
      { raises. }
      intros H. by apply Hc in H. }
    subst r. cbn [fst snd] in *. injection Hraise as ->.
    revert Hd. unfold bind at 1. unfold print at 1, emit at 1.
    unfold bind at 1. unfold config_get at 1. destruct (cfg !! "binutils") as [b|]; [|done].
    unfold ret at 1.
    unfold bind at 1. unfold config_get at 1. destruct (cfg !! "gdb") as [g|]; [|done].
    unfold ret at 1.
    unfold bind at 1. unfold config_get at 1. destruct (cfg !! "gcc") as [c|]; [|done].
    unfold ret at 1.
    unfold bind at 1. unfold config_get at 1. destruct (cfg !! "mingw") as [m|]; [|done].
    unfold ret at 1.
    unfold bind at 1.
    match goal with |- match download_sources ext b g c m ?w0 with _ => _ end = _ -> _ =>
      pose proof (download_sources_URLError ext b g c m w0) as Hdl;
      destruct (download_sources ext b g c m w0) as [[[]|e] w3] end.
    - done.
    - intros [= -> ->]. by apply Hdl. }
  destruct Hgoal as [Htar [Hcwd Hdir]]. split; [done|]. split; [by rewrite Hcwd|].
  intros ext2 args2. rewrite <- Hcwd in Hdir.
  destruct (main_with_tarballs ext2 (fun e => is_retrieve e = false) args2 w1
              ltac:(done) ltac:(done) ltac:(done) ltac:(done) ltac:(done) Hdir)
    as (t & -> & Ht).
  by apply retrieved_quiet.
Qed.

(** X9 without network, from an empty working directory. *)
Lemma failed_download_is_not_retried_witness :
  (main Cases.offline Cases.everything Cases.bare_world).1 = Raise URLError /\
  forall ext2 args2,
    retrieved (trace (main ext2 args2
                        (main Cases.offline Cases.everything Cases.bare_world).2).2) = [].
Proof.
  assert (Hraise : (main Cases.offline Cases.everything Cases.bare_world).1 = Raise URLError)
    by (vm_compute; reflexivity).
  split; [exact Hraise|].
  destruct (failed_download_is_not_retried Cases.offline Cases.everything _
              Cases.bare_world eq_refl Hraise) as (_ & _ & H).
  intros ext2 args2. rewrite H. vm_compute. reflexivity.
Defined.

Section LogsMonad.

Context {X : Type} (obs : list Event -> list X).

Lemma Logs_bind {A B} l1 l2 (c : M A) (k : A -> M B) :
  Logs obs l1 c -> (forall a, Logs obs l2 (k a)) -> Logs obs (l1 ++ l2) (bind c k).
Proof.
  intros Hc Hk w. destruct (Hc w) as (n1 & Hn1 & H1 & Hok1). unfold bind.
  destruct (c w) as [[a|e] w1]; cbn in *.
  - destruct (Hk a w1) as (n2 & Hn2 & H2 & Hok2).
    rewrite (Hok1 a eq_refl) in H1. rewrite firstn_all in H1.
    exists (length l1 + n2). rewrite length_app. split; [lia|]. split.
    + rewrite H2, H1, <- app_assoc. f_equal.
      rewrite take_app_add'; [done|done].
    + intros b Hb. by rewrite (Hok2 b Hb).
  - exists n1. rewrite length_app. split; [lia|]. split; [|done].
    rewrite H1. f_equal. by rewrite take_app_le.
Qed.

(** A program that [obs] does not see. *)
Lemma Logs_none {A} (c : M A) :
  (forall w, obs (trace (c w).2) = obs (trace w)) -> Logs obs [] c.
Proof. intros H w. exists 0. rewrite H, app_nil_r. by repeat split. Qed.

Lemma Logs_for_each {A} (g : A -> list X) (xs : list A) (f : A -> M unit) :
  (forall x, Logs obs (g x) (f x)) -> Logs obs (flat_map g xs) (for_each xs f).
Proof.
  intros Hf. induction xs as [|x xs IH]; cbn [for_each flat_map].
  - by apply Logs_none.
  - apply Logs_bind; [apply Hf|]. by intros _.
Qed.

End LogsMonad.

Lemma retrieved_app t1 t2 : retrieved (t1 ++ t2) = retrieved t1 ++ retrieved t2.
Proof. induction t1 as [|[] t1 IH]; cbn; by rewrite ?IH. Qed.

Lemma extracted_app t1 t2 : extracted (t1 ++ t2) = extracted t1 ++ extracted t2.
Proof. induction t1 as [|[] t1 IH]; cbn; by rewrite ?IH. Qed.

Lemma Logs_urlretrieve ext url filename :
  Logs retrieved [(url, filename)] (urlretrieve ext url filename).
Proof.
  intros [we wh wc wf wt]. unfold urlretrieve, bind, open_write, set_fs, emit.
  destruct (url_ok ext url); cbn.
  - repeat (case_match; simplify_eq/=);
      first [ (exists 1; split; [lia|]; split; [|done];
               rewrite !retrieved_app; cbn; by rewrite ?app_nil_r)
            | (exists 0; split; [lia|]; split; [|done]; by rewrite app_nil_r) ].
  - exists 0. split; [lia|]. split; [|done]. by rewrite app_nil_r.
Qed.

Ltac unseen :=
  apply Logs_none; intros [we wh wc wf wt]; cbn; repeat (case_match; cbn);
  rewrite ?retrieved_app, ?extracted_app; cbn [retrieved extracted];
  rewrite ?app_nil_r; reflexivity.

(** X10.  The transfers [download_sources] completes are an initial part
    of binutils, gdb, gcc, mingw-w64, in this order, each from its URL to
    its file under [tarballs/]; when it returns normally, all four were
    completed. *)
Theorem download_sources_fetches_in_order ext b g c m w :
  exists n,
    n <= 4 /\
    retrieved (trace (download_sources ext b g c m w).2)
    = retrieved (trace w) ++ take n (download_plan b g c m) /\
    ((download_sources ext b g c m w).1 = Ok tt -> n = 4).
Proof.
  assert (H : exists l, Logs retrieved l (download_sources ext b g c m)
                        /\ l = download_plan b g c m).
  { eexists. split.
    - unfold download_sources. cbv zeta.
      repeat first
        [ eapply (Logs_bind retrieved); [|intros ?]
        | apply Logs_urlretrieve
        | (unfold os_makedirs, set_fs, print, emit; unseen) ].
    - reflexivity. }
  destruct H as (l & H & ->).
  destruct (H w) as (n & Hn & Hl & Hok). exists n. split; [exact Hn|]. split; [exact Hl|].
  by apply Hok.
Qed.

(** With a network that fails from the third transfer on, two are completed. *)
Lemma download_sources_fetches_in_order_example :
  retrieved (trace (download_sources Cases.flaky "2.42" "14.2" "14.1.0" "11.0.1"
                      Cases.bare_world).2)
  = [ ("https://ftp.gnu.org/gnu/binutils/binutils-2.42.tar.gz", "tarballs/binutils-2.42.tar.gz");
      ("https://ftp.gnu.org/gnu/gdb/gdb-14.2.tar.gz", "tarballs/gdb-14.2.tar.gz") ].
Proof. vm_compute. reflexivity. Qed.

Lemma strip_prefix_Some d : forall q r, Fs.strip_prefix d q = Some r -> q = d ++ r.
Proof.
  induction d as [|a d IH]; intros q r; cbn.
  - by intros [= ->].
  - destruct q as [|b q]; [done|]. destruct (String.eqb_spec a b) as [->|]; [|done].
    intros H. by rewrite (IH _ _ H).
Qed.

(** What [makedirs] adds lies on the way to the directory asked for. *)
Lemma makedirs_adds todo : forall above f f',
  Fs.makedirs above todo f = Ok f' ->
  exists news,
    f' = f ++ news /\
    Forall (fun e => exists j, e.1 = above ++ take j todo) news.
Proof.
  induction todo as [|c todo IH]; intros above f f'; cbn.
  - intros [= <-]. exists []. by rewrite app_nil_r.
  - destruct (Fs.kind_of f (above ++ [c])) as [[]|] eqn:Hk.
    + by destruct todo.
    + intros (news & -> & Hnews)%IH. exists news. split; [done|].
      eapply Forall_impl; [exact Hnews|]. intros e [j ->]. exists (S j).
      by rewrite <- app_assoc.
    + intros (news & -> & Hnews)%IH. exists ((above ++ [c], Directory) :: news).
      split; [by rewrite <- app_assoc|]. constructor.
      * exists 1. cbn. by rewrite take_0.
      * eapply Forall_impl; [exact Hnews|]. intros e [j ->]. exists (S j).
        by rewrite <- app_assoc.
Qed.

Lemma scan_app f g d : Fs.scan (f ++ g) d = Fs.scan f d ++ Fs.scan g d.
Proof. unfold Fs.scan. apply omap_app. Qed.

(** Making one directory of the current directory adds nothing to
    another. *)
Lemma makedirs_scan_sibling c a b f f' :
  Fs.makedirs [] (c ++ [a]) f = Ok f' -> Fs.scan f' (c ++ [b]) = Fs.scan f (c ++ [b]).
Proof.
  intros (news & -> & Hnews)%makedirs_adds. rewrite scan_app.
  assert (Fs.scan news (c ++ [b]) = []) as ->; [|by rewrite app_nil_r].
  induction Hnews as [|e news [j He] _ IH]; [done|].
  unfold Fs.scan in *. cbn [omap list_omap]. rewrite IH.
  unfold Fs.child_name. destruct (Fs.strip_prefix _ _) as [[|name [|]]|] eqn:Hs; try done.
  apply strip_prefix_Some in Hs. rewrite He in Hs. cbn in Hs.
  apply (f_equal length) in Hs. rewrite length_take, !length_app in Hs. cbn in Hs. lia.
Qed.

Lemma makedirs_kind_sibling c a b f f' :
  a <> b -> Fs.makedirs [] (c ++ [a]) f = Ok f' ->
  Fs.kind_of f' (c ++ [b]) = Fs.kind_of f (c ++ [b]).
Proof.
  intros Hab (news & -> & Hnews)%makedirs_adds. rewrite kind_of_app.
  destruct (Fs.kind_of f (c ++ [b])); [done|].
  induction Hnews as [|[p k] news [j He] _ IH]; [done|]. cbn.
  destruct (decide (p = c ++ [b])) as [Hp|]; [|done]. exfalso.
  cbn in He. rewrite He in Hp.
  destruct (decide (j <= length c)).
  - apply (f_equal length) in Hp. rewrite length_take, !length_app in Hp. cbn in Hp. lia.
  - rewrite take_ge in Hp by (rewrite length_app; cbn; lia).
    by apply app_inv_head in Hp as [= ->].
Qed.

Lemma Logs_tar_extractall ext archive dest :
  Logs extracted [(archive, dest)] (tar_extractall ext archive dest).
Proof.
  intros [we wh wc wf wt]. unfold tar_extractall, bind, set_fs, emit. cbn.
  repeat (case_match; simplify_eq/=);
    first [ (exists 1; split; [lia|]; split; [|done];
             rewrite !extracted_app; cbn; by rewrite ?app_nil_r)
          | (exists 0; split; [lia|]; split; [|done]; by rewrite app_nil_r) ].
Qed.

Lemma extraction_plan_flat_map names :
  flat_map (fun filename =>
              if Str.contains ".tar." filename
              then [("tarballs/" +:+ filename, "sources")] else [])
           names
  = extraction_plan names.
Proof.
  unfold extraction_plan. induction names as [|x names IH]; [done|]. cbn.
  destruct (Str.contains ".tar." x); cbn; by rewrite IH.
Qed.

Lemma logs_nothing {X} (l o : list X) (r : Res unit) :
  r <> Ok tt ->
  exists n, n <= length l /\ o = o ++ take n l /\ (r = Ok tt -> n = length l).
Proof. intros Hr. exists 0. split; [lia|]. split; [by rewrite app_nil_r|done]. Qed.

(** X11.  The archives [extract_sources] extracts are an initial part of
    the entries of [tarballs] whose name contains [.tar.], in the order
    of the listing, each extracted into [sources]; when it returns
    normally, all of them were extracted. *)
Theorem extract_sources_takes_the_tar_files ext w :
  let plan := extraction_plan (Fs.scan (fs w) (Fs.resolve (getcwd w) "tarballs")) in
  exists n,
    n <= length plan /\
    extracted (trace (extract_sources ext w).2) = extracted (trace w) ++ take n plan /\
    ((extract_sources ext w).1 = Ok tt -> n = length plan).
Proof.
  intros plan. remember (extract_sources ext w) as r eqn:Hr.
  unfold extract_sources in Hr. unfold bind at 1 in Hr. unfold os_makedirs at 1 in Hr.
  destruct (Fs.makedirs [] (Fs.resolve (getcwd w) "sources") (fs w)) as [f1|e] eqn:Hm.
  2:{ subst r. apply logs_nothing. discriminate. }
  cbn [set_fs] in Hr. unfold bind at 1 in Hr. unfold os_listdir at 1 in Hr.
  cbn [fs getcwd] in Hr. subst plan.
  rewrite (resolve_name _ "sources") in Hm by done.
  rewrite !(resolve_name _ "tarballs") in Hr by done.
  rewrite (resolve_name _ "tarballs") by reflexivity.
  rewrite (makedirs_kind_sibling _ "sources" "tarballs" _ _ ltac:(done) Hm) in Hr.
  rewrite (makedirs_scan_sibling _ _ _ _ _ Hm) in Hr.
  destruct (Fs.kind_of (fs w) (cwd_comps (getcwd w) ++ ["tarballs"])) as [[]|];
    [subst r; apply logs_nothing; discriminate| |subst r; apply logs_nothing; discriminate].
  set (names := Fs.scan (fs w) (cwd_comps (getcwd w) ++ ["tarballs"])) in *.
  match type of Hr with _ = for_each names ?body ?w1 =>
    assert (Hl : Logs extracted (extraction_plan names) (for_each names body));
    [|subst r; destruct (Hl w1) as (n & Hn & Hx & Hok)] end.
  { rewrite <- extraction_plan_flat_map. apply Logs_for_each. intros x.
    destruct (Str.contains ".tar." x); cbn [negb].
    - change [("tarballs/" +:+ x, "sources")] with ([] ++ [("tarballs/" +:+ x, "sources")]).
      apply Logs_bind; [unfold print, emit; unseen|]. intros _. apply Logs_tar_extractall.
    - unfold ret. unseen. }
  exists n. split; [exact Hn|]. split; [exact Hx|]. apply Hok.
Qed.

(** Of two tarballs and a checksum file, the two tarballs are extracted. *)
Lemma extract_sources_takes_the_tar_files_example :
  extracted (trace (extract_sources Example.ext Cases.downloaded).2)
  = [("tarballs/gcc-14.1.0.tar.gz", "sources"); ("tarballs/gdb-14.2.tar.gz", "sources")].
Proof. vm_compute. reflexivity. Qed.





(** ** Plain paths *)


Lemma length_string_app a b : String.length (a +:+ b) = String.length a + String.length b.
Proof. induction a as [|c a IH]; [done|]. rewrite string_app_cons. cbn. by rewrite IH. Qed.












(** ** The output of the archiver *)




(** ** The search path without host compilers *)

Lemma contains_char_cons c x s :
  Str.contains (String c "") (String x s) = Ascii.eqb c x || Str.contains (String c "") s.
Proof. cbn. by rewrite andb_true_r. Qed.

Lemma split_whole sep s :
  Str.contains (String sep "") s = false -> Str.split sep s = [s].
Proof.
  induction s as [|c s IH]; [done|].
  rewrite contains_char_cons. intros [Hc Hs]%orb_false_elim.
  cbn [Str.split]. rewrite Ascii.eqb_sym, Hc. by rewrite IH.
Qed.

Lemma bin_nonempty w prefix : bin w prefix <> "".
Proof.
  unfold bin. intros H. apply (f_equal String.length) in H.
  rewrite length_string_app in H. cbn in H. lia.
Qed.

(** C9, amended.  When both host compiler prefixes are the empty string
    and the ambient environment defines [PATH], the [PATH] that
    [get_build_env] composes is [abspath(P)/bin], a colon and the ambient
    path: nothing is put in for the empty prefixes.  The entry put in is
    not empty; when it holds no colon, the search path is this one entry
    followed by the entries of the ambient path, and it has an empty entry
    exactly when the ambient path has one. *)
Theorem empty_host_prefixes_add_no_entry w prefix target path :
  os_environ w !! "PATH" = Some path ->
  composed_PATH w prefix "" "" target = Some (bin w prefix +:+ ":" +:+ path) /\
  bin w prefix <> "" /\
  (Str.contains ":" (bin w prefix) = false ->
   search_path (bin w prefix +:+ ":" +:+ path) = bin w prefix :: search_path path /\
   (In "" (search_path (bin w prefix +:+ ":" +:+ path)) <-> In "" (search_path path))).
Proof.
  intros Hpath. split; [|split].
  - rewrite (composed_PATH_eq _ _ _ _ _ _ Hpath). unfold build_path, prepend_bin, bin.
    cbn [Str.truthy]. by rewrite string_app_assoc.
  - apply bin_nonempty.
  - intros Hcolon.
    assert (Hs : search_path (bin w prefix +:+ ":" +:+ path) = bin w prefix :: search_path path).
    { rewrite search_path_app. unfold search_path at 1. by rewrite (split_whole _ _ Hcolon). }
    split; [exact Hs|]. rewrite Hs. split.
    + intros [H|H]; [by destruct (bin_nonempty w prefix)|done].
    + intros H. by right.
Qed.

(** C9, counterexample.  With an empty ambient path the search path ends
    in an empty entry; and for the relative prefix [out] the entry put in
    is [/work/out/bin], not [out/bin]. *)
Lemma empty_ambient_path_leaves_an_empty_entry :
  prefix_bin_then_ambient (with_path "" Example.world) "/opt/mingw" "x86_64-w64-mingw32"
  = false /\
  search_path <$> composed_PATH (with_path "" Example.world) "/opt/mingw" "" ""
                    "x86_64-w64-mingw32"
  = Some ["/opt/mingw/bin"; ""] /\
  prefix_bin_then_ambient Example.world "out" "x86_64-w64-mingw32" = false /\
  search_path <$> composed_PATH Example.world "out" "" "" "x86_64-w64-mingw32"
  = Some ["/work/out/bin"; "/usr/bin"; "/bin"].
Proof. vm_compute. repeat split. Qed.

(** C9, at the example world. *)
Lemma empty_host_prefixes_add_no_entry_witness :
  composed_PATH Example.world "/opt/mingw" "" "" "x86_64-w64-mingw32"
  = Some "/opt/mingw/bin:/usr/bin:/bin" /\
  search_path "/opt/mingw/bin:/usr/bin:/bin" = ["/opt/mingw/bin"; "/usr/bin"; "/bin"] /\
  ~ In "" (search_path "/opt/mingw/bin:/usr/bin:/bin").
Proof.
  destruct (empty_host_prefixes_add_no_entry Example.world "/opt/mingw" "x86_64-w64-mingw32"
              "/usr/bin:/bin" eq_refl) as (Hc & _ & Hs).
  destruct (Hs eq_refl) as [Hsplit Hempty].
  split; [exact Hc|]. split; [exact Hsplit|].
  intros H. apply Hempty in H. vm_compute in H. intuition discriminate.
Defined.

(** ** What goes into the archive *)







Lemma launched_lookup w n steps i st :
  map (stage_of w) (take n steps) !! i = Some st ->
  exists s, steps !! i = Some s /\ st = stage_of w s.
Proof.
  change (map (stage_of w) ?l) with (stage_of w <$> l).
  rewrite list_lookup_fmap. destruct (take n steps !! i) as [s|] eqn:Hs; [|done].
  intros [= <-]. apply lookup_take_Some in Hs as [Hs _]. eauto.
Qed.

(** X13.  In the native MinGW recipe, when [PATH] is defined: the command
    that makes the symbolic link (the sixth launched) gets the ambient
    environment; the six stages of the mingw runtime and of winpthreads (the
    11th to the 16th) get the composed environment with [CC], [CXX] and
    [CPP] set to the target's [gcc], [g++] and [cpp]; every other stage
    gets the composed environment without these. *)
Theorem native_mingw_compiler_overrides ext w prefix path :
  os_environ w !! "PATH" = Some path ->
  exists stages,
    launched (trace (build_mingw_toolchain ext prefix w).2) = launched (trace w) ++ stages /\
    forall i st, stages !! i = Some st -> stage_env st = native_mingw_env w prefix path i.
Proof.
  intros Hpath.
  pose proof (build_mingw_toolchain_shape ext prefix w) as Hshape.
  destruct (prologue _ _ _ _ _ w) as [[env|e] w1] eqn:Hpro.
  2:{ destruct Hshape as [-> Ht]. exists []. cbn [snd]. rewrite Ht, app_nil_r.
      split; [done|]. intros i st. by rewrite lookup_nil. }
  destruct Hshape as [Ht Hb].
  destruct (prologue_ok _ _ _ _ _ _ _ _ _ Hpath Hpro) as (-> & He & Hc & Hh).
  assert (Hnone : build_mingw_toolchain ext prefix w = (Raise IndexError, w1) ->
            exists stages,
              launched (trace (build_mingw_toolchain ext prefix w).2)
              = launched (trace w) ++ stages /\
              forall i st, stages !! i = Some st ->
                           stage_env st = native_mingw_env w prefix path i).
  { intros ->. exists []. cbn [snd]. rewrite Ht, app_nil_r.
    split; [done|]. intros i st. by rewrite lookup_nil. }
  unfold plan_mingw in Hb.
  destruct (source_tree w1 "binutils") as [binutils|]; [|by apply Hnone].
  destruct (source_tree w1 "gcc") as [gcc|]; [|by apply Hnone].
  destruct (source_tree w1 "mingw") as [mingw|]; [|by apply Hnone].
  clear Hnone. cbn [mbind option_bind] in Hb. cbv zeta in Hb.
  set (target := "x86_64-w64-mingw32") in *.
  set (aprefix := posixpath.abspath (getcwd w1) prefix) in *.
  set (env := Obj (length (heap w))) in *.
  set (composed := build_env w prefix "" "" target path) in *.
  set (s1 := build_mingw_toolchain_stages_1 target aprefix binutils gcc mingw env) in *.
  assert (Hfirst : forall n i st,
            map (stage_of w1) (take n s1) !! i = Some st ->
            i < 10 /\ stage_env st = native_mingw_env w prefix path i).
  { intros n i st (s & Hs & ->)%launched_lookup.
    assert (Henv : deref env w1 = composed).
    { unfold deref, env. by rewrite Hh, list_lookup_middle. }
    unfold stage_of. cbn [stage_env]. unfold native_mingw_env.
    do 10 (destruct i as [|i]; [injection Hs as <-; cbn [step_env piped bare default];
                               split; [lia|]; first [exact Henv|exact He]|]).
    done. }
  rewrite Hb. unfold bind at 1.
  destruct (run_steps_launched ext s1 w1) as (n1 & Hn1 & Hsame1 & Hl1 & Hok1).
  destruct (run_steps ext s1 w1) as [[[]|e] w2] eqn:Hrun1.
  2:{ exists (map (stage_of w1) (take n1 s1)). cbn [snd] in *. rewrite Hl1, Ht.
      split; [done|]. intros i st Hst. by apply (Hfirst n1). }
  cbn [fst snd] in *. specialize (Hok1 eq_refl). subst n1.
  destruct Hsame1 as (He2 & Hh2 & Hc2).
  unfold bind at 1. unfold dict_copy at 1.
  assert (Hd : deref env w2 = composed).
  { unfold deref, env. by rewrite Hh2, Hh, list_lookup_middle. }
  rewrite Hd, Hh2, Hh.
  set (h := heap w ++ [composed]).
  unfold bind at 1. rewrite setitem_last.
  unfold bind at 1. rewrite setitem_last.
  unfold bind at 1. rewrite setitem_last.
  set (env_copy := Obj (length h)).
  set (crt := <["CPP" := _]> (<["CXX" := _]> (<["CC" := _]> composed))).
  set (s2 := build_mingw_toolchain_stages_2 target aprefix mingw env env_copy).
  match goal with |- context [run_steps ext s2 ?w3] => set (w4 := w3) end.
  destruct (run_steps_launched ext s2 w4) as (n2 & Hn2 & _ & Hl2 & _).
  exists (map (stage_of w1) (take 10 s1) ++ map (stage_of w4) (take n2 s2)).
  split.
  { rewrite Hl2. subst w4. cbn [trace]. rewrite Hl1, Ht. by rewrite <- app_assoc. }
  intros i st Hst. apply lookup_app_Some in Hst as [Hst|[Hlen Hst]].
  { by apply (Hfirst 10). }
  rewrite length_map, length_take in Hlen. cbn [length s1 build_mingw_toolchain_stages_1] in Hlen.
  rewrite length_map, length_take in Hst.
  cbn [length s1 build_mingw_toolchain_stages_1] in Hst.
  replace (10 `min` 10) with 10 in * by lia.
  apply launched_lookup in Hst as (s & Hs & ->).
  assert (H1 : deref env w4 = composed).
  { unfold deref, env, w4, h. cbn [heap]. rewrite <- app_assoc. cbn [app]. by rewrite list_lookup_middle. }
  assert (H2 : deref env_copy w4 = crt).
  { unfold deref, env_copy, w4. cbn [heap]. by rewrite list_lookup_middle. }
  unfold stage_of. cbn [stage_env]. unfold native_mingw_env.
  replace i with (10 + (i - 10)) by lia. generalize dependent (i - 10). intros j Hs.
  do 8 (destruct j as [|j]; [injection Hs as <-; cbn [step_env piped bare default];
                             first [exact H1|exact H2]|]).
  done.
Qed.

(** X13 in the example world, where all eighteen commands are launched. *)
Lemma native_mingw_compiler_overrides_witness :
  exists stages,
    launched (trace (build_mingw_toolchain Example.ext "/opt/mingw" Example.world).2) = stages /\
    length stages = 18 /\
    forall i st, stages !! i = Some st ->
                 stage_env st = native_mingw_env Example.world "/opt/mingw" "/usr/bin:/bin" i.
Proof.
  destruct (native_mingw_compiler_overrides Example.ext Example.world "/opt/mingw"
              "/usr/bin:/bin" eq_refl) as (stages & Hl & Henv).
  change (launched (trace Example.world) ++ stages) with stages in Hl.
  exists stages. split; [exact Hl|]. split; [|exact Henv].
  rewrite <- Hl. vm_compute. reflexivity.
Defined.

Lemma Keeps_for_each {A} Q (xs : list A) (f : A -> M unit) :
  Forall (fun x => Keeps Q (f x)) xs -> Keeps Q (for_each xs f).
Proof.
  induction 1 as [|x xs Hx _ IH]; cbn [for_each]; [apply Keeps_ret|].
  apply Keeps_bind; [done|]. by intros _.
Qed.

Lemma Keeps_get_build_env cwd d p m e t : Keeps (lacks cwd d) (get_build_env p m e t).
Proof.
  intros w Hw. destruct (os_environ w !! "PATH") as [path|] eqn:Hpath.
  - by rewrite (get_build_env_ok _ _ _ _ _ _ Hpath).
  - by rewrite (get_build_env_no_path _ _ _ _ _ Hpath).
Qed.

Lemma resolve_build cwd name :
  component name = true ->
  Fs.resolve cwd ("build/" +:+ name) = (cwd_comps cwd ++ ["build"]) ++ [name].
Proof.
  intros H. rewrite <- app_assoc. cbn [app]. rewrite <- (resolve_rel cwd ["build"; name] false).
  - cbn [Str.join]. by rewrite string_app_nil_r.
  - by repeat constructor.
  - done.
Qed.

Lemma resolve_build_slash cwd name :
  component name = true ->
  Fs.resolve cwd ("build/" +:+ name +:+ "/") = (cwd_comps cwd ++ ["build"]) ++ [name].
Proof.
  intros H. rewrite <- app_assoc. cbn [app]. rewrite <- (resolve_rel cwd ["build"; name] true).
  - cbn [Str.join]. by rewrite !string_app_assoc.
  - by repeat constructor.
  - done.
Qed.

(** Making [build/a] leaves [build/b] as it is. *)
Lemma Keeps_makedirs_build cwd a b :
  component a = true -> a <> b ->
  Keeps (lacks cwd ((cwd_comps cwd ++ ["build"]) ++ [b])) (os_makedirs ("build/" +:+ a)).
Proof.
  intros Ha Hab w [Hc Hd]. unfold os_makedirs, set_fs. rewrite Hc, (resolve_build _ _ Ha).
  destruct (Fs.makedirs _ _ _) as [f|e] eqn:Hm; [|done]. split; [done|]. cbn [snd fs].
  by rewrite (makedirs_kind_sibling _ a b _ _ Hab Hm).
Qed.

Section Inert.

Context (ext : Externals) (cwd : string) (d : Path).

Hypothesis not_made : forall st f,
  Fs.kind_of f d = None -> Fs.kind_of (fs_after (run_command ext st f)) d = None.

Lemma Keeps_run_step s : Keeps (lacks cwd d) (run_step ext s).
Proof.
  intros w [Hc Hd].
  unfold run_step, bind, print, emit, Popen, get_subprocess_output,
    print_no_end, wait, ret, emit, lacks.
  cbn [fs getcwd os_environ heap trace].
  destruct (step_cwd s) as [c|].
  - destruct (Fs.kind_of (fs w) (Fs.resolve (getcwd w) c)) as [[]|];
      [by split| |by split].
    destruct (step_collect s); cbn [snd fs getcwd]; (split; [done|by apply not_made]).
  - destruct (step_collect s); cbn [snd fs getcwd]; (split; [done|by apply not_made]).
Qed.

Lemma Keeps_run_steps steps : Keeps (lacks cwd d) (run_steps ext steps).
Proof. apply Keeps_for_each, Forall_forall. intros s _. apply Keeps_run_step. Qed.

End Inert.

Lemma run_steps_app ext l1 l2 w :
  run_steps ext (l1 ++ l2) w = (run_steps ext l1 ;; run_steps ext l2) w.
Proof.
  unfold run_steps. revert w. induction l1 as [|s l1 IH]; intros w; cbn [app for_each].
  - done.
  - unfold bind. destruct (run_step ext s w) as [[[]|e] w1]; [|done].
    rewrite IH. reflexivity.
Qed.

(** X14.  The Windows-hosted MinGW recipe runs its mingw runtime stages
    in [build/build-mingw-libs-x86_64-w64-mingw32/], a directory it does
    not make (it makes [build/build-win-mingw-libs-x86_64-w64-mingw32]).
    When nothing is at that place at the start and no command puts
    something there, the recipe raises, after launching at most eight
    commands. *)
Theorem win_mingw_needs_the_native_build_directory ext w prefix mingw_prefix :
  let d := Fs.resolve (getcwd w) "build/build-mingw-libs-x86_64-w64-mingw32/" in
  Fs.kind_of (fs w) d = None ->
  (forall st f, Fs.kind_of f d = None -> Fs.kind_of (fs_after (run_command ext st f)) d = None) ->
  (exists e, (build_win_mingw ext prefix mingw_prefix w).1 = Raise e) /\
  length (launched (trace (build_win_mingw ext prefix mingw_prefix w).2))
  <= length (launched (trace w)) + 8.
Proof.
  intros d Hd Hext.
  set (target := "x86_64-w64-mingw32") in *.
  assert (Hdd : d = (cwd_comps (getcwd w) ++ ["build"]) ++ ["build-mingw-libs-" +:+ target])
    by (subst d; by apply (resolve_build_slash _ ("build-mingw-libs-" +:+ target))).
  assert (Hw : lacks (getcwd w) d w) by done.
  pose proof (build_win_mingw_shape ext prefix mingw_prefix w) as Hshape.
  assert (Hpro : Keeps (lacks (getcwd w) d)
            (prologue prefix mingw_prefix "" target
               ["build/build-win-binutils-" +:+ target; "build/build-win-gcc-" +:+ target;
                "build/build-win-mingw-headers-" +:+ target;
                "build/build-win-mingw-libs-" +:+ target;
                "build/build-win-mingw-winpthreads-" +:+ target])).
  { unfold prologue. apply Keeps_bind; [apply Keeps_get_build_env|]. intros env.
    apply Keeps_bind; [|intros _; apply Keeps_ret].
    apply Keeps_for_each. rewrite Hdd.
    assert (Hmk : forall a, component a = true -> a <> "build-mingw-libs-" +:+ target ->
              Keeps (lacks (getcwd w)
                       ((cwd_comps (getcwd w) ++ ["build"]) ++ ["build-mingw-libs-" +:+ target]))
                    (os_makedirs ("build/" +:+ a)))
      by (intros a Ha Hab; by apply Keeps_makedirs_build).
    apply List.Forall_cons; [apply (Hmk ("build-win-binutils-" +:+ target)); by vm_compute|].
    apply List.Forall_cons; [apply (Hmk ("build-win-gcc-" +:+ target)); by vm_compute|].
    apply List.Forall_cons; [apply (Hmk ("build-win-mingw-headers-" +:+ target)); by vm_compute|].
    apply List.Forall_cons; [apply (Hmk ("build-win-mingw-libs-" +:+ target)); by vm_compute|].
    apply List.Forall_cons;
      [apply (Hmk ("build-win-mingw-winpthreads-" +:+ target)); by vm_compute|].
    apply List.Forall_nil. }
  specialize (Hpro w Hw).
  destruct (prologue _ _ _ _ _ w) as [[env|e] w1].
  2:{ destruct Hshape as [-> Ht]. cbn [fst snd]. rewrite Ht. split; [eauto|lia]. }
  destruct Hshape as [Ht Hb]. cbn [snd] in Hpro.
  unfold plan_steps, steps_win_mingw in Hb.
  destruct (source_tree w1 "binutils") as [binutils|];
    [|cbn [mbind option_bind fmap option_fmap option_map] in Hb; rewrite Hb;
      cbn [fst snd]; rewrite Ht; split; [eauto|lia]].
  destruct (source_tree w1 "gcc") as [gcc|];
    [|cbn [mbind option_bind fmap option_fmap option_map] in Hb; rewrite Hb;
      cbn [fst snd]; rewrite Ht; split; [eauto|lia]].
  destruct (source_tree w1 "mingw") as [mingw|];
    [|cbn [mbind option_bind fmap option_fmap option_map] in Hb; rewrite Hb;
      cbn [fst snd]; rewrite Ht; split; [eauto|lia]].
  cbn [mbind option_bind fmap option_fmap option_map] in Hb. rewrite Hb. clear Hb.
  match goal with |- context [run_steps ext ?l w1] =>
    change l with (take 8 l ++ drop 8 l);
    set (l1 := take 8 l); set (l2 := drop 8 l) end.
  rewrite run_steps_app. unfold bind.
  assert (Hlen1 : length l1 = 8) by reflexivity.
  destruct (run_steps_launched ext l1 w1) as (n1 & Hn1 & _ & Hl1 & _).
  rewrite Hlen1 in Hn1.
  pose proof (Keeps_run_steps ext (getcwd w) d Hext l1 w1 Hpro) as Hw2.
  destruct (run_steps ext l1 w1) as [[[]|e] w2].
  2:{ cbn [fst snd] in *. split; [eauto|].
      rewrite Hl1, Ht, length_app, length_map, length_take, Hlen1. lia. }
  cbn [fst snd] in *.
  assert (Hcwd : cwd_ok w2 (hd (bare "" "" Detach) l2) = false).
  { destruct Hw2 as [Hc2 Hd2]. unfold cwd_ok, Fs.isdir. unfold l2.
    unfold build_win_mingw_stages. cbn [drop hd step_cwd piped]. rewrite Hc2.
    change (Fs.resolve (getcwd w) _) with d. by rewrite Hd2. }
  change l2 with (hd (bare "" "" Detach) l2 :: tl l2). unfold run_steps. cbn [for_each].
  unfold bind.
  destruct (run_step_no_launch ext _ w2 Hcwd) as (e & w3 & -> & _ & _ & Hl3).
  cbn [fst snd]. split; [eauto|].
  unfold launched in *. rewrite Hl3, Hl1, Ht, length_app, !length_map, length_take, Hlen1.
  lia.
Qed.

(** X14 in the example world, with commands that leave the file system alone. *)
Lemma win_mingw_needs_the_native_build_directory_witness :
  (exists e, (build_win_mingw Cases.inert "/opt/win-mingw" "/opt/mingw" Example.world).1
             = Raise e) /\
  length (launched (trace (build_win_mingw Cases.inert "/opt/win-mingw" "/opt/mingw"
                             Example.world).2)) <= 8.
Proof.
  exact (win_mingw_needs_the_native_build_directory Cases.inert Example.world
           "/opt/win-mingw" "/opt/mingw" eq_refl (fun _ _ H => H)).
Defined.

(** There, the recipe raises [FileNotFoundError] after eight commands. *)
Lemma win_mingw_needs_the_native_build_directory_example :
  (build_win_mingw Cases.inert "/opt/win-mingw" "/opt/mingw" Example.world).1
  = Raise FileNotFoundError /\
  length (launched (trace (build_win_mingw Cases.inert "/opt/win-mingw" "/opt/mingw"
                             Example.world).2)) = 8.
Proof. split; vm_compute; reflexivity. Qed.
